(** * Planning poker: the session store and the client functions that mutate it

    A shallow embedding of [src/lib/supabase.ts] (the mutation and fetch
    functions), of the schema in the SQL migration, and of the parts of the
    [StoryManager], [VotingDeck] and [PokerSession] components that decide
    when those functions are called.

    The store is three tables of rows.  Every call that the client awaits on
    the store is one [request]: the store either carries the statement out or
    answers with an error object, and what it does is read from the [oracle]
    of the world, so that failures, generated identifiers and the clock are
    inputs of the model and not choices of it.

    Strings are strings of 8-bit characters, read as ASCII text: the
    JavaScript string operations modelled here ([toUpperCase], [trim]) are
    the engine's on text whose characters are all below 128 ([ascii_text]),
    and the properties that depend on them are stated for such text.
    Outside it the engine does more (it upper-cases non-ASCII letters and
    strips non-ASCII white space such as U+00A0), which is not modelled.
    Timestamps are integers (the store orders by the [timestamptz] column,
    the client only ever sees its rendering). *)

From Stdlib Require Import String Ascii List ZArith Bool Lia PeanoNat.
From Stdlib Require Import Permutation Sorted.
Import ListNotations.

Local Open Scope string_scope.
Local Open Scope Z_scope.
Local Open Scope list_scope.

Set Implicit Arguments.

(* ------------------------------------------------------------------ *)
(** ** The JavaScript operations the source relies on *)

Module JS.

Definition upper_char (c : ascii) : ascii :=
  let n := nat_of_ascii c in
  if (97 <=? n)%nat && (n <=? 122)%nat then ascii_of_nat (n - 32) else c.

(** [String.prototype.toUpperCase] on ASCII text: the letters a-z are
    mapped to A-Z and every other character below 128 is kept.  Characters
    from 128 on are kept too, which is not what the engine does with a
    non-ASCII letter. *)
Fixpoint toUpperCase (s : string) : string :=
  match s with
  | EmptyString => EmptyString
  | String c s' => String (upper_char c) (toUpperCase s')
  end.

(** [String.prototype.substr(start, length)] for non-negative arguments:
    the characters from [start] on, at most [length] of them. *)
Definition substr (start len : nat) (s : string) : string :=
  String.substring start len s.

Fixpoint findIndex_from {A} (f : A -> bool) (l : list A) (i : Z) : Z :=
  match l with
  | [] => -1
  | x :: l' => if f x then i else findIndex_from f l' (i + 1)
  end.

(** [Array.prototype.findIndex]: the first index whose element satisfies
    the predicate, and [-1] when there is none. *)
Definition findIndex {A} (f : A -> bool) (l : list A) : Z :=
  findIndex_from f l 0.

(** [l[i]]: [undefined] (here [None]) outside the array. *)
Definition at_ {A} (l : list A) (i : Z) : option A :=
  if i <? 0 then None else nth_error l (Z.to_nat i).

(** Truthiness of an optional string: [null], [undefined] and the empty
    string are falsy. *)
Definition truthy (s : option string) : bool :=
  match s with
  | Some s => negb (s =? "")%string
  | None => false
  end.

(** A base-36 digit as [Number.prototype.toString(36)] prints it. *)
Definition digit36 (d : nat) : ascii :=
  if (d <? 10)%nat then ascii_of_nat (48 + d) else ascii_of_nat (87 + d).

Fixpoint digits36 (ds : list nat) : string :=
  match ds with
  | [] => EmptyString
  | d :: ds' => String (digit36 d) (digits36 ds')
  end.

(** [x.toString(36)] for a number [0 <= x < 1], given the base-36 digits
    [ds] of its fraction as the engine prints them: ["0"] for zero, and
    ["0."] followed by the digits otherwise. *)
Definition toString36 (ds : list nat) : string :=
  match ds with
  | [] => "0"
  | _ => "0." ++ digits36 ds
  end.

(** The base-36 expansion of the fraction [p / q] (with [p < q]), digit by
    digit until the remainder is zero.  A double is a dyadic fraction, so
    its expansion is finite; an engine prints the shortest prefix (rounded)
    that reads back as the same double, which is the expansion itself when
    that is short. *)
Fixpoint expansion36 (fuel : nat) (p q : N) : list nat :=
  match fuel with
  | O => []
  | S fuel' =>
      if (p =? 0)%N then []
      else N.to_nat ((36 * p) / q) :: expansion36 fuel' ((36 * p) mod q) q
  end.

End JS.

(* ------------------------------------------------------------------ *)
(** ** Rows and tables (the interfaces of [supabase.ts], the migration) *)

Module Session.
Record t := mk {
  id : string;
  room_code : string;
  name : string;
  organizer_id : string;
  current_story_id : option string;
  votes_revealed : bool;
  created_at : Z;
  updated_at : Z
}.
End Session.

Module Participant.
Record t := mk {
  id : string;
  session_id : option string;
  name : string;
  avatar : option string;
  is_organizer : bool;
  has_voted : bool;
  vote : option string;
  joined_at : Z;
  last_seen : Z
}.
End Participant.

Inductive Status := pending | estimated | completed.

Module Story.
Record t := mk {
  id : string;
  session_id : option string;
  title : string;
  description : option string;
  status : Status;
  order_index : Z;
  created_at : Z
}.
End Story.

Record DB := mkDB {
  sessions : list Session.t;
  participants : list Participant.t;
  stories : list Story.t
}.

(** The error object of a store response. *)
Record PgError := mkPgError { code : string; message : string }.

(** What the store does with one request: whether it fails before running
    the statement, the identifier [gen_random_uuid()] yields and the value
    of [NOW()]. *)
Record Env := mkEnv { fault : option PgError; uuid : string; now : Z }.

Record World := mkWorld {
  tables : DB;
  tick : nat;
  oracle : nat -> Env
}.

(** The [{ data, error }] pair every store call resolves to. *)
Record Response (A : Type) := mkResponse { data : option A; error : option PgError }.

Definition ok {A} (a : A) : Response A := mkResponse (Some a) None.
Definition failed {A} (e : PgError) : Response A := mkResponse None (Some e).

(** What a function throws: [new Error(message)], a store error object
    rethrown as it is, or the [TypeError] of reading a property of
    [undefined] or [null]. *)
Inductive Exn :=
| Error (msg : string)
| Thrown (e : PgError)
| TypeError.

Inductive Outcome (A : Type) :=
| Return (a : A)
| Throw (e : Exn).
Arguments Throw {A} e.

(** An [async] function: it runs against the world and returns or throws. *)
Definition Async (A : Type) := World -> World * Outcome A.

Definition ret {A} (a : A) : Async A := fun w => (w, Return a).
Definition throw {A} (e : Exn) : Async A := fun w => (w, Throw e).

Definition bind {A B} (c : Async A) (k : A -> Async B) : Async B :=
  fun w =>
    match c w with
    | (w', Return a) => k a w'
    | (w', Throw e) => (w', Throw e)
    end.

(** [try { c } catch (error) { h error }]. *)
Definition try_catch {A} (c : Async A) (h : Exn -> Async A) : Async A :=
  fun w =>
    match c w with
    | (w', Return a) => (w', Return a)
    | (w', Throw e) => h e w'
    end.

(** [Promise.all([a, b])] of two started calls: both run to their end, the
    store sees the request of [a] before that of [b], and the first
    rejection (if any) is the one thrown. *)
Definition Promise_all2 {A B} (a : Async A) (b : Async B) : Async (A * B) :=
  fun w =>
    let '(w1, ra) := a w in
    let '(w2, rb) := b w1 in
    match ra, rb with
    | Return x, Return y => (w2, Return (x, y))
    | Throw e, _ => (w2, Throw e)
    | _, Throw e => (w2, Throw e)
    end.

Declare Scope async_scope.
Delimit Scope async_scope with async.
Notation "x <- c ;; k" := (bind c (fun x => k))
  (at level 61, c at next level, right associativity) : async_scope.
Notation "c ;;; k" := (bind c (fun _ => k))
  (at level 61, right associativity) : async_scope.
Local Open Scope async_scope.

(** One awaited store call.  A fault of the oracle leaves the tables as they
    are; otherwise the statement runs, and may itself refuse (a violated
    constraint). *)
Definition request {A} (stmt : Env -> DB -> DB * Response A) : Async (Response A) :=
  fun w =>
    let env := oracle w (tick w) in
    match fault env with
    | Some e => (mkWorld (tables w) (S (tick w)) (oracle w), Return (failed e))
    | None =>
        let '(d, r) := stmt env (tables w) in
        (mkWorld d (S (tick w)) (oracle w), Return r)
    end.

(* ------------------------------------------------------------------ *)
(** ** Statements of the store *)

Module Sql.

Definition unique_violation : PgError :=
  mkPgError "23505" "duplicate key value violates unique constraint".
Definition foreign_key_violation : PgError :=
  mkPgError "23503" "insert or update on table violates foreign key constraint".
Definition numeric_value_out_of_range : PgError :=
  mkPgError "22003" "integer out of range".
(** The answer to [.single()] when the result is not exactly one row. *)
Definition PGRST116 : PgError :=
  mkPgError "PGRST116" "JSON object requested, multiple (or no) rows returned".

(** [.eq(column, value)] on a nullable column: [NULL] equals nothing. *)
Definition eq_col (col : option string) (v : string) : bool :=
  match col with
  | Some x => (x =? v)%string
  | None => false
  end.

Fixpoint insert_by {A} (key : A -> Z) (x : A) (l : list A) : list A :=
  match l with
  | [] => [x]
  | y :: l' => if key x <=? key y then x :: l else y :: insert_by key x l'
  end.

(** [.order(column)]: ascending.  Rows with equal keys stay in table order
    here; the queries of the client name one column only, so the store is
    free to answer rows of equal key in any order (see [ordered_answer]). *)
Definition order_by {A} (key : A -> Z) (l : list A) : list A :=
  fold_right (insert_by key) [] l.

(** [.order(column, { ascending: false })]. *)
Definition order_by_desc {A} (key : A -> Z) (l : list A) : list A :=
  order_by (fun x => - key x) l.

Definition Stmt (A : Type) := Env -> DB -> DB * Response A.

(** [UPDATE ... SET ... WHERE p]: the rows that satisfy [p] are rewritten
    by [f], in place. *)
Definition update_rows {A} (p : A -> bool) (f : A -> A) (l : list A) : list A :=
  map (fun x => if p x then f x else x) l.

(** [.single()]: the one row of the result, and an error when there is
    none or more than one. *)
Definition single {A} (s : Stmt (list A)) : Stmt A :=
  fun env d =>
    let '(d', r) := s env d in
    (d', match error r with
         | Some e => failed e
         | None =>
             match data r with
             | Some [x] => ok x
             | _ => failed PGRST116
             end
         end).

(** [.limit(n)]. *)
Definition limit {A} (n : nat) (s : Stmt (list A)) : Stmt (list A) :=
  fun env d =>
    let '(d', r) := s env d in
    (d', mkResponse (option_map (firstn n) (data r)) (error r)).

Definition select_sessions (p : Session.t -> bool) : Stmt (list Session.t) :=
  fun _ d => (d, ok (filter p (sessions d))).

Definition select_participants (p : Participant.t -> bool)
    (order : list Participant.t -> list Participant.t) : Stmt (list Participant.t) :=
  fun _ d => (d, ok (order (filter p (participants d)))).

Definition select_stories (p : Story.t -> bool)
    (order : list Story.t -> list Story.t) : Stmt (list Story.t) :=
  fun _ d => (d, ok (order (filter p (stories d)))).

Definition has_session (d : DB) (sid : string) : bool :=
  existsb (fun s => (Session.id s =? sid)%string) (sessions d).

(** [session_id UUID REFERENCES sessions(id)]: null, or an existing
    session. *)
Definition fk_ok (d : DB) (ref : option string) : bool :=
  match ref with
  | None => true
  | Some sid => has_session d sid
  end.

Definition in_int4 (z : Z) : bool := (- 2147483648 <=? z) && (z <=? 2147483647).

(** [.insert({ session_id, name, avatar, is_organizer, has_voted })
    .select().single()] on [participants]; the other columns take their
    defaults. *)
Definition insert_participant (session_id : option string) (name : string)
    (avatar : option string) (is_organizer has_voted : bool) : Stmt Participant.t :=
  fun env d =>
    if existsb (fun p => (Participant.id p =? uuid env)%string) (participants d)
    then (d, failed unique_violation)
    else if negb (fk_ok d session_id) then (d, failed foreign_key_violation)
    else
      let row := Participant.mk (uuid env) session_id name avatar
                   is_organizer has_voted None (now env) (now env) in
      (mkDB (sessions d) (participants d ++ [row]) (stories d), ok row).

(** [.insert({ room_code, name, organizer_id, votes_revealed })
    .select().single()] on [sessions]; [room_code] is [UNIQUE]. *)
Definition insert_session (room_code name organizer_id : string)
    (votes_revealed : bool) : Stmt Session.t :=
  fun env d =>
    if existsb (fun s => (Session.id s =? uuid env)%string) (sessions d)
       || existsb (fun s => (Session.room_code s =? room_code)%string) (sessions d)
    then (d, failed unique_violation)
    else
      let row := Session.mk (uuid env) room_code name organizer_id None
                   votes_revealed (now env) (now env) in
      (mkDB (sessions d ++ [row]) (participants d) (stories d), ok row).

(** [.insert({ session_id, title, description, order_index })
    .select().single()] on [stories]. *)
Definition insert_story (session_id title : string) (description : option string)
    (order_index : Z) : Stmt Story.t :=
  fun env d =>
    if existsb (fun s => (Story.id s =? uuid env)%string) (stories d)
    then (d, failed unique_violation)
    else if negb (has_session d session_id) then (d, failed foreign_key_violation)
    else if negb (in_int4 order_index) then (d, failed numeric_value_out_of_range)
    else
      let row := Story.mk (uuid env) (Some session_id) title description
                   pending order_index (now env) in
      (mkDB (sessions d) (participants d) (stories d ++ [row]), ok row).

(** The object literals the client passes to [.update] on [sessions]. *)
Record SessionPatch := mkSessionPatch {
  sp_votes_revealed : option bool;
  sp_current_story_id : option string
}.

Definition patch_session (u : SessionPatch) (s : Session.t) : Session.t :=
  Session.mk (Session.id s) (Session.room_code s) (Session.name s)
    (Session.organizer_id s)
    (match sp_current_story_id u with
     | Some c => Some c
     | None => Session.current_story_id s
     end)
    (match sp_votes_revealed u with
     | Some b => b
     | None => Session.votes_revealed s
     end)
    (Session.created_at s) (Session.updated_at s).

Definition update_sessions (u : SessionPatch) (p : Session.t -> bool) : Stmt unit :=
  fun _ d =>
    (mkDB (update_rows p (patch_session u) (sessions d))
          (participants d) (stories d),
     mkResponse None None).

(** The object literals the client passes to [.update] on [participants];
    [pp_vote := Some None] is [vote: null]. *)
Record ParticipantPatch := mkParticipantPatch {
  pp_session_id : option string;
  pp_vote : option (option string);
  pp_has_voted : option bool;
  pp_last_seen : option Z
}.

Definition patch_participant (u : ParticipantPatch) (p : Participant.t) : Participant.t :=
  Participant.mk (Participant.id p)
    (match pp_session_id u with
     | Some s => Some s
     | None => Participant.session_id p
     end)
    (Participant.name p) (Participant.avatar p) (Participant.is_organizer p)
    (match pp_has_voted u with
     | Some b => b
     | None => Participant.has_voted p
     end)
    (match pp_vote u with
     | Some v => v
     | None => Participant.vote p
     end)
    (Participant.joined_at p)
    (match pp_last_seen u with
     | Some t => t
     | None => Participant.last_seen p
     end).

Definition update_participants (u : ParticipantPatch) (p : Participant.t -> bool) : Stmt unit :=
  fun _ d =>
    if existsb p (participants d) && negb (fk_ok d (pp_session_id u))
    then (d, failed foreign_key_violation)
    else
      (mkDB (sessions d)
            (update_rows p (patch_participant u) (participants d))
            (stories d),
       mkResponse None None).

(** [Partial<Story>]: every column may be given; a description may be given
    as [null] ([Some None]), which empties the column. *)
Record StoryPatch := mkStoryPatch {
  st_id : option string;
  st_session_id : option string;
  st_title : option string;
  st_description : option (option string);
  st_status : option Status;
  st_order_index : option Z;
  st_created_at : option Z
}.

Definition or_else {A} (o : option A) (a : A) : A :=
  match o with
  | Some x => x
  | None => a
  end.

Definition patch_story (u : StoryPatch) (s : Story.t) : Story.t :=
  Story.mk (or_else (st_id u) (Story.id s))
    (match st_session_id u with
     | Some x => Some x
     | None => Story.session_id s
     end)
    (or_else (st_title u) (Story.title s))
    (or_else (st_description u) (Story.description s))
    (or_else (st_status u) (Story.status s))
    (or_else (st_order_index u) (Story.order_index s))
    (or_else (st_created_at u) (Story.created_at s)).

Fixpoint distinct (l : list string) : bool :=
  match l with
  | [] => true
  | x :: l' => negb (existsb (String.eqb x) l') && distinct l'
  end.

Definition update_stories (u : StoryPatch) (p : Story.t -> bool) : Stmt unit :=
  fun _ d =>
    let rows := update_rows p (patch_story u) (stories d) in
    if negb (existsb p (stories d)) then (d, mkResponse None None)
    else if match st_id u with
            | Some _ => negb (distinct (map Story.id rows))
            | None => false
            end
    then (d, failed unique_violation)
    else if negb (fk_ok d (st_session_id u)) then (d, failed foreign_key_violation)
    else if negb (in_int4 (or_else (st_order_index u) 0))
    then (d, failed numeric_value_out_of_range)
    else (mkDB (sessions d) (participants d) rows, mkResponse None None).

Definition delete_stories (p : Story.t -> bool) : Stmt unit :=
  fun _ d =>
    (mkDB (sessions d) (participants d) (filter (fun s => negb (p s)) (stories d)),
     mkResponse None None).

Definition delete_participants (p : Participant.t -> bool) : Stmt unit :=
  fun _ d =>
    (mkDB (sessions d) (filter (fun x => negb (p x)) (participants d)) (stories d),
     mkResponse None None).

End Sql.

(* ------------------------------------------------------------------ *)
(** ** [src/lib/supabase.ts] *)

Module Supabase.
Import Sql.

(** [if (error) throw ...] followed by a use of a property of [data]. *)
Definition unwrap {A} (r : Response A) (wrap : PgError -> Exn) : Async A :=
  match error r with
  | Some e => throw (wrap e)
  | None =>
      match data r with
      | Some a => ret a
      | None => throw TypeError
      end
  end.

(** [if (error) throw error;] *)
Definition rethrow {A} (r : Response A) : Async unit :=
  match error r with
  | Some e => throw (Thrown e)
  | None => ret tt
  end.

(** [Math.random().toString(36).substr(2, 6).toUpperCase()], where [draw]
    is the digits of the number drawn, as [toString(36)] prints them. *)
Definition roomCode (draw : list nat) : string :=
  JS.toUpperCase (JS.substr 2 6 (JS.toString36 draw)).

Definition set_session_id (p : Participant.t) (sid : string) : Participant.t :=
  Participant.mk (Participant.id p) (Some sid) (Participant.name p)
    (Participant.avatar p) (Participant.is_organizer p) (Participant.has_voted p)
    (Participant.vote p) (Participant.joined_at p) (Participant.last_seen p).

Definition createSession (draw : list nat) (name organizerName : string)
    (organizerAvatar : option string) : Async (Session.t * Participant.t) :=
  let roomCode := roomCode draw in
  r1 <- request (insert_participant None organizerName organizerAvatar true false) ;;
  organizer <- unwrap r1
    (fun e => Error ("Failed to create organizer: " ++ message e)) ;;
  r2 <- request (insert_session roomCode name (Participant.id organizer) false) ;;
  session <- unwrap r2
    (fun e => Error ("Failed to create session: " ++ message e)) ;;
  r3 <- request (update_participants
                   (mkParticipantPatch (Some (Session.id session)) None None None)
                   (fun p => (Participant.id p =? Participant.id organizer)%string)) ;;
  match error r3 with
  | Some e => throw (Error ("Failed to update organizer: " ++ message e))
  | None => ret (session, set_session_id organizer (Session.id session))
  end.

Definition name_conflict : Exn :=
  Error "A participant with this name already exists in the session".

(** The first half of [joinSession]: the session is looked up by its room
    code and the participants of that session are searched for the name. *)
Definition joinSession_lookup (roomCode participantName : string) : Async Session.t :=
  r <- request (single (select_sessions
          (fun s => (Session.room_code s =? JS.toUpperCase roomCode)%string))) ;;
  session <- unwrap r (fun e => Error ("Session not found: " ++ message e)) ;;
  c <- request (single (select_participants
          (fun p => eq_col (Participant.session_id p) (Session.id session)
                    && (Participant.name p =? participantName)%string)
          (fun rows => rows))) ;;
  (* a [checkError] other than PGRST116 is written to the console *)
  match data c with
  | Some existingParticipant => throw name_conflict
  | None => ret session
  end.

(** The second half of [joinSession]: the participant row is inserted. *)
Definition joinSession_insert (session : Session.t) (participantName : string)
    (participantAvatar : option string) : Async (Session.t * option Participant.t) :=
  r <- request (insert_participant (Some (Session.id session)) participantName
                  participantAvatar false false) ;;
  match error r with
  | Some e => throw (Error ("Failed to join session: " ++ message e))
  | None => ret (session, data r)
  end.

Definition joinSession (roomCode participantName : string)
    (participantAvatar : option string) : Async (Session.t * option Participant.t) :=
  session <- joinSession_lookup roomCode participantName ;;
  joinSession_insert session participantName participantAvatar.

Record SessionData := mkSessionData {
  session : option Session.t;
  sd_participants : list Participant.t;
  sd_stories : list Story.t
}.

(** The three queries are store calls that resolve to a response and never
    reject, so [Promise.all] of them is the three awaited in turn. *)
Definition getSessionData (sessionId : string) : Async SessionData :=
  sessionResult <- request (single (select_sessions
          (fun s => (Session.id s =? sessionId)%string))) ;;
  participantsResult <- request (select_participants
          (fun p => eq_col (Participant.session_id p) sessionId)
          (order_by Participant.joined_at)) ;;
  storiesResult <- request (select_stories
          (fun s => eq_col (Story.session_id s) sessionId)
          (order_by Story.order_index)) ;;
  ret (mkSessionData (data sessionResult)
         (or_else (data participantsResult) [])
         (or_else (data storiesResult) [])).

Definition updateParticipantVote (participantId vote : string) : Async unit :=
  r <- request (update_participants
                  (mkParticipantPatch None (Some (Some vote)) (Some true) None)
                  (fun p => (Participant.id p =? participantId)%string)) ;;
  rethrow r.

Definition revealVotes (sessionId : string) : Async unit :=
  r <- request (update_sessions (mkSessionPatch (Some true) None)
                  (fun s => (Session.id s =? sessionId)%string)) ;;
  rethrow r.

Definition resetVotes (sessionId : string) : Async unit :=
  sessionUpdate <- request (update_sessions (mkSessionPatch (Some false) None)
                  (fun s => (Session.id s =? sessionId)%string)) ;;
  participantsUpdate <- request (update_participants
                  (mkParticipantPatch None (Some None) (Some false) None)
                  (fun p => eq_col (Participant.session_id p) sessionId)) ;;
  rethrow sessionUpdate ;;;
  rethrow participantsUpdate.

Definition addStory (sessionId title : string) (description : option string)
    : Async (option Story.t) :=
  r0 <- request (limit 1 (select_stories
          (fun s => eq_col (Story.session_id s) sessionId)
          (order_by_desc Story.order_index))) ;;
  let nextOrderIndex :=
    match data r0 with
    | Some (s :: _) => Story.order_index s + 1
    | _ => 0
    end in
  r <- request (insert_story sessionId title description nextOrderIndex) ;;
  rethrow r ;;;
  ret (data r).

Definition updateStory (storyId : string) (updates : StoryPatch) : Async unit :=
  r <- request (update_stories updates (fun s => (Story.id s =? storyId)%string)) ;;
  rethrow r.

Definition deleteStory (storyId : string) : Async unit :=
  r <- request (delete_stories (fun s => (Story.id s =? storyId)%string)) ;;
  rethrow r.

Definition updateCurrentStory (sessionId storyId : string) : Async unit :=
  r <- request (update_sessions (mkSessionPatch None (Some storyId))
                  (fun s => (Session.id s =? sessionId)%string)) ;;
  rethrow r.

Definition removeParticipant (participantId : string) : Async unit :=
  r <- request (delete_participants
                  (fun p => (Participant.id p =? participantId)%string)) ;;
  rethrow r.

(** [new Date()] is the clock reading of the request. *)
Definition updateParticipantLastSeen (participantId : string) : Async unit :=
  r <- request (fun env =>
          update_participants (mkParticipantPatch None None None (Some (now env)))
            (fun p => (Participant.id p =? participantId)%string) env) ;;
  rethrow r.

End Supabase.

(* ------------------------------------------------------------------ *)
(** ** [src/components/StoryManager.tsx] *)

Module StoryManager.
Import Sql.

Inductive Direction := up | down.

Definition is_up (d : Direction) : bool :=
  match d with up => true | down => false end.
Definition is_down (d : Direction) : bool :=
  match d with up => false | down => true end.

(** [stories] is the list the component was given.  The arguments of the
    first [updateStory] call read [currentStory.id] and
    [targetStory.order_index]; when either story is [undefined] that read
    throws inside the [try], before any request is made, and the [catch]
    writes to the console. *)
Definition moveStory (stories : list Story.t) (id : string) (direction : Direction)
    : Async unit :=
  let index := JS.findIndex (fun story => (Story.id story =? id)%string) stories in
  if (is_up direction && (index =? 0))
     || (is_down direction && (index =? Z.of_nat (length stories) - 1))
  then ret tt
  else
    let currentStory := JS.at_ stories index in
    let targetIndex := if is_up direction then index - 1 else index + 1 in
    let targetStory := JS.at_ stories targetIndex in
    try_catch
      (match currentStory, targetStory with
       | Some currentStory, Some targetStory =>
           Promise_all2
             (Supabase.updateStory (Story.id currentStory)
                (mkStoryPatch None None None None None
                   (Some (Story.order_index targetStory)) None))
             (Supabase.updateStory (Story.id targetStory)
                (mkStoryPatch None None None None None
                   (Some (Story.order_index currentStory)) None)) ;;;
           ret tt
       | _, _ => throw TypeError
       end)
      (fun error => ret tt).

End StoryManager.

(* ------------------------------------------------------------------ *)
(** ** [VotingDeck] and [PokerSession] *)

Module VotingDeck.

(** [handleCardClick]: the vote callback runs for a participant who is not
    the organizer, while the votes are not shown. *)
Definition handleCardClick (isOrganizer revealed : bool)
    (onVote : string -> Async unit) (value : string) : Async unit :=
  if negb isOrganizer && negb revealed then onVote value else ret tt.

End VotingDeck.

Module PokerSession.
Import Supabase.

(** The state of the component. *)
Record State := mkState {
  st_session : option Session.t;
  st_participants : list Participant.t;
  st_stories : list Story.t;
  currentStoryIndex : Z;
  selectedVote : option string;
  loading : bool
}.

Definition initial : State := mkState None [] [] 0 None true.

Definition votesRevealed (st : State) : bool :=
  match st_session st with
  | Some s => Session.votes_revealed s
  | None => false
  end.

(** [loadSessionData]: the three collections are stored first; reading
    [data.session.current_story_id] throws when [data.session] is [null],
    which the [catch] writes to the console; [finally] clears [loading]. *)
Definition loadSessionData (sessionId : string) (st : State) : Async State :=
  data <- getSessionData sessionId ;;
  let st1 := mkState (session data) (sd_participants data) (sd_stories data)
               (currentStoryIndex st) (selectedVote st) (loading st) in
  let st2 :=
    match session data with
    | None => st1
    | Some s =>
        if JS.truthy (Session.current_story_id s)
           && (0 <? Z.of_nat (length (sd_stories data)))
        then
          let storyIndex :=
            JS.findIndex (fun x => match Session.current_story_id s with
                                   | Some c => (Story.id x =? c)%string
                                   | None => false
                                   end) (sd_stories data) in
          if storyIndex >=? 0
          then mkState (st_session st1) (st_participants st1) (st_stories st1)
                 storyIndex (selectedVote st1) (loading st1)
          else st1
        else st1
    end in
  ret (mkState (st_session st2) (st_participants st2) (st_stories st2)
         (currentStoryIndex st2) (selectedVote st2) false).

Inductive View := LoadingSession | SessionNotFound | Room (s : Session.t).

(** What the component renders. *)
Definition render (st : State) : View :=
  if loading st then LoadingSession
  else match st_session st with
       | None => SessionNotFound
       | Some s => Room s
       end.

(** [allVoted]: every participant who is not the organizer has voted. *)
Definition allVoted (st : State) : bool :=
  forallb Participant.has_voted
    (filter (fun p => negb (Participant.is_organizer p)) (st_participants st)).

(** [handleVote] for the participant [currentParticipant]; a failure is
    written to the console. *)
Definition handleVote (currentParticipant : Participant.t) (value : string) : Async unit :=
  try_catch
    (if negb (Participant.id currentParticipant =? "")%string
     then updateParticipantVote (Participant.id currentParticipant) value
     else ret tt)
    (fun error => ret tt).

Definition handleRevealVotes (sessionId : string) : Async unit :=
  try_catch (revealVotes sessionId) (fun error => ret tt).

Definition handleResetVotes (sessionId : string) : Async unit :=
  try_catch (resetVotes sessionId) (fun error => ret tt).

(** A click on a card of the deck, as [PokerSession] wires it:
    [isOrganizer] comes from the current participant and [revealed] from
    the session the component holds. *)
Definition castVote (st : State) (currentParticipant : Participant.t) (value : string)
    : Async unit :=
  VotingDeck.handleCardClick (Participant.is_organizer currentParticipant)
    (votesRevealed st) (handleVote currentParticipant) value.

End PokerSession.

(* ------------------------------------------------------------------ *)
(** ** Rows after the updates of the vote life cycle *)

(** A session row after [{ votes_revealed: true }]. *)
Definition revealed_row (s : Session.t) : Session.t :=
  Sql.patch_session (Sql.mkSessionPatch (Some true) None) s.

(** A session row after [{ votes_revealed: false }]. *)
Definition hidden_row (s : Session.t) : Session.t :=
  Sql.patch_session (Sql.mkSessionPatch (Some false) None) s.

(** A participant row after [{ vote: null, has_voted: false }]. *)
Definition cleared_row (p : Participant.t) : Participant.t :=
  Sql.patch_participant (Sql.mkParticipantPatch None (Some None) (Some false) None) p.

(** A participant row after [{ vote, has_voted: true }]. *)
Definition voted_row (vote : string) (p : Participant.t) : Participant.t :=
  Sql.patch_participant (Sql.mkParticipantPatch None (Some (Some vote)) (Some true) None) p.

(** ** Sample data *)

Module Sample.

(** A store that carries out every request. *)
Definition calm (n : nat) : Env :=
  mkEnv None
    (match n with
     | O => "u0" | 1%nat => "u1" | 2%nat => "u2" | 3%nat => "u3"
     | 4%nat => "u4" | 5%nat => "u5" | _ => "u6"
     end)
    (Z.of_nat n + 100).

(** A store that fails the request number [k] and carries out the rest. *)
Definition failing_at (k : nat) (n : nat) : Env :=
  if (n =? k)%nat
  then mkEnv (Some (mkPgError "08006" "connection failure")) (uuid (calm n)) (now (calm n))
  else calm n.

Definition sprint : Session.t :=
  Session.mk "s1" "ABC123" "Sprint 1" "alice" None false 10 10.
Definition retro : Session.t :=
  Session.mk "s2" "XYZ789" "Retro" "carol" None true 11 11.

Definition alice : Participant.t :=
  Participant.mk "alice" (Some "s1") "Alice" None true false None 10 10.
Definition bob : Participant.t :=
  Participant.mk "bob" (Some "s1") "Bob" None false true (Some "8") 12 12.
Definition carol : Participant.t :=
  Participant.mk "carol" (Some "s2") "Carol" None true true (Some "3") 11 11.

Definition storyA : Story.t :=
  Story.mk "a" (Some "s1") "A" None pending 0 20.
Definition storyB : Story.t :=
  Story.mk "b" (Some "s1") "B" None pending 1 21.
Definition storyC : Story.t :=
  Story.mk "c" (Some "s1") "C" None pending 2 22.

Definition db : DB :=
  mkDB [sprint; retro] [alice; carol; bob] [storyA; storyB; storyC].

Definition world : World := mkWorld db 0 calm.

(** An empty store that carries out every request. *)
Definition fresh_world : World := mkWorld (mkDB [] [] []) 0 calm.

(** The stories a client holds after a fetch of session [sessionId]. *)
Definition fetched_stories (sessionId : string) (w : World) : list Story.t :=
  match snd (Supabase.getSessionData sessionId w) with
  | Return data => Supabase.sd_stories data
  | Throw _ => []
  end.

(** The same tables, with a store that fails the request number [k]. *)
Definition world_failing (k : nat) : World := mkWorld db 0 (failing_at k).

(** Two participants of the same session with the same name, as two joins
    that ran at the same time leave them. *)
Definition bob2 : Participant.t :=
  Participant.mk "bob2" (Some "s1") "Bob" None false false None 13 13.

(** The room before anybody called Bob has joined. *)
Definition world_without_bob : World := mkWorld (mkDB [sprint; retro] [alice; carol] []) 0 calm.

Definition db_two_bobs : DB := mkDB [sprint; retro] [alice; carol; bob; bob2] [].

Definition world_two_bobs : World := mkWorld db_two_bobs 0 calm.

(** The digits of a drawn number that prints as ["0.k3f9zq1c2b"]. *)
Definition draw : list nat := [20; 3; 15; 9; 35; 26; 1; 12; 2; 11]%nat.

End Sample.

(* ------------------------------------------------------------------ *)
(** ** The mutations a client can issue, and the vote invariant *)

(** The vote and the has-voted flag of a row agree: a row that has voted
    has a vote. *)
Definition vote_consistent (p : Participant.t) : Prop :=
  Participant.has_voted p = true -> Participant.vote p <> None.

Definition votes_consistent (d : DB) : Prop :=
  Forall vote_consistent (participants d).

(** Every exported function of [supabase.ts] that writes to the store, and
    [moveStory] of the story manager, with their arguments. *)
Inductive Mutation :=
| CreateSession (draw : list nat) (name organizerName : string) (avatar : option string)
| JoinSession (roomCode participantName : string) (avatar : option string)
| UpdateParticipantVote (participantId vote : string)
| RevealVotes (sessionId : string)
| ResetVotes (sessionId : string)
| AddStory (sessionId title : string) (description : option string)
| UpdateStory (storyId : string) (updates : Sql.StoryPatch)
| DeleteStory (storyId : string)
| UpdateCurrentStory (sessionId storyId : string)
| RemoveParticipant (participantId : string)
| UpdateParticipantLastSeen (participantId : string)
| MoveStory (held : list Story.t) (id : string) (direction : StoryManager.Direction).

(** The world after a mutation has run to its end (returned or thrown). *)
Definition perform (m : Mutation) (w : World) : World :=
  match m with
  | CreateSession draw name organizerName avatar =>
      fst (Supabase.createSession draw name organizerName avatar w)
  | JoinSession roomCode participantName avatar =>
      fst (Supabase.joinSession roomCode participantName avatar w)
  | UpdateParticipantVote participantId vote =>
      fst (Supabase.updateParticipantVote participantId vote w)
  | RevealVotes sessionId => fst (Supabase.revealVotes sessionId w)
  | ResetVotes sessionId => fst (Supabase.resetVotes sessionId w)
  | AddStory sessionId title description =>
      fst (Supabase.addStory sessionId title description w)
  | UpdateStory storyId updates => fst (Supabase.updateStory storyId updates w)
  | DeleteStory storyId => fst (Supabase.deleteStory storyId w)
  | UpdateCurrentStory sessionId storyId =>
      fst (Supabase.updateCurrentStory sessionId storyId w)
  | RemoveParticipant participantId => fst (Supabase.removeParticipant participantId w)
  | UpdateParticipantLastSeen participantId =>
      fst (Supabase.updateParticipantLastSeen participantId w)
  | MoveStory held id direction => fst (StoryManager.moveStory held id direction w)
  end.

(** A computation keeps a property of the tables. *)
Definition preserves {A} (I : DB -> Prop) (c : Async A) : Prop :=
  forall w, I (tables w) -> I (tables (fst (c w))).

(** A statement keeps a property of the tables. *)
Definition stmt_preserves {A} (I : DB -> Prop) (s : Sql.Stmt A) : Prop :=
  forall env d, I d -> I (fst (s env d)).

(** The order of [.order(column)]: ascending in the column. *)
Definition by_key {A} (key : A -> Z) (a b : A) : Prop := key a <= key b.

(** What the store may answer to [.order(column)] over [rows]: the same
    rows, ascending in the column, rows of equal key in any order. *)
Definition ordered_answer {A} (key : A -> Z) (rows answer : list A) : Prop :=
  Permutation rows answer /\ Sorted (by_key key) answer.

(* ------------------------------------------------------------------ *)
(** ** The rows [createSession] writes *)

(** The organizer row as the first insert of [createSession] makes it, from
    what the store generates for that request. *)
Definition organizer_row (env : Env) (organizerName : string) (avatar : option string)
    : Participant.t :=
  Participant.mk (uuid env) None organizerName avatar true false None (now env) (now env).

(** The session row as the second insert of [createSession] makes it. *)
Definition session_row (env : Env) (roomCode name organizer_id : string) : Session.t :=
  Session.mk (uuid env) roomCode name organizer_id None false (now env) (now env).

(* ------------------------------------------------------------------ *)
(** ** Room codes *)

(** An uppercase letter or a decimal digit. *)
Definition is_upper_alnum (c : ascii) : bool :=
  let n := nat_of_ascii c in
  ((48 <=? n)%nat && (n <=? 57)%nat) || ((65 <=? n)%nat && (n <=? 90)%nat).

Fixpoint all_chars (p : ascii -> bool) (s : string) : bool :=
  match s with
  | EmptyString => true
  | String c s' => p c && all_chars p s'
  end.

(** Text of ASCII characters only. *)
Definition ascii_text (s : string) : bool :=
  all_chars (fun c => (nat_of_ascii c <? 128)%nat) s.

(* ------------------------------------------------------------------ *)
(** ** The story list a client holds *)

(** The story with identifier [id] is at position [k] of the held list
    (positions count from zero; it is the first story with that id). *)
Definition at_position (held : list Story.t) (id : string) (k : nat) : Prop :=
  exists pre c post,
    held = pre ++ c :: post /\ length pre = k /\ Story.id c = id
    /\ forall x, In x pre -> Story.id x <> id.

(** A held list as a fetch returns it: every story once, and the order
    indices in the range of the [INTEGER] column. *)
Definition held_well_formed (held : list Story.t) : Prop :=
  NoDup (map Story.id held)
  /\ Forall (fun s => Sql.in_int4 (Story.order_index s) = true) held.

(** The held list shows rows of the store as they are now ([id] is the
    primary key of the table). *)
Definition mirrors (held : list Story.t) (d : DB) : Prop :=
  NoDup (map Story.id (stories d)) /\ incl held (stories d).

(** A story row after [{ order_index: v }]. *)
Definition with_order_index (v : Z) (s : Story.t) : Story.t :=
  Sql.patch_story (Sql.mkStoryPatch None None None None None (Some v) None) s.

(** What the two updates of [moveStory] make of a row of the store, for the
    held stories [c] (the one moved) and [t] (its neighbour). *)
Definition exchanged (c t : Story.t) (s : Story.t) : Story.t :=
  if (Story.id s =? Story.id c)%string then with_order_index (Story.order_index t) s
  else if (Story.id s =? Story.id t)%string then with_order_index (Story.order_index c) s
  else s.

(** The position [moveStory] swaps position [k] with. *)
Definition neighbour (direction : StoryManager.Direction) (k : nat) : nat :=
  match direction with
  | StoryManager.up => (k - 1)%nat
  | StoryManager.down => (k + 1)%nat
  end.

(* ------------------------------------------------------------------ *)
(** ** The stories of a session, as fetched and as numbered *)

(** The stories of a session in the order of every fetch:
    [.eq("session_id", sessionId).order("order_index")]. *)
Definition ordered_stories (sessionId : string) (d : DB) : list Story.t :=
  Sql.order_by Story.order_index
    (filter (fun s => Sql.eq_col (Story.session_id s) sessionId) (stories d)).

(** The participants of a session in the order of every fetch:
    [.eq("session_id", sessionId).order("joined_at")]. *)
Definition ordered_participants (sessionId : string) (d : DB) : list Participant.t :=
  Sql.order_by Participant.joined_at
    (filter (fun p => Sql.eq_col (Participant.session_id p) sessionId) (participants d)).

(** The order index [addStory] computes when its query is answered: one more
    than the greatest order index of the session, and zero for a session
    without stories. *)
Definition next_order_index (sessionId : string) (d : DB) : Z :=
  match Sql.order_by_desc Story.order_index
          (filter (fun s => Sql.eq_col (Story.session_id s) sessionId) (stories d)) with
  | s :: _ => Story.order_index s + 1
  | [] => 0
  end.

(* ------------------------------------------------------------------ *)
(** ** More of the components *)

Module Text.

(** The white space and line terminators below 128, which are the
    characters [String.prototype.trim] removes from ASCII text: U+0009 to
    U+000D and U+0020.  (The engine also removes U+00A0, U+FEFF, U+2028,
    U+2029 and the space separators, which ASCII text does not contain.) *)
Definition is_space (c : ascii) : bool :=
  let n := nat_of_ascii c in
  ((9 <=? n)%nat && (n <=? 13)%nat) || (n =? 32)%nat.

Fixpoint trimStart (s : string) : string :=
  match s with
  | EmptyString => EmptyString
  | String c s' => if is_space c then trimStart s' else s
  end.

Fixpoint trimEnd (s : string) : string :=
  match s with
  | EmptyString => EmptyString
  | String c s' =>
      match trimEnd s' with
      | EmptyString => if is_space c then EmptyString else String c EmptyString
      | t => String c t
      end
  end.

(** [String.prototype.trim]. *)
Definition trim (s : string) : string := trimEnd (trimStart s).

End Text.

(** The dialogs of [StoryManager.tsx]. *)
Module StoryDialogs.

(** [Omit<Story, "id">] of the component: the story being typed. *)
Record Draft := mkDraft {
  d_title : string;
  d_description : string;
  d_status : Status
}.

(** [Story] of the component: the story being edited.  It is a fetched row
    put into the dialog as it is, so its description is the column's value,
    [null] (here [None]) for a story stored without one, until something is
    typed into the field. *)
Record Edited := mkEdited {
  e_id : string;
  e_title : string;
  e_description : option string;
  e_status : Status
}.

(** [handleAddStory]: a blank title returns at once; a failure is written
    to the console. *)
Definition handleAddStory (sessionId : string) (newStory : Draft) : Async unit :=
  if (Text.trim (d_title newStory) =? "")%string then ret tt
  else
    try_catch
      (Supabase.addStory sessionId (d_title newStory) (Some (d_description newStory)) ;;;
       ret tt)
      (fun error => ret tt).

(** [handleEditStory]: nothing to edit, or a blank title, returns at once. *)
Definition handleEditStory (editingStory : option Edited) : Async unit :=
  match editingStory with
  | None => ret tt
  | Some editingStory =>
      if (Text.trim (e_title editingStory) =? "")%string then ret tt
      else
        try_catch
          (Supabase.updateStory (e_id editingStory)
             (Sql.mkStoryPatch None None (Some (e_title editingStory))
                (Some (e_description editingStory)) (Some (e_status editingStory))
                None None))
          (fun error => ret tt)
  end.

Definition handleDeleteStory (id : string) : Async unit :=
  try_catch (Supabase.deleteStory id) (fun error => ret tt).

End StoryDialogs.

(** The change subscriptions of [PokerSession]. *)
Module Realtime.
Import PokerSession.

Inductive EventType := INSERT | UPDATE | DELETE.

(** A change of the session row: an update replaces the held session by the
    new row; other events are ignored. *)
Definition onSessionChange (eventType : EventType) (new : Session.t) (st : State) : State :=
  match eventType with
  | UPDATE => mkState (Some new) (st_participants st) (st_stories st)
                (currentStoryIndex st) (selectedVote st) (loading st)
  | _ => st
  end.

(** Any change of a participant of the session: the participants are
    fetched again and replace the held list, if the fetch gave data. *)
Definition onParticipantsChange (sessionId : string) (st : State) : Async State :=
  r <- request (Sql.select_participants
          (fun p => Sql.eq_col (Participant.session_id p) sessionId)
          (Sql.order_by Participant.joined_at)) ;;
  ret (match data r with
       | Some data => mkState (st_session st) data (st_stories st)
                        (currentStoryIndex st) (selectedVote st) (loading st)
       | None => st
       end).

(** Any change of a story of the session: likewise for the stories. *)
Definition onStoriesChange (sessionId : string) (st : State) : Async State :=
  r <- request (Sql.select_stories
          (fun s => Sql.eq_col (Story.session_id s) sessionId)
          (Sql.order_by Story.order_index)) ;;
  ret (match data r with
       | Some data => mkState (st_session st) (st_participants st) data
                        (currentStoryIndex st) (selectedVote st) (loading st)
       | None => st
       end).

End Realtime.

(** Moving between stories in [PokerSession]. *)
Module Navigation.
Import PokerSession.

Definition setCurrentStoryIndex (st : State) (i : Z) : State :=
  mkState (st_session st) (st_participants st) (st_stories st) i
    (selectedVote st) (loading st).

Definition setSelectedVote (st : State) (v : option string) : State :=
  mkState (st_session st) (st_participants st) (st_stories st)
    (currentStoryIndex st) v (loading st).

(** A handler changes the state of the component, makes requests, and
    returns or throws (the state it has set is set either way). *)
Definition Handler := World -> World * (State * Outcome unit).

(** The three lines [handleNextStory], [handlePrevStory] and the
    [onSelectStory] callback share: the index is set, then the session is
    pointed at the story, then the votes are reset.  [id] is [None] when the
    handler reads the [id] of an [undefined] story.  [handleResetVotes]
    clears the selected vote and catches what [resetVotes] throws. *)
Definition show_story (sessionId : string) (st : State) (index : Z)
    (id : option string) : Handler :=
  fun w =>
    let st1 := setCurrentStoryIndex st index in
    match id with
    | None => (w, (st1, Throw TypeError))
    | Some id =>
        match Supabase.updateCurrentStory sessionId id w with
        | (w1, Throw e) => (w1, (st1, Throw e))
        | (w1, Return _) =>
            let '(w2, _) := handleResetVotes sessionId w1 in
            (w2, (setSelectedVote st1 None, Return tt))
        end
    end.

Definition handleNextStory (sessionId : string) (st : State) : Handler :=
  fun w =>
    if currentStoryIndex st <? Z.of_nat (length (st_stories st)) - 1 then
      let nextIndex := currentStoryIndex st + 1 in
      let nextStory := JS.at_ (st_stories st) nextIndex in
      show_story sessionId st nextIndex (option_map Story.id nextStory) w
    else (w, (st, Return tt)).

Definition handlePrevStory (sessionId : string) (st : State) : Handler :=
  fun w =>
    if currentStoryIndex st >? 0 then
      let prevIndex := currentStoryIndex st - 1 in
      let prevStory := JS.at_ (st_stories st) prevIndex in
      show_story sessionId st prevIndex (option_map Story.id prevStory) w
    else (w, (st, Return tt)).

(** The [onSelectStory] callback given to the story manager. *)
Definition onSelectStory (sessionId : string) (st : State) (id : string) : Handler :=
  fun w =>
    let index := JS.findIndex (fun s => (Story.id s =? id)%string) (st_stories st) in
    if negb (index =? -1) then show_story sessionId st index (Some id) w
    else (w, (st, Return tt)).

(** The index is a position of the held list (or zero when it is empty). *)
Definition index_in_range (st : State) : Prop :=
  0 <= currentStoryIndex st
  /\ (currentStoryIndex st < Z.of_nat (length (st_stories st))
      \/ currentStoryIndex st = 0).

End Navigation.

(** A session row after [{ current_story_id: storyId }]. *)
Definition pointed_row (storyId : string) (s : Session.t) : Session.t :=
  Sql.patch_session (Sql.mkSessionPatch None (Some storyId)) s.

(* ------------------------------------------------------------------ *)
(** ** The setup form and the home page *)

(** [SessionSetup]: the two buttons call their callback when neither field
    is blank, with the values as typed and no avatar. *)
Module SetupForm.

Definition handleCreateSession {R} (sessionName userName : string)
    (onCreateSession : string -> string -> option string -> R) (nothing : R) : R :=
  if negb (Text.trim sessionName =? "")%string && negb (Text.trim userName =? "")%string
  then onCreateSession sessionName userName None
  else nothing.

Definition handleJoinSession {R} (roomCode userName : string)
    (onJoinSession : string -> string -> option string -> R) (nothing : R) : R :=
  if negb (Text.trim roomCode =? "")%string && negb (Text.trim userName =? "")%string
  then onJoinSession roomCode userName None
  else nothing.

End SetupForm.

(** [home.tsx]: the page holds the session the user is in, if any; what it
    tells the user with [alert] is kept in the order it was told. *)
Module HomePage.

Record State := mkState {
  sessionState : option (Session.t * option Participant.t);
  alerts : list string
}.

(** [error instanceof Error ? error.message : "Unknown error"]; the text of
    a [TypeError] is the engine's. *)
Definition errorMessage (typeErrorMessage : string) (e : Exn) : string :=
  match e with
  | Error m => m
  | TypeError => typeErrorMessage
  | Thrown _ => "Unknown error"
  end.

Definition handleCreateSession (typeErrorMessage : string) (draw : list nat) (hs : State)
    (sessionName userName : string) (avatar : option string) : World -> World * State :=
  fun w =>
    match Supabase.createSession draw sessionName userName avatar w with
    | (w', Return (session, organizer)) =>
        (w', mkState (Some (session, Some organizer)) (alerts hs))
    | (w', Throw error) =>
        (w', mkState (sessionState hs)
               (alerts hs ++ [("Failed to create session: "
                               ++ errorMessage typeErrorMessage error)%string]))
    end.

Definition handleJoinSession (typeErrorMessage : string) (hs : State)
    (roomCode userName : string) (avatar : option string) : World -> World * State :=
  fun w =>
    match Supabase.joinSession roomCode userName avatar w with
    | (w', Return (session, participant)) =>
        (w', mkState (Some (session, participant)) (alerts hs))
    | (w', Throw error) =>
        (w', mkState (sessionState hs)
               (alerts hs ++ [("Failed to join session: "
                               ++ errorMessage typeErrorMessage error)%string]))
    end.

(** The join button of the form, as the page wires it. *)
Definition submitJoin (typeErrorMessage : string) (hs : State) (roomCode userName : string)
    : World -> World * State :=
  fun w =>
    SetupForm.handleJoinSession roomCode userName
      (fun r u a => handleJoinSession typeErrorMessage hs r u a w) (w, hs).

(** The create button of the form, as the page wires it. *)
Definition submitCreate (typeErrorMessage : string) (draw : list nat) (hs : State)
    (sessionName userName : string) : World -> World * State :=
  fun w =>
    SetupForm.handleCreateSession sessionName userName
      (fun n u a => handleCreateSession typeErrorMessage draw hs n u a w) (w, hs).

Definition handleLeaveSession (hs : State) : State := mkState None (alerts hs).

End HomePage.

(* ------------------------------------------------------------------ *)
(** ** Stores a client can reach *)

(** What the schema declares: the primary keys, and [room_code UNIQUE]. *)
Definition keys_unique (d : DB) : Prop :=
  NoDup (map Session.id (sessions d))
  /\ NoDup (map Session.room_code (sessions d))
  /\ NoDup (map Participant.id (participants d))
  /\ NoDup (map Story.id (stories d)).

(** [session_id REFERENCES sessions(id)], of participants and of stories. *)
Definition references_hold (d : DB) : Prop :=
  (forall p sid, In p (participants d) -> Participant.session_id p = Some sid ->
     Sql.has_session d sid = true)
  /\ (forall s sid, In s (stories d) -> Story.session_id s = Some sid ->
       Sql.has_session d sid = true).

(** An organizer row that belongs to a session is the participant that
    session names as its organizer. *)
Definition organizers_registered (d : DB) : Prop :=
  forall p sid, In p (participants d) -> Participant.is_organizer p = true ->
    Participant.session_id p = Some sid ->
    exists s, In s (sessions d) /\ Session.id s = sid
              /\ Session.organizer_id s = Participant.id p.

Definition store_ok (d : DB) : Prop :=
  keys_unique d /\ references_hold d /\ organizers_registered d.

(** The world after a sequence of mutations, one after the other. *)
Fixpoint run (ms : list Mutation) (w : World) : World :=
  match ms with
  | [] => w
  | m :: ms' => run ms' (perform m w)
  end.

(** The store before anything was written, with any behaviour to come. *)
Definition empty_store (behaviour : nat -> Env) : World :=
  mkWorld (mkDB [] [] []) 0 behaviour.

(* ------------------------------------------------------------------ *)
(** * Properties *)

Unset Implicit Arguments.

(** ** Requests *)

Section Requests.
Context {A : Type} (stmt : Sql.Stmt A) (w : World).

Lemma request_done :
  fault (oracle w (tick w)) = None ->
  request stmt w =
    (mkWorld (fst (stmt (oracle w (tick w)) (tables w))) (S (tick w)) (oracle w),
     Return (snd (stmt (oracle w (tick w)) (tables w)))).
Proof.
  intros H. unfold request. rewrite H.
  destruct (stmt (oracle w (tick w)) (tables w)); reflexivity.
Qed.

Lemma request_fault (e : PgError) :
  fault (oracle w (tick w)) = Some e ->
  request stmt w = (mkWorld (tables w) (S (tick w)) (oracle w), Return (failed e)).
Proof.
  intros H. unfold request. now rewrite H.
Qed.

Lemma request_tick : tick (fst (request stmt w)) = S (tick w).
Proof.
  unfold request. destruct (fault _); [reflexivity|].
  destruct (stmt _ _); reflexivity.
Qed.

Lemma request_oracle : oracle (fst (request stmt w)) = oracle w.
Proof.
  unfold request. destruct (fault _); [reflexivity|].
  destruct (stmt _ _); reflexivity.
Qed.

Lemma request_returns : exists r, snd (request stmt w) = Return r.
Proof.
  unfold request. destruct (fault _); [eexists; reflexivity|].
  destruct (stmt _ _); eexists; reflexivity.
Qed.
End Requests.

(** ** Updating the rows of a table *)

Section MapRows.
Import Sql.
Context {A : Type} (p : A -> bool) (f : A -> A).

Lemma update_rows_Forall2 (R : A -> A -> Prop) (l : list A) :
  (forall x, In x l -> R x (if p x then f x else x)) ->
  Forall2 R l (update_rows p f l).
Proof.
  induction l as [|x l IH]; intros H; simpl; constructor.
  - apply H. now left.
  - apply IH. intros y Hy. apply H. now right.
Qed.

Lemma update_rows_fixed (l : list A) :
  (forall x, In x l -> p x = true -> f x = x) -> update_rows p f l = l.
Proof.
  induction l as [|x l IH]; intros H; simpl; [reflexivity|].
  rewrite IH by (intros y Hy; apply H; now right).
  destruct (p x) eqn:E; [|reflexivity].
  rewrite (H x) by (auto; now left). reflexivity.
Qed.

Lemma update_rows_twice (l : list A) :
  (forall x, p x = true -> p (f x) = true) ->
  (forall x, p x = true -> f (f x) = f x) ->
  update_rows p f (update_rows p f l) = update_rows p f l.
Proof.
  intros Hp Hf. unfold update_rows. rewrite map_map.
  apply map_ext. intros x. destruct (p x) eqn:E.
  - rewrite (Hp x E). now apply Hf.
  - now rewrite E.
Qed.

Lemma in_update_rows (y : A) (l : list A) :
  In y (update_rows p f l) -> exists x, In x l /\ y = (if p x then f x else x).
Proof.
  unfold update_rows. rewrite in_map_iff.
  intros [x [E H]]. exists x. now split.
Qed.
End MapRows.

(** ** Reveal *)

Lemma revealVotes_done (sessionId : string) (w : World) :
  fault (oracle w (tick w)) = None ->
  Supabase.revealVotes sessionId w =
    (mkWorld
       (mkDB (Sql.update_rows (fun s => (Session.id s =? sessionId)%string) revealed_row
                (sessions (tables w)))
             (participants (tables w)) (stories (tables w)))
       (S (tick w)) (oracle w),
     Return tt).
Proof.
  intros H. unfold Supabase.revealVotes, bind. rewrite request_done by exact H.
  reflexivity.
Qed.

Lemma revealVotes_fault (sessionId : string) (w : World) (e : PgError) :
  fault (oracle w (tick w)) = Some e ->
  Supabase.revealVotes sessionId w =
    (mkWorld (tables w) (S (tick w)) (oracle w), Throw (Thrown e)).
Proof.
  intros H. unfold Supabase.revealVotes, bind. now rewrite (request_fault _ _ _ H).
Qed.

(** C8. Reveal is idempotent.  When the store carries out the first reveal,
    the tables after a second reveal (carried out or not) are the tables
    after the first; after the first every session row with that id has
    [votes_revealed = true]; and a reveal of a session that is already
    revealed leaves the tables as they were. *)
Theorem revealVotes_idempotent (sessionId : string) (w : World) :
  fault (oracle w (tick w)) = None ->
  let once := fst (Supabase.revealVotes sessionId w) in
  let twice := fst (Supabase.revealVotes sessionId once) in
  snd (Supabase.revealVotes sessionId w) = Return tt
  /\ tables twice = tables once
  /\ (forall s, In s (sessions (tables once)) -> Session.id s = sessionId ->
        Session.votes_revealed s = true)
  /\ ((forall s, In s (sessions (tables w)) -> Session.id s = sessionId ->
         Session.votes_revealed s = true) ->
      tables once = tables w).
Proof.
  intros H once twice. subst twice once.
  rewrite (revealVotes_done _ _ H). cbn [fst snd tables].
  split; [reflexivity|]. split; [|split].
  - match goal with |- context [Supabase.revealVotes _ ?W] => set (w1 := W) end.
    destruct (fault (oracle w1 (tick w1))) as [e|] eqn:F.
    + now rewrite (revealVotes_fault _ _ _ F).
    + rewrite (revealVotes_done _ _ F). subst w1. cbn [fst tables sessions participants stories].
      f_equal. apply update_rows_twice.
      * intros x Hx. exact Hx.
      * intros x _. reflexivity.
  - cbn [sessions]. intros s Hs Hid.
    apply in_update_rows in Hs. destruct Hs as [x [_ ->]].
    destruct (Session.id x =? sessionId)%string eqn:E; [reflexivity|].
    apply String.eqb_neq in E. now elim E.
  - intros Hall. destruct (tables w) as [ss ps sts]. cbn [sessions participants stories] in *.
    f_equal. apply update_rows_fixed. intros x Hx E.
    apply String.eqb_eq in E. specialize (Hall x Hx E).
    destruct x; cbn in *. subst. reflexivity.
Qed.

Lemma revealVotes_idempotent_witness :
  fault (oracle Sample.world (tick Sample.world)) = None
  /\ tables (fst (Supabase.revealVotes "s1"
                    (fst (Supabase.revealVotes "s1" Sample.world))))
     = tables (fst (Supabase.revealVotes "s1" Sample.world)).
Proof.
  split; [reflexivity|].
  apply (revealVotes_idempotent "s1" Sample.world). reflexivity.
Defined.

Lemma Forall2_same {A} (R : A -> A -> Prop) (l : list A) :
  (forall x, In x l -> R x x) -> Forall2 R l l.
Proof.
  induction l as [|x l IH]; intros H; constructor.
  - apply H. now left.
  - apply IH. intros y Hy. apply H. now right.
Qed.

(** C10. A reveal touches nothing but [votes_revealed] of the session rows
    with the given id, whatever the store answers: the participant and story
    tables are the same, every session row keeps its id, room code, name,
    organizer, current story and timestamps, and a row with another id is
    the same row. *)
Theorem revealVotes_frame (sessionId : string) (w : World) :
  let w' := fst (Supabase.revealVotes sessionId w) in
  participants (tables w') = participants (tables w)
  /\ stories (tables w') = stories (tables w)
  /\ Forall2 (fun s s' =>
        Session.id s' = Session.id s
        /\ Session.room_code s' = Session.room_code s
        /\ Session.name s' = Session.name s
        /\ Session.organizer_id s' = Session.organizer_id s
        /\ Session.current_story_id s' = Session.current_story_id s
        /\ Session.created_at s' = Session.created_at s
        /\ Session.updated_at s' = Session.updated_at s
        /\ (Session.id s <> sessionId -> s' = s))
       (sessions (tables w)) (sessions (tables w')).
Proof.
  intros w'. subst w'.
  destruct (fault (oracle w (tick w))) as [e|] eqn:F.
  - rewrite (revealVotes_fault _ _ _ F). cbn [fst tables].
    repeat split. apply Forall2_same. intros; repeat split.
  - rewrite (revealVotes_done _ _ F). cbn [fst tables sessions participants stories].
    repeat split. apply update_rows_Forall2. intros s _.
    destruct (Session.id s =? sessionId)%string eqn:E.
    + repeat split. intros N. apply String.eqb_eq in E. now elim N.
    + repeat split.
Qed.

(** ** Reset *)

Lemma eq_col_true (c : option string) (v : string) :
  Sql.eq_col c v = true <-> c = Some v.
Proof.
  destruct c as [x|]; simpl.
  - rewrite String.eqb_eq. split; congruence.
  - split; congruence.
Qed.

(** An update of [participants] that leaves [session_id] alone meets no
    constraint. *)
Lemma update_participants_plain (u : Sql.ParticipantPatch)
    (p : Participant.t -> bool) (env : Env) (d : DB) :
  Sql.pp_session_id u = None ->
  Sql.update_participants u p env d =
    (mkDB (sessions d) (Sql.update_rows p (Sql.patch_participant u) (participants d))
          (stories d),
     mkResponse None None).
Proof.
  intros H. unfold Sql.update_participants. rewrite H. cbn [Sql.fk_ok negb].
  now rewrite andb_false_r.
Qed.

Lemma resetVotes_done (sessionId : string) (w : World) :
  fault (oracle w (tick w)) = None ->
  fault (oracle w (S (tick w))) = None ->
  Supabase.resetVotes sessionId w =
    (mkWorld
       (mkDB (Sql.update_rows (fun s => (Session.id s =? sessionId)%string) hidden_row
                (sessions (tables w)))
             (Sql.update_rows (fun p => Sql.eq_col (Participant.session_id p) sessionId)
                cleared_row (participants (tables w)))
             (stories (tables w)))
       (S (S (tick w))) (oracle w),
     Return tt).
Proof.
  intros H0 H1. unfold Supabase.resetVotes, bind.
  rewrite request_done by exact H0. cbn [fst snd].
  rewrite request_done by exact H1.
  rewrite update_participants_plain by reflexivity. reflexivity.
Qed.

(** The two requests of a reset are sent together; they write to different
    tables, so the store may run them in either order. *)
Lemma reset_updates_either_order (sessionId : string) (e1 e2 : Env) (d : DB) :
  let hide := Sql.update_sessions (Sql.mkSessionPatch (Some false) None)
                (fun s => (Session.id s =? sessionId)%string) in
  let clear := Sql.update_participants
                 (Sql.mkParticipantPatch None (Some None) (Some false) None)
                 (fun p => Sql.eq_col (Participant.session_id p) sessionId) in
  fst (clear e2 (fst (hide e1 d))) = fst (hide e1 (fst (clear e2 d))).
Proof.
  intros hide clear. subst hide clear.
  rewrite !update_participants_plain by reflexivity. reflexivity.
Qed.

(** C1. When the store carries out both requests of a reset, [resetVotes]
    returns; every session row with the given id has [votes_revealed =
    false]; every participant of that session has [has_voted = false] and
    [vote = null]; the rows of the participant table are the same rows in
    the same sessions, and a participant of another session (or of none) is
    untouched. *)
Theorem resetVotes_clears (sessionId : string) (w : World) :
  fault (oracle w (tick w)) = None ->
  fault (oracle w (S (tick w))) = None ->
  let w' := fst (Supabase.resetVotes sessionId w) in
  snd (Supabase.resetVotes sessionId w) = Return tt
  /\ map Session.id (sessions (tables w')) = map Session.id (sessions (tables w))
  /\ (forall s, In s (sessions (tables w')) -> Session.id s = sessionId ->
        Session.votes_revealed s = false)
  /\ (forall p, In p (participants (tables w')) ->
        Participant.session_id p = Some sessionId ->
        Participant.has_voted p = false /\ Participant.vote p = None)
  /\ Forall2 (fun p p' =>
        Participant.id p' = Participant.id p
        /\ Participant.session_id p' = Participant.session_id p
        /\ (Participant.session_id p <> Some sessionId -> p' = p))
       (participants (tables w)) (participants (tables w')).
Proof.
  intros H0 H1 w'. subst w'. rewrite (resetVotes_done _ _ H0 H1).
  cbn [fst snd tables sessions participants].
  split; [reflexivity|]. split; [|split; [|split]].
  - unfold Sql.update_rows. rewrite map_map. apply map_ext.
    intros s. now destruct (Session.id s =? sessionId)%string.
  - intros s Hs Hid. apply in_update_rows in Hs. destruct Hs as [x [_ ->]].
    destruct (Session.id x =? sessionId)%string eqn:E; [reflexivity|].
    apply String.eqb_neq in E. now elim E.
  - intros p Hp Hsid. apply in_update_rows in Hp. destruct Hp as [x [_ ->]].
    destruct (Sql.eq_col (Participant.session_id x) sessionId) eqn:E.
    + split; reflexivity.
    + apply eq_col_true in Hsid. congruence.
  - apply update_rows_Forall2. intros p _.
    destruct (Sql.eq_col (Participant.session_id p) sessionId) eqn:E.
    + repeat split. intros N. apply eq_col_true in E. now elim N.
    + repeat split.
Qed.

Lemma resetVotes_clears_witness :
  fault (oracle Sample.world (tick Sample.world)) = None
  /\ fault (oracle Sample.world (S (tick Sample.world))) = None
  /\ participants (tables (fst (Supabase.resetVotes "s1" Sample.world)))
     = [Sample.alice; Sample.carol;
        Participant.mk "bob" (Some "s1") "Bob" None false false None 12 12]
  /\ forall p, In p (participants (tables (fst (Supabase.resetVotes "s1" Sample.world)))) ->
       Participant.session_id p = Some "s1" ->
       Participant.has_voted p = false /\ Participant.vote p = None.
Proof.
  split; [reflexivity|]. split; [reflexivity|]. split; [reflexivity|].
  apply (resetVotes_clears "s1" Sample.world); reflexivity.
Defined.

(** ** Casting a vote *)

Lemma updateParticipantVote_done (participantId vote : string) (w : World) :
  fault (oracle w (tick w)) = None ->
  Supabase.updateParticipantVote participantId vote w =
    (mkWorld
       (mkDB (sessions (tables w))
             (Sql.update_rows (fun p => (Participant.id p =? participantId)%string)
                (voted_row vote) (participants (tables w)))
             (stories (tables w)))
       (S (tick w)) (oracle w),
     Return tt).
Proof.
  intros H. unfold Supabase.updateParticipantVote, bind.
  rewrite request_done by exact H.
  rewrite update_participants_plain by reflexivity. reflexivity.
Qed.

(** C7. Voting is checked in the client alone, against the session copy the
    component holds.  A click on a card by the organizer, or while that copy
    is revealed, makes no request at all.  While the copy is collecting, the
    click of a participant who is not the organizer runs
    [updateParticipantVote], whatever the session row of the store says, and
    returns whatever the store answers.  [updateParticipantVote] itself reads
    no session: when the store carries it out, in any state of the tables,
    every row with the participant's id has the given value as its vote and
    [has_voted = true], for any string value; the other rows and the other
    tables, the [votes_revealed] of every session among them, are as they
    were. *)
Theorem castVote_checked_in_client_only (st : PokerSession.State) (me : Participant.t)
    (participantId value : string) (w : World) :
  (PokerSession.votesRevealed st = true \/ Participant.is_organizer me = true ->
   PokerSession.castVote st me value w = (w, Return tt))
  /\ (PokerSession.votesRevealed st = false ->
      Participant.is_organizer me = false ->
      Participant.id me <> ""%string ->
      fst (PokerSession.castVote st me value w)
      = fst (Supabase.updateParticipantVote (Participant.id me) value w)
      /\ snd (PokerSession.castVote st me value w) = Return tt)
  /\ (fault (oracle w (tick w)) = None ->
      let w' := fst (Supabase.updateParticipantVote participantId value w) in
      snd (Supabase.updateParticipantVote participantId value w) = Return tt
      /\ sessions (tables w') = sessions (tables w)
      /\ stories (tables w') = stories (tables w)
      /\ Forall2 (fun p p' =>
            if (Participant.id p =? participantId)%string
            then p' = voted_row value p
            else p' = p)
           (participants (tables w)) (participants (tables w'))
      /\ (forall p, In p (participants (tables w')) ->
            Participant.id p = participantId ->
            Participant.vote p = Some value /\ Participant.has_voted p = true)).
Proof.
  split; [|split].
  - unfold PokerSession.castVote, VotingDeck.handleCardClick.
    intros [-> | ->]; [now rewrite andb_false_r | reflexivity].
  - intros Hr Ho Hid.
    unfold PokerSession.castVote, VotingDeck.handleCardClick.
    rewrite Hr, Ho. cbn [negb andb].
    unfold PokerSession.handleVote, try_catch.
    apply String.eqb_neq in Hid. rewrite Hid. cbn [negb].
    destruct (Supabase.updateParticipantVote (Participant.id me) value w)
      as [w1 [[]|e]]; split; reflexivity.
  - intros F. rewrite (updateParticipantVote_done participantId value w F).
    cbn [fst snd tables sessions participants stories].
    split; [reflexivity|]. split; [reflexivity|]. split; [reflexivity|]. split.
    + apply update_rows_Forall2. intros p _.
      now destruct (Participant.id p =? participantId)%string.
    + intros p H Hp. apply in_update_rows in H. destruct H as [x [_ ->]].
      destruct (Participant.id x =? participantId)%string eqn:E.
      * split; reflexivity.
      * apply String.eqb_neq in E. now elim E.
Qed.

Lemma castVote_checked_in_client_only_witness :
  PokerSession.votesRevealed
    (PokerSession.mkState (Some Sample.sprint) [] [] 0 None false) = false
  /\ Participant.is_organizer Sample.bob = false
  /\ Participant.id Sample.bob <> ""%string
  /\ fault (oracle Sample.world (tick Sample.world)) = None
  /\ fst (PokerSession.castVote
            (PokerSession.mkState (Some Sample.sprint) [] [] 0 None false)
            Sample.bob "13" Sample.world)
     = fst (Supabase.updateParticipantVote "bob" "13" Sample.world)
  /\ (forall p,
        In p (participants (tables (fst
               (Supabase.updateParticipantVote "bob" "13" Sample.world)))) ->
        Participant.id p = "bob"%string ->
        Participant.vote p = Some "13"%string /\ Participant.has_voted p = true)
  /\ PokerSession.castVote
       (PokerSession.mkState (Some Sample.retro) [] [] 0 None false)
       Sample.bob "13" Sample.world = (Sample.world, Return tt).
Proof.
  assert (N : Participant.id Sample.bob <> ""%string) by discriminate.
  split; [reflexivity|]. split; [reflexivity|]. split; [exact N|].
  split; [reflexivity|]. split; [|split].
  - apply (proj1 (proj2 (castVote_checked_in_client_only
             (PokerSession.mkState (Some Sample.sprint) [] [] 0 None false)
             Sample.bob "bob" "13" Sample.world)) eq_refl eq_refl N).
  - apply (proj2 (proj2 (castVote_checked_in_client_only
             (PokerSession.mkState (Some Sample.sprint) [] [] 0 None false)
             Sample.bob "bob" "13" Sample.world)) eq_refl).
  - apply (proj1 (castVote_checked_in_client_only
             (PokerSession.mkState (Some Sample.retro) [] [] 0 None false)
             Sample.bob "bob" "13" Sample.world)).
    now left.
Defined.

(** C7, where the claim fails.  Bob's component loads session s1 while it is
    collecting; the session is then revealed in the store, and Bob clicks a
    card before his component has fetched the session again.  The click is
    let through, as the copy he holds is not revealed, and the store writes
    the vote: afterwards session s1 is still revealed in the store and Bob's
    row carries the new vote in place of the one he had cast before.  The
    same update sent on its own meets no check either. *)
Theorem castVote_written_while_revealed :
  let loaded := PokerSession.loadSessionData "s1" PokerSession.initial Sample.world in
  let held := match snd loaded with
              | Return st => st
              | Throw _ => PokerSession.initial
              end in
  let w1 := fst (Supabase.revealVotes "s1" (fst loaded)) in
  let w2 := fst (PokerSession.castVote held Sample.bob "13" w1) in
  snd loaded = Return held
  /\ PokerSession.votesRevealed held = false
  /\ map Session.votes_revealed
       (filter (fun s => (Session.id s =? "s1")%string) (sessions (tables w1))) = [true]
  /\ filter (fun p => (Participant.id p =? "bob")%string) (participants (tables w1))
     = [Participant.mk "bob" (Some "s1") "Bob" None false true (Some "8") 12 12]
  /\ map Session.votes_revealed
       (filter (fun s => (Session.id s =? "s1")%string) (sessions (tables w2))) = [true]
  /\ filter (fun p => (Participant.id p =? "bob")%string) (participants (tables w2))
     = [Participant.mk "bob" (Some "s1") "Bob" None false true (Some "13") 12 12]
  /\ snd (Supabase.updateParticipantVote "bob" "13" w1) = Return tt
  /\ tables (fst (Supabase.updateParticipantVote "bob" "13" w1)) = tables w2.
Proof.
  vm_compute. repeat split; reflexivity.
Qed.

(** ** The vote invariant *)

Section Preservation.
Context (I : DB -> Prop).

Lemma preserves_ret {A} (a : A) : preserves I (ret a).
Proof. intros w H. exact H. Qed.

Lemma preserves_throw {A} (e : Exn) : preserves I (@throw A e).
Proof. intros w H. exact H. Qed.

Lemma preserves_bind {A B} (c : Async A) (k : A -> Async B) :
  preserves I c -> (forall a, preserves I (k a)) -> preserves I (bind c k).
Proof.
  intros Hc Hk w H. unfold bind. specialize (Hc w H).
  destruct (c w) as [w' [a|e]]; cbn [fst] in *.
  - now apply Hk.
  - exact Hc.
Qed.

Lemma preserves_try_catch {A} (c : Async A) (h : Exn -> Async A) :
  preserves I c -> (forall e, preserves I (h e)) -> preserves I (try_catch c h).
Proof.
  intros Hc Hh w H. unfold try_catch. specialize (Hc w H).
  destruct (c w) as [w' [a|e]]; cbn [fst] in *.
  - exact Hc.
  - now apply Hh.
Qed.

Lemma preserves_Promise_all2 {A B} (a : Async A) (b : Async B) :
  preserves I a -> preserves I b -> preserves I (Promise_all2 a b).
Proof.
  intros Ha Hb w H. unfold Promise_all2. specialize (Ha w H).
  destruct (a w) as [w1 ra]. cbn [fst] in Ha. specialize (Hb w1 Ha).
  destruct (b w1) as [w2 rb]. cbn [fst] in Hb.
  destruct ra, rb; exact Hb.
Qed.

Lemma preserves_request {A} (s : Sql.Stmt A) :
  stmt_preserves I s -> preserves I (request s).
Proof.
  intros Hs w H. unfold request. destruct (fault _); [exact H|].
  specialize (Hs (oracle w (tick w)) (tables w) H).
  destruct (s _ _); exact Hs.
Qed.

Lemma preserves_unwrap {A} (r : Response A) (wrap : PgError -> Exn) :
  preserves I (Supabase.unwrap r wrap).
Proof.
  unfold Supabase.unwrap. destruct (error r); [apply preserves_throw|].
  destruct (data r); [apply preserves_ret | apply preserves_throw].
Qed.

Lemma preserves_rethrow {A} (r : Response A) : preserves I (Supabase.rethrow r).
Proof.
  unfold Supabase.rethrow. destruct (error r); [apply preserves_throw | apply preserves_ret].
Qed.

Lemma stmt_preserves_single {A} (s : Sql.Stmt (list A)) :
  stmt_preserves I s -> stmt_preserves I (Sql.single s).
Proof.
  intros Hs env d H. unfold Sql.single. specialize (Hs env d H).
  destruct (s env d); exact Hs.
Qed.

Lemma stmt_preserves_limit {A} (n : nat) (s : Sql.Stmt (list A)) :
  stmt_preserves I s -> stmt_preserves I (Sql.limit n s).
Proof.
  intros Hs env d H. unfold Sql.limit. specialize (Hs env d H).
  destruct (s env d); exact Hs.
Qed.

Lemma stmt_preserves_select_sessions p : stmt_preserves I (Sql.select_sessions p).
Proof. intros env d H. exact H. Qed.

Lemma stmt_preserves_select_participants p o :
  stmt_preserves I (Sql.select_participants p o).
Proof. intros env d H. exact H. Qed.

Lemma stmt_preserves_select_stories p o : stmt_preserves I (Sql.select_stories p o).
Proof. intros env d H. exact H. Qed.

End Preservation.

Create HintDb preserve.

#[local] Hint Resolve preserves_ret preserves_throw preserves_bind preserves_try_catch
  preserves_Promise_all2 preserves_request preserves_unwrap preserves_rethrow
  stmt_preserves_single stmt_preserves_limit stmt_preserves_select_sessions
  stmt_preserves_select_participants stmt_preserves_select_stories : preserve.

(** A statement that leaves the participant table alone keeps the vote
    invariant. *)
Lemma same_participants_consistent {A} (s : Sql.Stmt A) :
  (forall env d, participants (fst (s env d)) = participants d) ->
  stmt_preserves votes_consistent s.
Proof.
  intros H env d Hd. unfold votes_consistent. now rewrite H.
Qed.

Lemma insert_session_consistent room_code name organizer_id votes_revealed :
  stmt_preserves votes_consistent
    (Sql.insert_session room_code name organizer_id votes_revealed).
Proof.
  apply same_participants_consistent. intros env d. unfold Sql.insert_session.
  now destruct (_ || _).
Qed.

Lemma insert_story_consistent session_id title description order_index :
  stmt_preserves votes_consistent
    (Sql.insert_story session_id title description order_index).
Proof.
  apply same_participants_consistent. intros env d. unfold Sql.insert_story.
  destruct (existsb _ _); [reflexivity|].
  destruct (negb (Sql.has_session _ _)); [reflexivity|].
  now destruct (negb (Sql.in_int4 _)).
Qed.

Lemma update_sessions_consistent u p :
  stmt_preserves votes_consistent (Sql.update_sessions u p).
Proof. apply same_participants_consistent. reflexivity. Qed.

Lemma update_stories_consistent u p :
  stmt_preserves votes_consistent (Sql.update_stories u p).
Proof.
  apply same_participants_consistent. intros env d. unfold Sql.update_stories.
  destruct (negb (existsb _ _)); [reflexivity|].
  destruct (match Sql.st_id u with Some _ => _ | None => _ end); [reflexivity|].
  destruct (negb (Sql.fk_ok _ _)); [reflexivity|].
  now destruct (negb (Sql.in_int4 _)).
Qed.

Lemma delete_stories_consistent p :
  stmt_preserves votes_consistent (Sql.delete_stories p).
Proof. apply same_participants_consistent. reflexivity. Qed.

(** A new row that has not voted keeps the invariant. *)
Lemma insert_participant_consistent session_id name avatar is_organizer :
  stmt_preserves votes_consistent
    (Sql.insert_participant session_id name avatar is_organizer false).
Proof.
  intros env d H. unfold Sql.insert_participant.
  destruct (existsb _ _); [exact H|].
  destruct (negb (Sql.fk_ok _ _)); [exact H|].
  unfold votes_consistent in *. cbn [fst participants].
  apply Forall_app. split; [exact H|].
  constructor; [|constructor]. intros V. discriminate V.
Qed.


Lemma delete_participants_consistent p :
  stmt_preserves votes_consistent (Sql.delete_participants p).
Proof.
  intros env d H. unfold votes_consistent in *. cbn.
  rewrite Forall_forall in *. intros x Hx. apply filter_In in Hx. now apply H.
Qed.

#[local] Hint Resolve insert_session_consistent insert_story_consistent
  update_sessions_consistent update_stories_consistent delete_stories_consistent
  insert_participant_consistent delete_participants_consistent : preserve.















(** ** Reordering stories *)

Section SwapTwo.
Context {A : Type} (key : A -> string) (g : A -> A).
Context (x y : A).
Hypothesis other_rows : forall s, key s <> key x -> key s <> key y -> g s = s.


End SwapTwo.

Section SwapPerm.
Context {A : Type} (key : A -> string) (val : A -> Z) (g : A -> A).



End SwapPerm.

Lemma findIndex_from_app {A} (f : A -> bool) (pre : list A) (c : A) (post : list A) (i : Z) :
  (forall x, In x pre -> f x = false) -> f c = true ->
  JS.findIndex_from f (pre ++ c :: post) i = i + Z.of_nat (length pre).
Proof.
  revert i. induction pre as [|x pre IH]; intros i Hpre Hc; simpl.
  - rewrite Hc. lia.
  - rewrite (Hpre x) by now left.
    rewrite IH by (auto; intros y Hy; apply Hpre; now right). lia.
Qed.

Lemma findIndex_at_position (held : list Story.t) (id : string) (k : nat) :
  at_position held id k ->
  JS.findIndex (fun story => (Story.id story =? id)%string) held = Z.of_nat k.
Proof.
  intros (pre & c & post & -> & <- & Hc & Hpre). unfold JS.findIndex.
  rewrite findIndex_from_app.
  - reflexivity.
  - intros x Hx. apply String.eqb_neq. now apply Hpre.
  - now apply String.eqb_eq.
Qed.

Lemma at_nat {A} (l : list A) (k : nat) : JS.at_ l (Z.of_nat k) = nth_error l k.
Proof.
  unfold JS.at_. destruct (Z.ltb_spec (Z.of_nat k) 0); [lia|].
  now rewrite Nat2Z.id.
Qed.

Lemma update_rows_no_match {A} (p : A -> bool) (f : A -> A) (l : list A) :
  existsb p l = false -> Sql.update_rows p f l = l.
Proof.
  intros H. apply update_rows_fixed. intros x Hx Hp.
  assert (E : existsb p l = true) by (apply existsb_exists; now exists x).
  congruence.
Qed.

Lemma updateStory_order_index_done (storyId : string) (v : Z) (w : World) :
  fault (oracle w (tick w)) = None ->
  Sql.in_int4 v = true ->
  Supabase.updateStory storyId
    (Sql.mkStoryPatch None None None None None (Some v) None) w =
    (mkWorld
       (mkDB (sessions (tables w)) (participants (tables w))
          (Sql.update_rows (fun s => (Story.id s =? storyId)%string)
             (with_order_index v) (stories (tables w))))
       (S (tick w)) (oracle w),
     Return tt).
Proof.
  intros F R. unfold Supabase.updateStory, bind.
  rewrite request_done by exact F.
  unfold Sql.update_stories.
  destruct (existsb _ (stories (tables w))) eqn:E.
  - cbn. rewrite R. reflexivity.
  - cbn. destruct (tables w) as [ss ps sts]. cbn [sessions participants stories] in *.
    rewrite (update_rows_no_match _ (with_order_index v) _ E). reflexivity.
Qed.

Lemma distinct_positions (held : list Story.t) (i j : nat) (a b : Story.t) :
  NoDup (map Story.id held) ->
  nth_error held i = Some a -> nth_error held j = Some b -> i <> j ->
  Story.id a <> Story.id b.
Proof.
  intros Hnd Ha Hb Hij E. apply Hij.
  apply (proj1 (NoDup_nth_error (map Story.id held)) Hnd).
  - rewrite length_map. apply nth_error_Some. congruence.
  - rewrite !nth_error_map, Ha, Hb. simpl. now rewrite E.
Qed.


Lemma two_updates_exchange (c t : Story.t) (l : list Story.t) :
  Story.id c <> Story.id t ->
  Sql.update_rows (fun s => (Story.id s =? Story.id t)%string)
    (with_order_index (Story.order_index c))
    (Sql.update_rows (fun s => (Story.id s =? Story.id c)%string)
       (with_order_index (Story.order_index t)) l)
  = map (exchanged c t) l.
Proof.
  intros N. unfold Sql.update_rows. rewrite map_map. apply map_ext.
  intros s. unfold exchanged.
  destruct (Story.id s =? Story.id c)%string eqn:E; [|reflexivity].
  apply String.eqb_eq in E. cbn [with_order_index Sql.patch_story Story.id Sql.or_else Sql.st_id].
  rewrite E. apply String.eqb_neq in N. now rewrite N.
Qed.

(** The two updates are sent together; the store may run them in either
    order, and the rows are the same. *)
Lemma two_updates_either_order (c t : Story.t) (l : list Story.t) :
  Story.id c <> Story.id t ->
  Sql.update_rows (fun s => (Story.id s =? Story.id c)%string)
    (with_order_index (Story.order_index t))
    (Sql.update_rows (fun s => (Story.id s =? Story.id t)%string)
       (with_order_index (Story.order_index c)) l)
  = map (exchanged c t) l.
Proof.
  intros N. unfold Sql.update_rows. rewrite map_map. apply map_ext.
  intros s. unfold exchanged.
  destruct (Story.id s =? Story.id t)%string eqn:E.
  - apply String.eqb_eq in E.
    cbn [with_order_index Sql.patch_story Story.id Sql.or_else Sql.st_id].
    rewrite E. apply not_eq_sym in N. apply String.eqb_neq in N. now rewrite N.
  - reflexivity.
Qed.

Lemma moveStory_done (held : list Story.t) (id : string)
    (direction : StoryManager.Direction) (k : nat) (c t : Story.t) (w : World) :
  at_position held id k ->
  nth_error held k = Some c ->
  nth_error held (neighbour direction k) = Some t ->
  (direction = StoryManager.up -> (0 < k)%nat) ->
  held_well_formed held ->
  fault (oracle w (tick w)) = None ->
  fault (oracle w (S (tick w))) = None ->
  Story.id c <> Story.id t
  /\ StoryManager.moveStory held id direction w =
       (mkWorld
          (mkDB (sessions (tables w)) (participants (tables w))
             (map (exchanged c t) (stories (tables w))))
          (S (S (tick w))) (oracle w),
        Return tt).
Proof.
  intros Hpos Hc Ht Hup [Hnd Hint] F0 F1.
  assert (Hlen : (neighbour direction k < length held)%nat).
  { apply nth_error_Some. congruence. }
  assert (Hne : k <> neighbour direction k).
  { destruct direction; simpl; [specialize (Hup eq_refl)|]; lia. }
  assert (N : Story.id c <> Story.id t).
  { eapply distinct_positions; eassumption. }
  split; [exact N|].
  rewrite Forall_forall in Hint.
  assert (Rc : Sql.in_int4 (Story.order_index c) = true).
  { apply Hint. eapply nth_error_In; eassumption. }
  assert (Rt : Sql.in_int4 (Story.order_index t) = true).
  { apply Hint. eapply nth_error_In; eassumption. }
  unfold StoryManager.moveStory. rewrite (findIndex_at_position _ _ _ Hpos).
  assert (G : (StoryManager.is_up direction && (Z.of_nat k =? 0))
              || (StoryManager.is_down direction
                  && (Z.of_nat k =? Z.of_nat (length held) - 1)) = false).
  { destruct direction; cbn [StoryManager.is_up StoryManager.is_down andb orb].
    - specialize (Hup eq_refl). rewrite orb_false_r. apply Z.eqb_neq. lia.
    - simpl in Hlen. apply Z.eqb_neq. lia. }
  rewrite G. rewrite at_nat, Hc.
  replace (if StoryManager.is_up direction then Z.of_nat k - 1 else Z.of_nat k + 1)
    with (Z.of_nat (neighbour direction k)).
  2:{ destruct direction; simpl; [specialize (Hup eq_refl)|]; lia. }
  rewrite at_nat, Ht.
  unfold try_catch, bind, Promise_all2.
  rewrite (updateStory_order_index_done _ _ _ F0 Rt).
  rewrite updateStory_order_index_done; cbn [tables tick oracle stories sessions participants].
  - rewrite (two_updates_exchange _ _ _ N). reflexivity.
  - exact F1.
  - exact Rc.
Qed.

Lemma distinct_NoDup (l : list string) : Sql.distinct l = true -> NoDup l.
Proof.
  induction l as [|x l IH]; intros H; constructor; simpl in H;
    apply andb_true_iff in H; destruct H as [Hx Hl].
  - intros Hin. apply negb_true_iff in Hx.
    assert (E : existsb (String.eqb x) l = true).
    { apply existsb_exists. exists x. split; [exact Hin | apply String.eqb_refl]. }
    congruence.
  - now apply IH.
Qed.



(** ** Fetching a session *)

Section OrderBy.
Context {A : Type} (key : A -> Z).

Lemma insert_by_perm (x : A) (l : list A) :
  Permutation (x :: l) (Sql.insert_by key x l).
Proof.
  induction l as [|y l IH]; simpl; [apply Permutation_refl|].
  destruct (key x <=? key y); [apply Permutation_refl|].
  eapply perm_trans; [apply perm_swap|]. now apply perm_skip.
Qed.

Lemma order_by_perm (l : list A) : Permutation l (Sql.order_by key l).
Proof.
  induction l as [|x l IH]; simpl; [constructor|].
  eapply perm_trans; [|apply insert_by_perm]. now apply perm_skip.
Qed.

Lemma insert_by_HdRel (a x : A) (l : list A) :
  (by_key key) a x -> HdRel (by_key key) a l -> HdRel (by_key key) a (Sql.insert_by key x l).
Proof.
  intros Hax Hl. destruct l as [|y l]; simpl; [now constructor|].
  destruct (key x <=? key y); constructor; [exact Hax|].
  now inversion Hl.
Qed.

Lemma insert_by_sorted (x : A) (l : list A) :
  Sorted (by_key key) l -> Sorted (by_key key) (Sql.insert_by key x l).
Proof.
  induction l as [|y l IH]; intros Hs; simpl.
  - repeat constructor.
  - inversion Hs as [|? ? Hl Hy]; subst.
    destruct (Z.leb_spec (key x) (key y)).
    + constructor; [exact Hs|]. now constructor.
    + constructor; [now apply IH|].
      apply insert_by_HdRel; [unfold by_key; lia | exact Hy].
Qed.

Lemma order_by_sorted (l : list A) : Sorted (by_key key) (Sql.order_by key l).
Proof.
  induction l as [|x l IH]; simpl; [constructor|]. now apply insert_by_sorted.
Qed.

End OrderBy.

Lemma filter_none {A} (p : A -> bool) (l : list A) :
  existsb p l = false -> filter p l = [].
Proof.
  induction l as [|x l IH]; simpl; [reflexivity|].
  intros H. apply orb_false_iff in H. destruct H as [-> H]. now apply IH.
Qed.

Lemma filter_primary_key (l : list Session.t) (s : Session.t) :
  NoDup (map Session.id l) -> In s l ->
  filter (fun x => (Session.id x =? Session.id s)%string) l = [s].
Proof.
  induction l as [|x l IH]; intros Hnd Hin; [contradiction|].
  simpl in *. inversion Hnd as [|? ? Hx Hnd']; subst.
  destruct Hin as [->|Hin].
  - rewrite String.eqb_refl. f_equal. apply filter_none.
    destruct (existsb _ l) eqn:E; [|reflexivity].
    apply existsb_exists in E. destruct E as [y [Hy E]].
    apply String.eqb_eq in E. elim Hx. rewrite <- E. now apply in_map.
  - destruct (Session.id x =? Session.id s)%string eqn:E.
    + apply String.eqb_eq in E. elim Hx. rewrite E. now apply in_map.
    + now apply IH.
Qed.

Lemma getSessionData_done (sessionId : string) (w : World) :
  fault (oracle w (tick w)) = None ->
  fault (oracle w (S (tick w))) = None ->
  fault (oracle w (S (S (tick w)))) = None ->
  Supabase.getSessionData sessionId w =
    (mkWorld (tables w) (S (S (S (tick w)))) (oracle w),
     Return (Supabase.mkSessionData
       (match filter (fun s => (Session.id s =? sessionId)%string)
                (sessions (tables w)) with
        | [s] => Some s
        | _ => None
        end)
       (Sql.order_by Participant.joined_at
          (filter (fun p => Sql.eq_col (Participant.session_id p) sessionId)
             (participants (tables w))))
       (Sql.order_by Story.order_index
          (filter (fun s => Sql.eq_col (Story.session_id s) sessionId)
             (stories (tables w)))))).
Proof.
  intros F0 F1 F2. unfold Supabase.getSessionData, bind.
  rewrite request_done by exact F0. cbn [fst snd tables tick oracle].
  rewrite request_done by exact F1. cbn [fst snd tables tick oracle].
  rewrite request_done by exact F2. cbn [fst snd tables tick oracle].
  unfold ret. cbn.
  destruct (filter _ (sessions (tables w))) as [|s [|s' l]]; reflexivity.
Qed.

(** Whatever the store answers, [getSessionData] returns: it makes three
    requests and throws nothing. *)
Lemma getSessionData_returns (sessionId : string) (w : World) :
  exists data, snd (Supabase.getSessionData sessionId w) = Return data.
Proof.
  unfold Supabase.getSessionData, bind.
  destruct (request _ w) as [w1 r1] eqn:E1.
  destruct (request_returns (Sql.single (Sql.select_sessions
     (fun s => (Session.id s =? sessionId)%string))) w) as [x1 H1].
  rewrite E1 in H1. cbn [snd] in H1. subst r1.
  destruct (request _ w1) as [w2 r2] eqn:E2.
  destruct (request_returns (Sql.select_participants
     (fun p => Sql.eq_col (Participant.session_id p) sessionId)
     (Sql.order_by Participant.joined_at)) w1) as [x2 H2].
  rewrite E2 in H2. cbn [snd] in H2. subst r2.
  destruct (request _ w2) as [w3 r3] eqn:E3.
  destruct (request_returns (Sql.select_stories
     (fun s => Sql.eq_col (Story.session_id s) sessionId)
     (Sql.order_by Story.order_index)) w2) as [x3 H3].
  rewrite E3 in H3. cbn [snd] in H3. subst r3.
  eexists. reflexivity.
Qed.

(** C4, as the code has it.  When the store carries out the three queries,
    [getSessionData] returns (it does not fail) and leaves the tables as
    they are; the participants returned are the participants of the session
    in ascending [joined_at] and the stories returned are its stories in
    ascending [order_index]; the session returned is the row with that id.
    When there is no such row the session returned is [null], the
    participants and stories are returned all the same, and the component
    that loaded them holds no session and renders "Session not found". *)
Theorem getSessionData_fetches (sessionId : string) (st : PokerSession.State) (w : World) :
  fault (oracle w (tick w)) = None ->
  fault (oracle w (S (tick w))) = None ->
  fault (oracle w (S (S (tick w)))) = None ->
  exists data,
    Supabase.getSessionData sessionId w =
      (mkWorld (tables w) (S (S (S (tick w)))) (oracle w), Return data)
    /\ Sorted (by_key Participant.joined_at) (Supabase.sd_participants data)
    /\ Permutation
         (filter (fun p => Sql.eq_col (Participant.session_id p) sessionId)
            (participants (tables w)))
         (Supabase.sd_participants data)
    /\ Sorted (by_key Story.order_index) (Supabase.sd_stories data)
    /\ Permutation
         (filter (fun s => Sql.eq_col (Story.session_id s) sessionId)
            (stories (tables w)))
         (Supabase.sd_stories data)
    /\ (forall s, NoDup (map Session.id (sessions (tables w))) ->
          In s (sessions (tables w)) -> Session.id s = sessionId ->
          Supabase.session data = Some s)
    /\ (Sql.has_session (tables w) sessionId = false ->
        Supabase.session data = None
        /\ exists st',
             PokerSession.loadSessionData sessionId st w =
               (mkWorld (tables w) (S (S (S (tick w)))) (oracle w), Return st')
             /\ PokerSession.st_session st' = None
             /\ PokerSession.st_participants st' = Supabase.sd_participants data
             /\ PokerSession.st_stories st' = Supabase.sd_stories data
             /\ PokerSession.render st' = PokerSession.SessionNotFound).
Proof.
  intros F0 F1 F2. eexists. split; [apply (getSessionData_done _ _ F0 F1 F2)|].
  cbn [Supabase.sd_participants Supabase.sd_stories Supabase.session].
  split; [apply order_by_sorted|]. split; [apply order_by_perm|].
  split; [apply order_by_sorted|]. split; [apply order_by_perm|]. split.
  - intros s Hnd Hin <-. now rewrite (filter_primary_key _ _ Hnd Hin).
  - intros Habs. unfold Sql.has_session in Habs.
    rewrite (filter_none _ _ Habs). split; [reflexivity|].
    eexists. split.
    + unfold PokerSession.loadSessionData, bind.
      rewrite (getSessionData_done _ _ F0 F1 F2).
      rewrite (filter_none _ _ Habs). reflexivity.
    + repeat split.
Qed.

Lemma getSessionData_fetches_witness :
  fault (oracle Sample.world 0) = None
  /\ fault (oracle Sample.world 1) = None
  /\ fault (oracle Sample.world 2) = None
  /\ exists data,
       Supabase.getSessionData "s1" Sample.world =
         (mkWorld Sample.db 3 Sample.calm, Return data)
       /\ Supabase.session data = Some Sample.sprint
       /\ Supabase.sd_participants data = [Sample.alice; Sample.bob]
       /\ Supabase.sd_stories data = [Sample.storyA; Sample.storyB; Sample.storyC].
Proof.
  split; [reflexivity|]. split; [reflexivity|]. split; [reflexivity|].
  destruct (getSessionData_fetches "s1" PokerSession.initial Sample.world
              eq_refl eq_refl eq_refl) as [data [E _]].
  exists data. split; [exact E|].
  pose proof (f_equal snd E) as D. vm_compute in D.
  injection D as <-. repeat split.
Defined.

(** C4 with a failure on a missing row does not hold: with no session row
    of the given id, and a store
    that carries out every request, [getSessionData] returns a value and
    throws nothing, and so does [loadSessionData]. *)
Lemma getSessionData_missing_session_returns :
  Sql.has_session (tables Sample.world) "s9" = false
  /\ snd (Supabase.getSessionData "s9" Sample.world)
     = Return (Supabase.mkSessionData None [] [])
  /\ (forall e, snd (Supabase.getSessionData "s9" Sample.world) <> Throw e)
  /\ snd (PokerSession.loadSessionData "s9" PokerSession.initial Sample.world)
     = Return (PokerSession.mkState None [] [] 0 None false).
Proof.
  split; [reflexivity|]. split; [reflexivity|]. split; [|reflexivity].
  intros e H. discriminate H.
Qed.

(** ** Creating a session *)

Lemma insert_organizer_done (organizerName : string) (avatar : option string) (w : World) :
  fault (oracle w (tick w)) = None ->
  existsb (fun p => (Participant.id p =? uuid (oracle w (tick w)))%string)
    (participants (tables w)) = false ->
  request (Sql.insert_participant None organizerName avatar true false) w =
    (mkWorld
       (mkDB (sessions (tables w))
          (participants (tables w)
           ++ [organizer_row (oracle w (tick w)) organizerName avatar])
          (stories (tables w)))
       (S (tick w)) (oracle w),
     Return (ok (organizer_row (oracle w (tick w)) organizerName avatar))).
Proof.
  intros F Hfresh. rewrite request_done by exact F.
  unfold Sql.insert_participant. rewrite Hfresh. reflexivity.
Qed.

Lemma update_rows_last (p : Participant.t -> bool) (f : Participant.t -> Participant.t)
    (l : list Participant.t) (x : Participant.t) :
  existsb p l = false -> p x = true ->
  Sql.update_rows p f (l ++ [x]) = l ++ [f x].
Proof.
  intros Hl Hx. unfold Sql.update_rows. rewrite map_app. simpl. rewrite Hx.
  f_equal. induction l as [|y l IH]; [reflexivity|].
  simpl in *. apply orb_false_iff in Hl. destruct Hl as [-> Hl].
  now rewrite IH.
Qed.

(** C5. [createSession] first inserts the organizer with a null session
    reference.  If the store then refuses the session row (it fails the
    request, or the room code is taken), the function throws "Failed to
    create session" and the organizer row stays in the table, with no
    session.  If the session row is inserted, it names the organizer's id as
    its organizer; if the store then fails the patch of the organizer, the
    function throws "Failed to update organizer" and the organizer row stays
    with its null session reference.  If the patch is carried out, the
    organizer row carries the id of the new session and both rows are
    returned. *)
Theorem createSession_steps (draw : list nat) (name organizerName : string)
    (avatar : option string) (w : World) :
  let e0 := oracle w (tick w) in
  let e1 := oracle w (S (tick w)) in
  let e2 := oracle w (S (S (tick w))) in
  let organizer := organizer_row e0 organizerName avatar in
  let session := session_row e1 (Supabase.roomCode draw) name (Participant.id organizer) in
  let orphaned := participants (tables w) ++ [organizer] in
  fault e0 = None ->
  existsb (fun p => (Participant.id p =? uuid e0)%string) (participants (tables w)) = false ->
  (forall err, fault e1 = Some err ->
     Supabase.createSession draw name organizerName avatar w =
       (mkWorld (mkDB (sessions (tables w)) orphaned (stories (tables w)))
          (S (S (tick w))) (oracle w),
        Throw (Error ("Failed to create session: " ++ message err))))
  /\ (fault e1 = None ->
      existsb (fun s => (Session.room_code s =? Supabase.roomCode draw)%string)
        (sessions (tables w)) = true ->
      Supabase.createSession draw name organizerName avatar w =
        (mkWorld (mkDB (sessions (tables w)) orphaned (stories (tables w)))
           (S (S (tick w))) (oracle w),
         Throw (Error ("Failed to create session: " ++ message Sql.unique_violation))))
  /\ (fault e1 = None ->
      existsb (fun s => (Session.id s =? uuid e1)%string) (sessions (tables w)) = false ->
      existsb (fun s => (Session.room_code s =? Supabase.roomCode draw)%string)
        (sessions (tables w)) = false ->
      (forall err, fault e2 = Some err ->
         Supabase.createSession draw name organizerName avatar w =
           (mkWorld (mkDB (sessions (tables w) ++ [session]) orphaned (stories (tables w)))
              (S (S (S (tick w)))) (oracle w),
            Throw (Error ("Failed to update organizer: " ++ message err))))
      /\ (fault e2 = None ->
          Supabase.createSession draw name organizerName avatar w =
            (mkWorld
               (mkDB (sessions (tables w) ++ [session])
                  (participants (tables w)
                   ++ [Supabase.set_session_id organizer (Session.id session)])
                  (stories (tables w)))
               (S (S (S (tick w)))) (oracle w),
             Return (session, Supabase.set_session_id organizer (Session.id session))))).
Proof.
  intros e0 e1 e2 organizer session orphaned F0 Hfresh.
  unfold Supabase.createSession, bind.
  rewrite (insert_organizer_done _ _ _ F0 Hfresh).
  fold e0. fold organizer. fold orphaned.
  cbn [Supabase.unwrap error data ok ret].
  split; [|split].
  - intros err F1.
    rewrite request_fault with (e := err) by exact F1. reflexivity.
  - intros F1 Htaken.
    rewrite request_done by exact F1.
    cbn [tables tick oracle]. unfold Sql.insert_session.
    cbn [sessions participants stories].
    rewrite Htaken, orb_true_r. reflexivity.
  - intros F1 Hid Hfree.
    rewrite request_done by exact F1.
    cbn [tables tick oracle]. unfold Sql.insert_session.
    cbn [sessions participants stories].
    fold e1. rewrite Hid, Hfree. cbn [orb fst snd].
    cbn [Supabase.unwrap error data ok ret participants stories sessions].
    fold session. split.
    + intros err F2. rewrite request_fault with (e := err) by exact F2. reflexivity.
    + intros F2. rewrite request_done by exact F2.
      cbn [tables tick oracle]. unfold Sql.update_participants.
      cbn [Sql.pp_session_id Sql.fk_ok]. unfold Sql.has_session.
      cbn [sessions participants stories Session.id].
      rewrite (existsb_app _ (sessions (tables w))). cbn [existsb].
      rewrite String.eqb_refl, orb_true_r. cbn [negb]. rewrite andb_false_r.
      cbn [fst snd error]. unfold orphaned.
      rewrite update_rows_last.
      * reflexivity.
      * exact Hfresh.
      * apply String.eqb_refl.
Qed.

Lemma createSession_steps_witness :
  fault (oracle (Sample.world_failing 1) 0) = None
  /\ existsb (fun p => (Participant.id p =? "u0")%string) (participants Sample.db) = false
  /\ Supabase.createSession Sample.draw "Sprint 2" "Dana" None (Sample.world_failing 1) =
       (mkWorld
          (mkDB (sessions Sample.db)
             (participants Sample.db
              ++ [Participant.mk "u0" None "Dana" None true false None 100 100])
             (stories Sample.db))
          2 (Sample.failing_at 1),
        Throw (Error "Failed to create session: connection failure"))
  /\ Supabase.createSession Sample.draw "Sprint 2" "Dana" None (Sample.world_failing 2) =
       (mkWorld
          (mkDB (sessions Sample.db
                 ++ [Session.mk "u1" "K3F9ZQ" "Sprint 2" "u0" None false 101 101])
             (participants Sample.db
              ++ [Participant.mk "u0" None "Dana" None true false None 100 100])
             (stories Sample.db))
          3 (Sample.failing_at 2),
        Throw (Error "Failed to update organizer: connection failure")).
Proof.
  split; [reflexivity|]. split; [reflexivity|]. split.
  - apply (proj1 (createSession_steps Sample.draw "Sprint 2" "Dana" None
                    (Sample.world_failing 1) eq_refl eq_refl)
             (mkPgError "08006" "connection failure")).
    reflexivity.
  - apply (proj1 (proj2 (proj2 (createSession_steps Sample.draw "Sprint 2" "Dana" None
                                  (Sample.world_failing 2) eq_refl eq_refl))
                    eq_refl eq_refl eq_refl)
             (mkPgError "08006" "connection failure")).
    reflexivity.
Defined.

(** ** Room codes *)

Lemma toUpperCase_length (s : string) :
  String.length (JS.toUpperCase s) = String.length s.
Proof.
  induction s as [|c s IH]; simpl; [reflexivity|]. now rewrite IH.
Qed.

Lemma substring_0_length (n : nat) (s : string) :
  String.length (String.substring 0 n s) = Nat.min n (String.length s).
Proof.
  revert s. induction n as [|n IH]; intros s.
  - now destruct s.
  - destruct s as [|c s]; simpl; [reflexivity|]. now rewrite IH.
Qed.

Lemma digits36_length (ds : list nat) : String.length (JS.digits36 ds) = length ds.
Proof.
  induction ds as [|d ds IH]; simpl; [reflexivity|]. now rewrite IH.
Qed.

Lemma digit36_upper (d : nat) :
  (d < 36)%nat -> is_upper_alnum (JS.upper_char (JS.digit36 d)) = true.
Proof.
  intros H. do 36 (destruct d as [|d]; [reflexivity|]). lia.
Qed.

Lemma prefix_upper_alnum (n : nat) (ds : list nat) :
  Forall (fun d => (d < 36)%nat) ds ->
  all_chars is_upper_alnum
    (JS.toUpperCase (String.substring 0 n (JS.digits36 ds))) = true.
Proof.
  revert ds. induction n as [|n IH]; intros ds H.
  - now destruct ds.
  - destruct ds as [|d ds]; [reflexivity|].
    inversion H as [|? ? Hd Hds]; subst.
    cbn [JS.digits36 String.substring JS.toUpperCase all_chars].
    rewrite (digit36_upper d Hd). now apply IH.
Qed.

(** What does hold of every room code: it has at most six characters, each
    an uppercase letter or a digit, and it has six when the number drawn
    prints with six digits or more. *)
Lemma roomCode_bounds (draw : list nat) :
  Forall (fun d => (d < 36)%nat) draw ->
  (String.length (Supabase.roomCode draw) <= 6)%nat
  /\ all_chars is_upper_alnum (Supabase.roomCode draw) = true
  /\ String.length (Supabase.roomCode draw) = Nat.min 6 (length draw).
Proof.
  intros H. unfold Supabase.roomCode, JS.substr, JS.toString36.
  destruct draw as [|d ds].
  - repeat split. simpl. lia.
  - change (String.substring 2 6 ("0." ++ JS.digits36 (d :: ds))%string)
      with (String.substring 0 6 (JS.digits36 (d :: ds))).
    rewrite toUpperCase_length, substring_0_length, digits36_length.
    repeat split; [lia|]. now apply prefix_upper_alnum.
Qed.

(** C6, at the number one half.  In base 36 one half is [0.i]: the code
    keeps the characters after ["0."], at most six of them, and here there
    is one.  The room code is ["I"], and that is the code of the session
    row [createSession] inserts.  A draw of zero prints as ["0"] and gives
    the empty room code. *)
Theorem roomCode_of_one_half :
  JS.expansion36 64 1 2 = [18%nat]
  /\ JS.toString36 [18%nat] = "0.i"%string
  /\ Supabase.roomCode [18%nat] = "I"%string
  /\ String.length (Supabase.roomCode [18%nat]) <> 6%nat
  /\ map Session.room_code
       (sessions (tables (fst (Supabase.createSession [18%nat] "Sprint 1" "Alice" None
                                 Sample.world))))
     = ["ABC123"; "XYZ789"; "I"]%string
  /\ Supabase.roomCode (JS.expansion36 64 0 2) = ""%string.
Proof.
  repeat split. discriminate.
Qed.

(** ** Joining a session *)

(** When the room code names one session and exactly one participant of it
    has the name, [joinSession] throws the name conflict and writes
    nothing. *)
Lemma joinSession_rejects_taken_name (roomCode participantName : string)
    (avatar : option string) (w : World) (s : Session.t) (p : Participant.t) :
  fault (oracle w (tick w)) = None ->
  fault (oracle w (S (tick w))) = None ->
  filter (fun x => (Session.room_code x =? JS.toUpperCase roomCode)%string)
    (sessions (tables w)) = [s] ->
  filter (fun x => Sql.eq_col (Participant.session_id x) (Session.id s)
                   && (Participant.name x =? participantName)%string)
    (participants (tables w)) = [p] ->
  Supabase.joinSession roomCode participantName avatar w =
    (mkWorld (tables w) (S (S (tick w))) (oracle w), Throw Supabase.name_conflict).
Proof.
  intros F0 F1 Hs Hp. unfold Supabase.joinSession, Supabase.joinSession_lookup, bind.
  rewrite request_done by exact F0.
  unfold Sql.single, Sql.select_sessions. cbn [fst snd error data ok]. rewrite Hs.
  cbn [Supabase.unwrap error data ok ret].
  rewrite request_done by exact F1.
  unfold Sql.single, Sql.select_participants.
  cbn [fst snd error data ok tables tick oracle]. rewrite Hp. reflexivity.
Qed.

(** Two joins under one name that run at the same time: each looks the name
    up before the other has inserted its row, and both rows are inserted. *)
Lemma concurrent_joins_duplicate_name :
  let a_looked := Supabase.joinSession_lookup "abc123" "Bob" Sample.world_without_bob in
  let b_looked := Supabase.joinSession_lookup "ABC123" "Bob" (fst a_looked) in
  let a_joined := Supabase.joinSession_insert Sample.sprint "Bob" None (fst b_looked) in
  let b_joined := Supabase.joinSession_insert Sample.sprint "Bob" None (fst a_joined) in
  snd a_looked = Return Sample.sprint
  /\ snd b_looked = Return Sample.sprint
  /\ map Participant.name (participants (tables (fst b_joined)))
     = ["Alice"; "Carol"; "Bob"; "Bob"]%string.
Proof.
  repeat split.
Qed.

(** C3, at a session in which two participants already have the name.  The
    search for the name asks for a single row; with two rows it answers
    with an error and no row, which the function reads as "no such
    participant": [joinSession] returns, and a third row with the name is
    in the table.  With one row of the name the same call throws the name
    conflict and writes nothing; but when the store fails the search
    itself, the error is only written to the console and the row is
    inserted next to the one that has the name. *)
Theorem joinSession_accepts_name_present_twice :
  filter (fun p => Sql.eq_col (Participant.session_id p) "s1"
                   && (Participant.name p =? "Bob")%string)
    (participants Sample.db_two_bobs) = [Sample.bob; Sample.bob2]
  /\ snd (Supabase.joinSession "abc123" "Bob" None Sample.world_two_bobs)
     = Return (Sample.sprint,
               Some (Participant.mk "u2" (Some "s1") "Bob" None false false None 102 102))
  /\ participants (tables (fst (Supabase.joinSession "abc123" "Bob" None
                                  Sample.world_two_bobs)))
     = [Sample.alice; Sample.carol; Sample.bob; Sample.bob2;
        Participant.mk "u2" (Some "s1") "Bob" None false false None 102 102]
  /\ Supabase.joinSession "abc123" "Bob" None Sample.world
     = (mkWorld Sample.db 2 Sample.calm, Throw Supabase.name_conflict)
  /\ participants (tables (fst (Supabase.joinSession "abc123" "Bob" None
                                  (Sample.world_failing 1))))
     = [Sample.alice; Sample.carol; Sample.bob;
        Participant.mk "u2" (Some "s1") "Bob" None false false None 102 102].
Proof.
  repeat split.
Qed.

(** ** Scenarios *)

(** A session is created by Alice, Bob joins with the room code in lower
    case and votes 8, Alice reveals, then resets. *)
Example scenario_vote_round :
  let created := fst (Supabase.createSession Sample.draw "Sprint 1" "Alice" None
                        Sample.fresh_world) in
  let joined := fst (Supabase.joinSession "k3f9zq" "Bob" None created) in
  let voted := fst (Supabase.updateParticipantVote "u5" "8" joined) in
  let shown := fst (Supabase.revealVotes "u1" voted) in
  let cleared := fst (Supabase.resetVotes "u1" shown) in
  sessions (tables created)
    = [Session.mk "u1" "K3F9ZQ" "Sprint 1" "u0" None false 101 101]
  /\ participants (tables joined)
     = [Participant.mk "u0" (Some "u1") "Alice" None true false None 100 100;
        Participant.mk "u5" (Some "u1") "Bob" None false false None 105 105]
  /\ participants (tables voted)
     = [Participant.mk "u0" (Some "u1") "Alice" None true false None 100 100;
        Participant.mk "u5" (Some "u1") "Bob" None false true (Some "8") 105 105]
  /\ map Session.votes_revealed (sessions (tables shown)) = [true]
  /\ participants (tables shown) = participants (tables voted)
  /\ map Session.votes_revealed (sessions (tables cleared)) = [false]
  /\ participants (tables cleared) = participants (tables joined).
Proof.
  repeat split.
Qed.

(** Stories A and B are added, B is moved up from the fetched list, and the
    next fetch shows B before A. *)
Example scenario_move_story :
  let created := fst (Supabase.createSession Sample.draw "Sprint 1" "Alice" None
                        Sample.fresh_world) in
  let added := fst (Supabase.addStory "u1" "B" None
                      (fst (Supabase.addStory "u1" "A" None created))) in
  let held := Sample.fetched_stories "u1" added in
  let moved := fst (StoryManager.moveStory held "u6" StoryManager.up added) in
  map (fun s => (Story.title s, Story.order_index s)) held
    = [("A"%string, 0); ("B"%string, 1)]
  /\ map Story.id held = ["u4"; "u6"]%string
  /\ map (fun s => (Story.title s, Story.order_index s))
       (Sample.fetched_stories "u1" moved)
     = [("B"%string, 0); ("A"%string, 1)].
Proof.
  repeat split.
Qed.

(* ------------------------------------------------------------------ *)
(** * Further properties of the client functions *)

(** ** Joining: the room code and the new row *)

Lemma upper_char_idempotent (c : ascii) :
  JS.upper_char (JS.upper_char c) = JS.upper_char c.
Proof.
  destruct c as [[] [] [] [] [] [] [] []]; reflexivity.
Qed.

Lemma toUpperCase_idempotent (s : string) :
  JS.toUpperCase (JS.toUpperCase s) = JS.toUpperCase s.
Proof.
  induction s as [|c s IH]; simpl; [reflexivity|].
  now rewrite upper_char_idempotent, IH.
Qed.

(** X1. The room code a participant types is matched whatever its letter case:
    a join with a code and a join with the same code in upper case are the
    same computation. *)
Theorem joinSession_any_letter_case (roomCode participantName : string)
    (avatar : option string) (w : World) :
  Supabase.joinSession (JS.toUpperCase roomCode) participantName avatar w
  = Supabase.joinSession roomCode participantName avatar w.
Proof.
  unfold Supabase.joinSession, Supabase.joinSession_lookup.
  now rewrite toUpperCase_idempotent.
Qed.

(** X2. A join with a room code, typed in ASCII, that in upper case is the
    code of no session throws "Session not found" after one request and
    writes nothing; a store failure of that first request is reported under
    the same "Session not found" heading, whatever was typed. *)
Theorem joinSession_unknown_room (roomCode participantName : string)
    (avatar : option string) (w : World) :
  (ascii_text roomCode = true ->
   fault (oracle w (tick w)) = None ->
   existsb (fun s => (Session.room_code s =? JS.toUpperCase roomCode)%string)
     (sessions (tables w)) = false ->
   Supabase.joinSession roomCode participantName avatar w =
     (mkWorld (tables w) (S (tick w)) (oracle w),
      Throw (Error ("Session not found: " ++ message Sql.PGRST116))))
  /\ (forall e, fault (oracle w (tick w)) = Some e ->
      Supabase.joinSession roomCode participantName avatar w =
        (mkWorld (tables w) (S (tick w)) (oracle w),
         Throw (Error ("Session not found: " ++ message e)))).
Proof.
  split.
  - intros _ F Habs. unfold Supabase.joinSession, Supabase.joinSession_lookup, bind.
    rewrite request_done by exact F.
    unfold Sql.single, Sql.select_sessions. cbn [fst snd error data ok].
    rewrite (filter_none _ _ Habs). reflexivity.
  - intros e F. unfold Supabase.joinSession, Supabase.joinSession_lookup, bind.
    rewrite (request_fault _ _ _ F). reflexivity.
Qed.

Lemma joinSession_unknown_room_witness :
  ascii_text "nosuch" = true
  /\ fault (oracle Sample.world (tick Sample.world)) = None
  /\ existsb (fun s => (Session.room_code s =? JS.toUpperCase "nosuch")%string)
       (sessions (tables Sample.world)) = false
  /\ Supabase.joinSession "nosuch" "Dan" None Sample.world =
       (mkWorld Sample.db 1 Sample.calm,
        Throw (Error ("Session not found: " ++ message Sql.PGRST116))).
Proof.
  split; [reflexivity|]. split; [reflexivity|]. split; [reflexivity|].
  apply (proj1 (joinSession_unknown_room "nosuch" "Dan" None Sample.world));
    reflexivity.
Defined.

Lemma existsb_in_filter {A} (p : A -> bool) (l : list A) (x : A) :
  filter p l = [x] -> In x l /\ p x = true.
Proof.
  intros H. apply filter_In. rewrite H. now left.
Qed.

Lemma joinSession_done (roomCode participantName : string)
    (avatar : option string) (w : World) (s : Session.t) :
  let e2 := oracle w (S (S (tick w))) in
  let row := Participant.mk (uuid e2) (Some (Session.id s)) participantName avatar
               false false None (now e2) (now e2) in
  fault (oracle w (tick w)) = None ->
  fault (oracle w (S (tick w))) = None ->
  fault e2 = None ->
  filter (fun x => (Session.room_code x =? JS.toUpperCase roomCode)%string)
    (sessions (tables w)) = [s] ->
  existsb (fun x => Sql.eq_col (Participant.session_id x) (Session.id s)
                    && (Participant.name x =? participantName)%string)
    (participants (tables w)) = false ->
  existsb (fun p => (Participant.id p =? uuid e2)%string) (participants (tables w)) = false ->
  Supabase.joinSession roomCode participantName avatar w =
    (mkWorld
       (mkDB (sessions (tables w)) (participants (tables w) ++ [row]) (stories (tables w)))
       (S (S (S (tick w)))) (oracle w),
     Return (s, Some row)).
Proof.
  intros e2 row F0 F1 F2 Hs Hname Hfresh.
  destruct (existsb_in_filter _ _ _ Hs) as [Hin _].
  unfold Supabase.joinSession, Supabase.joinSession_lookup, bind.
  rewrite request_done by exact F0.
  unfold Sql.single, Sql.select_sessions. cbn [fst snd error data ok]. rewrite Hs.
  cbn [Supabase.unwrap error data ok ret].
  rewrite request_done by exact F1.
  unfold Sql.single, Sql.select_participants.
  cbn [fst snd error data ok tables tick oracle].
  rewrite (filter_none _ _ Hname). cbn [error data failed].
  unfold Supabase.joinSession_insert, bind. unfold ret at 1.
  rewrite request_done by exact F2.
  cbn [tables tick oracle]. unfold Sql.insert_participant. fold e2.
  rewrite Hfresh. unfold Sql.fk_ok, Sql.has_session.
  assert (E : existsb (fun x => (Session.id x =? Session.id s)%string)
                (sessions (tables w)) = true).
  { apply existsb_exists. exists s. split; [exact Hin | apply String.eqb_refl]. }
  rewrite E. reflexivity.
Qed.


(** X3. A join under a name no participant of the session has: when the store
    carries out the three requests and the room code names one session, one
    row is appended to the participants, in that session, under exactly the
    name given, not an organizer, with no vote; the other tables and rows
    are as they were and the session and the new row are returned. *)
Theorem joinSession_adds_participant (roomCode participantName : string)
    (avatar : option string) (w : World) (s : Session.t) :
  fault (oracle w (tick w)) = None ->
  fault (oracle w (S (tick w))) = None ->
  fault (oracle w (S (S (tick w)))) = None ->
  filter (fun x => (Session.room_code x =? JS.toUpperCase roomCode)%string)
    (sessions (tables w)) = [s] ->
  existsb (fun x => Sql.eq_col (Participant.session_id x) (Session.id s)
                    && (Participant.name x =? participantName)%string)
    (participants (tables w)) = false ->
  existsb (fun p => (Participant.id p =? uuid (oracle w (S (S (tick w)))))%string)
    (participants (tables w)) = false ->
  exists row,
    snd (Supabase.joinSession roomCode participantName avatar w) = Return (s, Some row)
    /\ participants (tables (fst (Supabase.joinSession roomCode participantName avatar w)))
       = participants (tables w) ++ [row]
    /\ sessions (tables (fst (Supabase.joinSession roomCode participantName avatar w)))
       = sessions (tables w)
    /\ stories (tables (fst (Supabase.joinSession roomCode participantName avatar w)))
       = stories (tables w)
    /\ Participant.session_id row = Some (Session.id s)
    /\ Participant.name row = participantName
    /\ Participant.avatar row = avatar
    /\ Participant.is_organizer row = false
    /\ Participant.has_voted row = false
    /\ Participant.vote row = None.
Proof.
  intros F0 F1 F2 Hs Hname Hfresh.
  eexists. rewrite (joinSession_done _ _ _ _ _ F0 F1 F2 Hs Hname Hfresh).
  repeat split.
Qed.

Lemma joinSession_adds_participant_witness :
  fault (oracle Sample.world 0) = None
  /\ fault (oracle Sample.world 1) = None
  /\ fault (oracle Sample.world 2) = None
  /\ exists row,
       snd (Supabase.joinSession "abc123" "bob" None Sample.world)
         = Return (Sample.sprint, Some row)
       /\ participants (tables (fst (Supabase.joinSession "abc123" "bob" None Sample.world)))
          = participants Sample.db ++ [row]
       /\ Participant.name row = "bob"%string
       /\ Participant.is_organizer row = false.
Proof.
  split; [reflexivity|]. split; [reflexivity|]. split; [reflexivity|].
  destruct (joinSession_adds_participant "abc123" "bob" None Sample.world Sample.sprint
              eq_refl eq_refl eq_refl eq_refl eq_refl eq_refl)
    as (row & H1 & H2 & _ & _ & _ & H3 & _ & H4 & _).
  exists row. repeat split; assumption.
Defined.

(** ** Creating, then joining; joining, then being removed *)

Lemma createSession_done (draw : list nat) (name organizerName : string)
    (avatar : option string) (w : World) :
  let e0 := oracle w (tick w) in
  let e1 := oracle w (S (tick w)) in
  let organizer := organizer_row e0 organizerName avatar in
  let session := session_row e1 (Supabase.roomCode draw) name (Participant.id organizer) in
  fault e0 = None ->
  fault e1 = None ->
  fault (oracle w (S (S (tick w)))) = None ->
  existsb (fun p => (Participant.id p =? uuid e0)%string) (participants (tables w)) = false ->
  existsb (fun s => (Session.id s =? uuid e1)%string) (sessions (tables w)) = false ->
  existsb (fun s => (Session.room_code s =? Supabase.roomCode draw)%string)
    (sessions (tables w)) = false ->
  Supabase.createSession draw name organizerName avatar w =
    (mkWorld
       (mkDB (sessions (tables w) ++ [session])
          (participants (tables w)
           ++ [Supabase.set_session_id organizer (Session.id session)])
          (stories (tables w)))
       (S (S (S (tick w)))) (oracle w),
     Return (session, Supabase.set_session_id organizer (Session.id session))).
Proof.
  intros e0 e1 organizer session F0 F1 F2 Hfresh Hid Hfree.
  unfold Supabase.createSession, bind.
  rewrite (insert_organizer_done _ _ _ F0 Hfresh).
  fold e0. fold organizer.
  cbn [Supabase.unwrap error data ok ret].
  rewrite request_done by exact F1.
  cbn [tables tick oracle]. unfold Sql.insert_session.
  cbn [sessions participants stories].
  fold e1. rewrite Hid, Hfree. cbn [orb fst snd].
  cbn [Supabase.unwrap error data ok ret participants stories sessions].
  fold session.
  rewrite request_done by exact F2.
  cbn [tables tick oracle]. unfold Sql.update_participants.
  cbn [Sql.pp_session_id Sql.fk_ok]. unfold Sql.has_session.
  cbn [sessions participants stories Session.id].
  rewrite (existsb_app _ (sessions (tables w))). cbn [existsb].
  rewrite String.eqb_refl, orb_true_r. cbn [negb]. rewrite andb_false_r.
  cbn [fst snd error].
  rewrite update_rows_last.
  - reflexivity.
  - exact Hfresh.
  - apply String.eqb_refl.
Qed.

Lemma filter_all {A} (p : A -> bool) (l : list A) :
  existsb p l = false -> filter (fun x => negb (p x)) l = l.
Proof.
  induction l as [|x l IH]; simpl; [reflexivity|].
  intros H. apply orb_false_iff in H. destruct H as [-> H]. simpl.
  now rewrite IH.
Qed.

Lemma existsb_and_false {A} (p q : A -> bool) (l : list A) :
  existsb p l = false -> existsb (fun x => p x && q x) l = false.
Proof.
  induction l as [|x l IH]; simpl; [reflexivity|].
  intros H. apply orb_false_iff in H. destruct H as [-> H]. now rewrite IH.
Qed.

(** X4. A session that has just been created can be joined with its room code,
    typed in any letter case: the lookup finds the new session and no other,
    and the participant is added to it next to the organizer. *)
Theorem createSession_then_joinSession (draw : list nat)
    (name organizerName participantName roomCode : string)
    (avatar : option string) (w : World) :
  let e0 := oracle w (tick w) in
  let e1 := oracle w (S (tick w)) in
  let e5 := oracle w (5 + tick w) in
  let created := Supabase.createSession draw name organizerName None w in
  let joined := Supabase.joinSession roomCode participantName avatar (fst created) in
  (forall k, (k < 6)%nat -> fault (oracle w (k + tick w)) = None) ->
  existsb (fun p => (Participant.id p =? uuid e0)%string) (participants (tables w)) = false ->
  existsb (fun p => (Participant.id p =? uuid e5)%string) (participants (tables w)) = false ->
  uuid e5 <> uuid e0 ->
  existsb (fun s => (Session.id s =? uuid e1)%string) (sessions (tables w)) = false ->
  existsb (fun s => (Session.room_code s =? Supabase.roomCode draw)%string)
    (sessions (tables w)) = false ->
  existsb (fun p => Sql.eq_col (Participant.session_id p) (uuid e1))
    (participants (tables w)) = false ->
  JS.toUpperCase roomCode = Supabase.roomCode draw ->
  participantName <> organizerName ->
  exists session organizer row,
    snd created = Return (session, organizer)
    /\ snd joined = Return (session, Some row)
    /\ Session.organizer_id session = Participant.id organizer
    /\ Participant.session_id organizer = Some (Session.id session)
    /\ Participant.session_id row = Some (Session.id session)
    /\ Participant.name row = participantName
    /\ Participant.is_organizer row = false
    /\ participants (tables (fst joined)) = participants (tables w) ++ [organizer; row]
    /\ sessions (tables (fst joined)) = sessions (tables w) ++ [session].
Proof.
  intros e0 e1 e5 created joined F Hp0 Hp5 Hne Hs1 Hfree Href Hcode Hname.
  subst joined created.
  rewrite (createSession_done draw name organizerName None w
             (F 0%nat ltac:(lia)) (F 1%nat ltac:(lia)) (F 2%nat ltac:(lia))
             Hp0 Hs1 Hfree).
  fold e0 e1. cbn [fst snd].
  set (session := session_row e1 (Supabase.roomCode draw) name
                    (Participant.id (organizer_row e0 organizerName None))).
  set (organizer := Supabase.set_session_id (organizer_row e0 organizerName None)
                      (Session.id session)).
  match goal with |- context [Supabase.joinSession _ _ _ ?W] => set (w1 := W) end.
  assert (J := joinSession_done roomCode participantName avatar w1 session).
  cbv zeta in J. subst w1. cbn [tables tick oracle sessions participants stories] in J.
  rewrite J; clear J.
  - exists session, organizer. eexists. cbn [fst snd tables participants sessions].
    rewrite <- app_assoc. repeat split.
  - exact (F 3%nat ltac:(lia)).
  - exact (F 4%nat ltac:(lia)).
  - exact (F 5%nat ltac:(lia)).
  - rewrite filter_app, Hcode. rewrite (filter_none _ _ Hfree).
    cbn. now rewrite String.eqb_refl.
  - rewrite existsb_app. rewrite (existsb_and_false _ _ _ Href).
    cbn. rewrite String.eqb_refl. cbn.
    apply not_eq_sym in Hname. apply String.eqb_neq in Hname. now rewrite Hname.
  - rewrite existsb_app.
    change (oracle w (S (S (S (S (S (tick w))))))) with e5. rewrite Hp5. cbn.
    apply not_eq_sym in Hne. apply String.eqb_neq in Hne. now rewrite Hne.
Qed.

Lemma createSession_then_joinSession_witness :
  exists session organizer row,
    snd (Supabase.createSession Sample.draw "Sprint 1" "Alice" None Sample.world)
      = Return (session, organizer)
    /\ snd (Supabase.joinSession "k3f9zq" "Dan" None
              (fst (Supabase.createSession Sample.draw "Sprint 1" "Alice" None Sample.world)))
       = Return (session, Some row)
    /\ Participant.session_id row = Some (Session.id session)
    /\ Session.room_code session = "K3F9ZQ"%string.
Proof.
  assert (F : forall k, (k < 6)%nat -> fault (oracle Sample.world (k + tick Sample.world)) = None).
  { intros k _. reflexivity. }
  assert (N1 : uuid (oracle Sample.world (5 + tick Sample.world))
               <> uuid (oracle Sample.world (tick Sample.world))) by discriminate.
  assert (N2 : "Dan"%string <> "Alice"%string) by discriminate.
  destruct (createSession_then_joinSession Sample.draw "Sprint 1" "Alice" "Dan" "k3f9zq"
              None Sample.world F eq_refl eq_refl N1 eq_refl eq_refl eq_refl eq_refl N2)
    as (session & organizer & row & Hc & Hj & _ & _ & Hr & _).
  exists session, organizer, row.
  split; [exact Hc|]. split; [exact Hj|]. split; [exact Hr|].
  assert (E : Return (session, organizer)
              = snd (Supabase.createSession Sample.draw "Sprint 1" "Alice" None Sample.world))
    by (symmetry; exact Hc).
  vm_compute in E. injection E as -> _. reflexivity.
Defined.

Lemma removeParticipant_done (participantId : string) (w : World) :
  fault (oracle w (tick w)) = None ->
  Supabase.removeParticipant participantId w =
    (mkWorld
       (mkDB (sessions (tables w))
          (filter (fun p => negb (Participant.id p =? participantId)%string)
             (participants (tables w)))
          (stories (tables w)))
       (S (tick w)) (oracle w),
     Return tt).
Proof.
  intros F. unfold Supabase.removeParticipant, bind.
  rewrite request_done by exact F. reflexivity.
Qed.

(** X5. A participant who joined and is then removed leaves no trace: the
    tables are the ones before the join. *)
Theorem joinSession_then_removeParticipant (roomCode participantName : string)
    (avatar : option string) (w : World) (s : Session.t) :
  let e2 := oracle w (S (S (tick w))) in
  let joined := fst (Supabase.joinSession roomCode participantName avatar w) in
  (forall k, (k < 4)%nat -> fault (oracle w (k + tick w)) = None) ->
  filter (fun x => (Session.room_code x =? JS.toUpperCase roomCode)%string)
    (sessions (tables w)) = [s] ->
  existsb (fun x => Sql.eq_col (Participant.session_id x) (Session.id s)
                    && (Participant.name x =? participantName)%string)
    (participants (tables w)) = false ->
  existsb (fun p => (Participant.id p =? uuid e2)%string) (participants (tables w)) = false ->
  tables (fst (Supabase.removeParticipant (uuid e2) joined)) = tables w.
Proof.
  intros e2 joined F Hs Hname Hfresh. subst joined.
  rewrite (joinSession_done roomCode participantName avatar w s
             (F 0%nat ltac:(lia)) (F 1%nat ltac:(lia)) (F 2%nat ltac:(lia))
             Hs Hname Hfresh).
  cbn [fst]. rewrite removeParticipant_done by (exact (F 3%nat ltac:(lia))).
  cbn [fst tables sessions participants stories]. fold e2.
  rewrite filter_app, (filter_all _ _ Hfresh). cbn [filter Participant.id].
  rewrite String.eqb_refl. cbn [negb]. rewrite app_nil_r.
  now destruct (tables w).
Qed.

Lemma joinSession_then_removeParticipant_witness :
  tables (fst (Supabase.removeParticipant "u2"
                 (fst (Supabase.joinSession "abc123" "Dan" None Sample.world))))
  = tables Sample.world.
Proof.
  assert (F : forall k, (k < 4)%nat -> fault (oracle Sample.world (k + tick Sample.world)) = None).
  { intros k _. reflexivity. }
  exact (joinSession_then_removeParticipant "abc123" "Dan" None Sample.world Sample.sprint
           F eq_refl eq_refl eq_refl).
Defined.

(** Removing a participant deletes every row with that id and nothing else:
    the other participants stay in their order, and the sessions are not
    touched, so a session whose organizer is removed keeps naming the removed
    participant as its organizer. *)
Theorem removeParticipant_leaves_sessions (participantId : string) (w : World) :
  fault (oracle w (tick w)) = None ->
  let w' := fst (Supabase.removeParticipant participantId w) in
  snd (Supabase.removeParticipant participantId w) = Return tt
  /\ (forall p, In p (participants (tables w')) <->
                In p (participants (tables w)) /\ Participant.id p <> participantId)
  /\ sessions (tables w') = sessions (tables w)
  /\ stories (tables w') = stories (tables w)
  /\ (forall s, In s (sessions (tables w)) -> Session.organizer_id s = participantId ->
        In s (sessions (tables w'))
        /\ forall p, In p (participants (tables w')) ->
             Participant.id p <> Session.organizer_id s).
Proof.
  intros F w'. subst w'. rewrite (removeParticipant_done _ _ F).
  cbn [fst snd tables sessions participants stories].
  assert (H : forall p,
             In p (filter (fun p => negb (Participant.id p =? participantId)%string)
                     (participants (tables w))) <->
             In p (participants (tables w)) /\ Participant.id p <> participantId).
  { intros p. rewrite filter_In, negb_true_iff, String.eqb_neq. reflexivity. }
  split; [reflexivity|]. split; [exact H|].
  split; [reflexivity|]. split; [reflexivity|].
  intros s Hs Ho. split; [exact Hs|].
  intros p Hp. rewrite Ho. now apply H.
Qed.

Lemma removeParticipant_leaves_sessions_witness :
  fault (oracle Sample.world (tick Sample.world)) = None
  /\ In Sample.sprint (sessions (tables (fst (Supabase.removeParticipant "alice" Sample.world))))
  /\ forall p, In p (participants (tables (fst (Supabase.removeParticipant "alice" Sample.world)))) ->
       Participant.id p <> Session.organizer_id Sample.sprint.
Proof.
  split; [reflexivity|].
  pose proof (removeParticipant_leaves_sessions "alice" Sample.world eq_refl) as H.
  cbv zeta in H. destruct H as (_ & _ & _ & _ & H).
  apply (H Sample.sprint).
  - now left.
  - reflexivity.
Defined.

(** ** Adding and deleting stories *)

Lemma by_key_transitive {A} (key : A -> Z) : Relation_Definitions.transitive A (by_key key).
Proof. intros a b c. unfold by_key. lia. Qed.






Lemma addStory_done (sessionId title : string) (description : option string) (w : World) :
  let e1 := oracle w (S (tick w)) in
  let row := Story.mk (uuid e1) (Some sessionId) title description pending
               (next_order_index sessionId (tables w)) (now e1) in
  fault (oracle w (tick w)) = None ->
  fault e1 = None ->
  Sql.has_session (tables w) sessionId = true ->
  existsb (fun s => (Story.id s =? uuid e1)%string) (stories (tables w)) = false ->
  Sql.in_int4 (next_order_index sessionId (tables w)) = true ->
  Supabase.addStory sessionId title description w =
    (mkWorld
       (mkDB (sessions (tables w)) (participants (tables w)) (stories (tables w) ++ [row]))
       (S (S (tick w))) (oracle w),
     Return (Some row)).
Proof.
  intros e1 row F0 F1 Hs Hfresh Hr.
  unfold Supabase.addStory, bind.
  rewrite request_done by exact F0.
  unfold Sql.limit, Sql.select_stories. cbn [fst snd data ok option_map].
  replace (match firstn 1 (Sql.order_by_desc Story.order_index
                     (filter (fun s => Sql.eq_col (Story.session_id s) sessionId)
                        (stories (tables w)))) with
           | [] => 0
           | s :: _ => Story.order_index s + 1
           end) with (next_order_index sessionId (tables w)).
  2:{ unfold next_order_index. now destruct (Sql.order_by_desc _ _). }
  rewrite request_done by exact F1.
  cbn [tables tick oracle]. unfold Sql.insert_story. fold e1.
  rewrite Hfresh, Hs, Hr. reflexivity.
Qed.



(** X7. When the store fails the query for the greatest order index, [addStory]
    does not notice: it numbers the new story zero, whatever stories the
    session has, inserts it and returns it. *)
Theorem addStory_numbers_zero_when_query_fails (sessionId title : string)
    (description : option string) (w : World) (e : PgError) :
  let e1 := oracle w (S (tick w)) in
  let row := Story.mk (uuid e1) (Some sessionId) title description pending 0 (now e1) in
  fault (oracle w (tick w)) = Some e ->
  fault e1 = None ->
  Sql.has_session (tables w) sessionId = true ->
  existsb (fun s => (Story.id s =? uuid e1)%string) (stories (tables w)) = false ->
  Supabase.addStory sessionId title description w =
    (mkWorld
       (mkDB (sessions (tables w)) (participants (tables w)) (stories (tables w) ++ [row]))
       (S (S (tick w))) (oracle w),
     Return (Some row)).
Proof.
  intros e1 row F0 F1 Hs Hfresh.
  unfold Supabase.addStory, bind.
  rewrite (request_fault _ _ _ F0). cbn [data failed].
  rewrite request_done by exact F1.
  cbn [tables tick oracle]. unfold Sql.insert_story. fold e1.
  rewrite Hfresh, Hs. reflexivity.
Qed.

Lemma addStory_numbers_zero_when_query_fails_witness :
  fault (oracle (Sample.world_failing 0) 0) = Some (mkPgError "08006" "connection failure")
  /\ map Story.order_index
       (stories (tables (fst (Supabase.addStory "s1" "D" None (Sample.world_failing 0)))))
     = [0; 1; 2; 0].
Proof.
  split; [reflexivity|].
  rewrite (addStory_numbers_zero_when_query_fails "s1" "D" None (Sample.world_failing 0)
             (mkPgError "08006" "connection failure") eq_refl eq_refl eq_refl eq_refl).
  reflexivity.
Defined.

(** X8. When the insert of [addStory] is refused, the error object of the store
    is thrown as it is and nothing is written: both when the store fails the
    request and when the session does not exist (the foreign key of
    [stories.session_id]). *)
Theorem addStory_refused_writes_nothing (sessionId title : string)
    (description : option string) (w : World) :
  fault (oracle w (tick w)) = None ->
  (forall e, fault (oracle w (S (tick w))) = Some e ->
     Supabase.addStory sessionId title description w =
       (mkWorld (tables w) (S (S (tick w))) (oracle w), Throw (Thrown e)))
  /\ (fault (oracle w (S (tick w))) = None ->
      existsb (fun s => (Story.id s =? uuid (oracle w (S (tick w))))%string)
        (stories (tables w)) = false ->
      Sql.has_session (tables w) sessionId = false ->
      Supabase.addStory sessionId title description w =
        (mkWorld (tables w) (S (S (tick w))) (oracle w),
         Throw (Thrown Sql.foreign_key_violation))).
Proof.
  intros F0. split.
  - intros e F1. unfold Supabase.addStory, bind.
    rewrite request_done by exact F0.
    unfold Sql.limit, Sql.select_stories. cbn [fst snd data ok option_map].
    rewrite request_fault with (e := e) by exact F1. reflexivity.
  - intros F1 Hfresh Hs. unfold Supabase.addStory, bind.
    rewrite request_done by exact F0.
    unfold Sql.limit, Sql.select_stories. cbn [fst snd data ok option_map].
    rewrite request_done by exact F1.
    cbn [tables tick oracle]. unfold Sql.insert_story.
    rewrite Hfresh, Hs. cbn. now destruct (tables w).
Qed.

Lemma addStory_refused_writes_nothing_witness :
  fault (oracle Sample.world (tick Sample.world)) = None
  /\ Supabase.addStory "s9" "D" None Sample.world =
       (mkWorld Sample.db 2 Sample.calm, Throw (Thrown Sql.foreign_key_violation)).
Proof.
  split; [reflexivity|].
  apply (proj2 (addStory_refused_writes_nothing "s9" "D" None Sample.world eq_refl));
    reflexivity.
Defined.

Lemma deleteStory_done (storyId : string) (w : World) :
  fault (oracle w (tick w)) = None ->
  Supabase.deleteStory storyId w =
    (mkWorld
       (mkDB (sessions (tables w)) (participants (tables w))
          (filter (fun s => negb (Story.id s =? storyId)%string) (stories (tables w))))
       (S (tick w)) (oracle w),
     Return tt).
Proof.
  intros F. unfold Supabase.deleteStory, bind.
  rewrite request_done by exact F. reflexivity.
Qed.

(** X9. Adding a story and deleting it again gives back the tables as they
    were. *)
Theorem addStory_then_deleteStory (sessionId title : string) (description : option string)
    (w : World) :
  (forall k, (k < 3)%nat -> fault (oracle w (k + tick w)) = None) ->
  Sql.has_session (tables w) sessionId = true ->
  existsb (fun s => (Story.id s =? uuid (oracle w (S (tick w))))%string)
    (stories (tables w)) = false ->
  Sql.in_int4 (next_order_index sessionId (tables w)) = true ->
  tables (fst (Supabase.deleteStory (uuid (oracle w (S (tick w))))
                 (fst (Supabase.addStory sessionId title description w))))
  = tables w.
Proof.
  intros F Hs Hfresh Hr.
  rewrite (addStory_done sessionId title description w
             (F 0%nat ltac:(lia)) (F 1%nat ltac:(lia)) Hs Hfresh Hr).
  cbn [fst]. rewrite deleteStory_done by (exact (F 2%nat ltac:(lia))).
  cbn [fst tables sessions participants stories].
  rewrite filter_app, (filter_all _ _ Hfresh). cbn [filter Story.id].
  rewrite String.eqb_refl. cbn [negb]. rewrite app_nil_r.
  now destruct (tables w).
Qed.

Lemma addStory_then_deleteStory_witness :
  tables (fst (Supabase.deleteStory "u1"
                 (fst (Supabase.addStory "s1" "D" None Sample.world))))
  = tables Sample.world.
Proof.
  assert (F : forall k, (k < 3)%nat -> fault (oracle Sample.world (k + tick Sample.world)) = None).
  { intros k _. reflexivity. }
  exact (addStory_then_deleteStory "s1" "D" None Sample.world F eq_refl eq_refl eq_refl).
Defined.

(** ** Votes, resets and heartbeats *)

Lemma update_rows_overwrite {A} (p : A -> bool) (f g : A -> A) (l : list A) :
  (forall x, p x = true -> p (f x) = true) ->
  (forall x, p x = true -> g (f x) = g x) ->
  Sql.update_rows p g (Sql.update_rows p f l) = Sql.update_rows p g l.
Proof.
  intros Hp Hg. unfold Sql.update_rows. rewrite map_map. apply map_ext.
  intros x. destruct (p x) eqn:E.
  - rewrite (Hp x E). now apply Hg.
  - now rewrite E.
Qed.

(** X11. A participant may vote again while the round is open, and the last vote
    is the one that counts: after two votes carried out by the store the
    tables are what the second vote alone would have made them. *)
Theorem updateParticipantVote_last_wins (participantId first second : string) (w : World) :
  fault (oracle w (tick w)) = None ->
  fault (oracle w (S (tick w))) = None ->
  tables (fst (Supabase.updateParticipantVote participantId second
                 (fst (Supabase.updateParticipantVote participantId first w))))
  = tables (fst (Supabase.updateParticipantVote participantId second w)).
Proof.
  intros F0 F1.
  rewrite (updateParticipantVote_done participantId first w F0). cbn [fst].
  rewrite updateParticipantVote_done by exact F1.
  rewrite (updateParticipantVote_done participantId second w F0).
  cbn [fst tables sessions participants stories]. f_equal.
  apply update_rows_overwrite.
  - intros x Hx. exact Hx.
  - intros x _. reflexivity.
Qed.

Lemma updateParticipantVote_last_wins_witness :
  fault (oracle Sample.world 0) = None
  /\ fault (oracle Sample.world 1) = None
  /\ map Participant.vote
       (participants (tables (fst (Supabase.updateParticipantVote "bob" "13"
                 (fst (Supabase.updateParticipantVote "bob" "5" Sample.world))))))
     = [None; Some "3"; Some "13"]%string.
Proof.
  split; [reflexivity|]. split; [reflexivity|].
  rewrite (updateParticipantVote_last_wins "bob" "5" "13" Sample.world eq_refl eq_refl).
  reflexivity.
Defined.

(** X12. The heartbeat writes the time of the request into [last_seen] of the
    rows with the participant's id and touches nothing else, whatever the
    store answers: no vote, flag, name or session changes, and the other
    tables are the same. *)
Theorem updateParticipantLastSeen_frame (participantId : string) (w : World) :
  let w' := fst (Supabase.updateParticipantLastSeen participantId w) in
  sessions (tables w') = sessions (tables w)
  /\ stories (tables w') = stories (tables w)
  /\ Forall2 (fun p p' =>
        Participant.id p' = Participant.id p
        /\ Participant.session_id p' = Participant.session_id p
        /\ Participant.name p' = Participant.name p
        /\ Participant.avatar p' = Participant.avatar p
        /\ Participant.is_organizer p' = Participant.is_organizer p
        /\ Participant.has_voted p' = Participant.has_voted p
        /\ Participant.vote p' = Participant.vote p
        /\ Participant.joined_at p' = Participant.joined_at p
        /\ (Participant.id p <> participantId -> p' = p)
        /\ (Participant.id p = participantId ->
            fault (oracle w (tick w)) = None ->
            Participant.last_seen p' = now (oracle w (tick w))))
       (participants (tables w)) (participants (tables w')).
Proof.
  intros w'. subst w'. unfold Supabase.updateParticipantLastSeen, bind.
  destruct (fault (oracle w (tick w))) as [e|] eqn:F.
  - rewrite (request_fault _ _ _ F). cbn [fst snd tables].
    destruct (Supabase.rethrow _ _) as [w1 o] eqn:R.
    unfold Supabase.rethrow, failed in R. cbn [error] in R.
    unfold throw in R. injection R as <- _. cbn [fst tables].
    split; [reflexivity|]. split; [reflexivity|].
    apply Forall2_same. intros p _. repeat split. intros _ H. discriminate H.
  - rewrite request_done by exact F.
    rewrite update_participants_plain by reflexivity.
    cbn [fst snd error]. unfold Supabase.rethrow, ret. cbn [error fst tables
      sessions participants stories].
    split; [reflexivity|]. split; [reflexivity|].
    apply update_rows_Forall2. intros p _.
    destruct (Participant.id p =? participantId)%string eqn:E.
    + repeat split. intros N. apply String.eqb_eq in E. now elim N.
    + repeat split. intros N. apply String.eqb_neq in E. now elim E.
Qed.

(** X13. A reset that the store carries out only in part.  When the update of
    the participants fails, [resetVotes] throws that error, the session is
    hidden all the same and every vote is still in the table; when the update
    of the session fails, the votes are cleared all the same, the session
    keeps its flag, and the error thrown is that of the session update. *)
Theorem resetVotes_partial_failure (sessionId : string) (w : World) (e : PgError) :
  (fault (oracle w (tick w)) = None ->
   fault (oracle w (S (tick w))) = Some e ->
   Supabase.resetVotes sessionId w =
     (mkWorld
        (mkDB (Sql.update_rows (fun s => (Session.id s =? sessionId)%string) hidden_row
                 (sessions (tables w)))
              (participants (tables w)) (stories (tables w)))
        (S (S (tick w))) (oracle w),
      Throw (Thrown e)))
  /\ (fault (oracle w (tick w)) = Some e ->
      fault (oracle w (S (tick w))) = None ->
      Supabase.resetVotes sessionId w =
        (mkWorld
           (mkDB (sessions (tables w))
                 (Sql.update_rows (fun p => Sql.eq_col (Participant.session_id p) sessionId)
                    cleared_row (participants (tables w)))
                 (stories (tables w)))
           (S (S (tick w))) (oracle w),
         Throw (Thrown e))).
Proof.
  split; intros F0 F1; unfold Supabase.resetVotes, bind.
  - rewrite request_done by exact F0. cbn [fst snd].
    rewrite request_fault with (e := e) by exact F1. reflexivity.
  - rewrite (request_fault _ _ _ F0).
    rewrite request_done by exact F1.
    rewrite update_participants_plain by reflexivity. reflexivity.
Qed.

Lemma resetVotes_partial_failure_witness :
  fault (oracle (Sample.world_failing 1) 0) = None
  /\ fault (oracle (Sample.world_failing 1) 1) = Some (mkPgError "08006" "connection failure")
  /\ map Session.votes_revealed
       (sessions (tables (fst (Supabase.resetVotes "s2" (Sample.world_failing 1)))))
     = [false; false]
  /\ map Participant.vote
       (participants (tables (fst (Supabase.resetVotes "s2" (Sample.world_failing 1)))))
     = [None; Some "3"; Some "8"]%string.
Proof.
  split; [reflexivity|]. split; [reflexivity|].
  rewrite (proj1 (resetVotes_partial_failure "s2" (Sample.world_failing 1)
                    (mkPgError "08006" "connection failure")) eq_refl eq_refl).
  split; reflexivity.
Defined.

(** X14. A reset is idempotent: once the store has carried out a reset, a second
    reset (carried out or not, in whole or in part) leaves the tables as the
    first one made them. *)
Theorem resetVotes_idempotent (sessionId : string) (w : World) :
  fault (oracle w (tick w)) = None ->
  fault (oracle w (S (tick w))) = None ->
  tables (fst (Supabase.resetVotes sessionId (fst (Supabase.resetVotes sessionId w))))
  = tables (fst (Supabase.resetVotes sessionId w)).
Proof.
  intros F0 F1. rewrite (resetVotes_done sessionId w F0 F1). cbn [fst].
  match goal with |- context [Supabase.resetVotes _ ?W] => set (w1 := W) end.
  assert (Hs : Sql.update_rows (fun s => (Session.id s =? sessionId)%string) hidden_row
                 (sessions (tables w1)) = sessions (tables w1)).
  { subst w1. cbn [tables sessions]. apply update_rows_twice.
    - intros x Hx. exact Hx.
    - intros x _. reflexivity. }
  assert (Hp : Sql.update_rows (fun p => Sql.eq_col (Participant.session_id p) sessionId)
                 cleared_row (participants (tables w1)) = participants (tables w1)).
  { subst w1. cbn [tables participants]. apply update_rows_twice.
    - intros x Hx. exact Hx.
    - intros x _. reflexivity. }
  unfold Supabase.resetVotes, bind.
  destruct (fault (oracle w1 (tick w1))) as [e0|] eqn:G0;
    destruct (fault (oracle w1 (S (tick w1)))) as [e1|] eqn:G1.
  - rewrite (request_fault _ _ _ G0).
    rewrite request_fault with (e := e1) by exact G1. reflexivity.
  - rewrite (request_fault _ _ _ G0).
    rewrite request_done by exact G1.
    rewrite update_participants_plain by reflexivity.
    cbn [fst snd tables sessions participants stories].
    change (Sql.patch_participant (Sql.mkParticipantPatch None (Some None) (Some false) None))
      with cleared_row.
    rewrite Hp. cbn. now destruct (tables w1).
  - rewrite request_done by exact G0. cbn [fst snd].
    rewrite request_fault with (e := e1) by exact G1.
    cbn [fst snd tables sessions participants stories Sql.update_sessions].
    change (Sql.patch_session (Sql.mkSessionPatch (Some false) None)) with hidden_row.
    rewrite Hs. cbn. now destruct (tables w1).
  - rewrite request_done by exact G0. cbn [fst snd].
    rewrite request_done by exact G1.
    rewrite update_participants_plain by reflexivity.
    cbn [fst snd tables sessions participants stories Sql.update_sessions].
    change (Sql.patch_participant (Sql.mkParticipantPatch None (Some None) (Some false) None))
      with cleared_row.
    change (Sql.patch_session (Sql.mkSessionPatch (Some false) None)) with hidden_row.
    rewrite Hs, Hp. cbn. now destruct (tables w1).
Qed.

Lemma resetVotes_idempotent_witness :
  fault (oracle Sample.world 0) = None
  /\ fault (oracle Sample.world 1) = None
  /\ tables (fst (Supabase.resetVotes "s1" (fst (Supabase.resetVotes "s1" Sample.world))))
     = tables (fst (Supabase.resetVotes "s1" Sample.world)).
Proof.
  split; [reflexivity|]. split; [reflexivity|].
  apply (resetVotes_idempotent "s1" Sample.world); reflexivity.
Defined.

(** ** Fetching again *)

Lemma onStoriesChange_done (sessionId : string) (st : PokerSession.State) (w : World) :
  fault (oracle w (tick w)) = None ->
  Realtime.onStoriesChange sessionId st w =
    (mkWorld (tables w) (S (tick w)) (oracle w),
     Return (PokerSession.mkState (PokerSession.st_session st)
               (PokerSession.st_participants st)
               (ordered_stories sessionId (tables w))
               (PokerSession.currentStoryIndex st) (PokerSession.selectedVote st)
               (PokerSession.loading st))).
Proof.
  intros F. unfold Realtime.onStoriesChange, bind.
  rewrite request_done by exact F. reflexivity.
Qed.

Lemma onParticipantsChange_done (sessionId : string) (st : PokerSession.State) (w : World) :
  fault (oracle w (tick w)) = None ->
  Realtime.onParticipantsChange sessionId st w =
    (mkWorld (tables w) (S (tick w)) (oracle w),
     Return (PokerSession.mkState (PokerSession.st_session st)
               (ordered_participants sessionId (tables w))
               (PokerSession.st_stories st)
               (PokerSession.currentStoryIndex st) (PokerSession.selectedVote st)
               (PokerSession.loading st))).
Proof.
  intros F. unfold Realtime.onParticipantsChange, bind.
  rewrite request_done by exact F. reflexivity.
Qed.

(** The refresh after a change notification and the first load run the same
    queries: when the store carries them out, the lists a refresh puts into
    the component are the lists [getSessionData] returns for the same
    tables, and neither writes anything. *)
Theorem refresh_agrees_with_load (sessionId : string) (st : PokerSession.State) (w : World) :
  fault (oracle w (tick w)) = None ->
  fault (oracle w (S (tick w))) = None ->
  fault (oracle w (S (S (tick w)))) = None ->
  exists data st1 st2,
    snd (Supabase.getSessionData sessionId w) = Return data
    /\ snd (Realtime.onParticipantsChange sessionId st w) = Return st1
    /\ snd (Realtime.onStoriesChange sessionId st w) = Return st2
    /\ PokerSession.st_participants st1 = Supabase.sd_participants data
    /\ PokerSession.st_stories st2 = Supabase.sd_stories data
    /\ tables (fst (Realtime.onParticipantsChange sessionId st w)) = tables w
    /\ tables (fst (Realtime.onStoriesChange sessionId st w)) = tables w.
Proof.
  intros F0 F1 F2. do 3 eexists.
  rewrite (getSessionData_done sessionId w F0 F1 F2).
  rewrite (onParticipantsChange_done sessionId st w F0).
  rewrite (onStoriesChange_done sessionId st w F0).
  repeat split.
Qed.

Lemma refresh_agrees_with_load_witness :
  exists st2,
    snd (Realtime.onStoriesChange "s1" PokerSession.initial Sample.world) = Return st2
    /\ PokerSession.st_stories st2 = Sample.fetched_stories "s1" Sample.world.
Proof.
  destruct (refresh_agrees_with_load "s1" PokerSession.initial Sample.world
              eq_refl eq_refl eq_refl)
    as (data & st1 & st2 & Hd & _ & H2 & _ & Hs & _).
  exists st2. split; [exact H2|].
  rewrite Hs. unfold Sample.fetched_stories. now rewrite Hd.
Defined.

(** X15. A query the store fails is read differently by the two paths.  In the
    first load a failed participants query gives an empty list, whoever is
    in the table, and nothing is thrown; in a refresh the held list is kept
    as it was. *)
Theorem failed_participants_query (sessionId : string) (st : PokerSession.State)
    (w : World) (e : PgError) :
  (fault (oracle w (tick w)) = None ->
   fault (oracle w (S (tick w))) = Some e ->
   fault (oracle w (S (S (tick w)))) = None ->
   exists data,
     Supabase.getSessionData sessionId w =
       (mkWorld (tables w) (S (S (S (tick w)))) (oracle w), Return data)
     /\ Supabase.sd_participants data = []
     /\ Supabase.sd_stories data = ordered_stories sessionId (tables w))
  /\ (fault (oracle w (tick w)) = Some e ->
      Realtime.onParticipantsChange sessionId st w =
        (mkWorld (tables w) (S (tick w)) (oracle w), Return st)).
Proof.
  split.
  - intros F0 F1 F2. eexists. unfold Supabase.getSessionData, bind.
    rewrite request_done by exact F0. cbn [fst snd tables tick oracle].
    rewrite request_fault with (e := e) by exact F1. cbn [fst snd tables tick oracle].
    rewrite request_done by exact F2. cbn [fst snd tables tick oracle].
    unfold ret. split; [cbn; reflexivity|]. split; reflexivity.
  - intros F. unfold Realtime.onParticipantsChange, bind.
    rewrite (request_fault _ _ _ F). reflexivity.
Qed.

Lemma failed_participants_query_witness :
  exists data,
    Supabase.getSessionData "s1" (Sample.world_failing 1) =
      (mkWorld Sample.db 3 (Sample.failing_at 1), Return data)
    /\ Supabase.sd_participants data = []
    /\ ordered_participants "s1" Sample.db = [Sample.alice; Sample.bob].
Proof.
  destruct (proj1 (failed_participants_query "s1" PokerSession.initial
                     (Sample.world_failing 1) (mkPgError "08006" "connection failure"))
              eq_refl eq_refl eq_refl) as (data & H1 & H2 & _).
  exists data. split; [exact H1|]. split; [exact H2 | reflexivity].
Defined.

Lemma NoDup_map_filter {Row Key} (key : Row -> Key) (keep : Row -> bool) (rows : list Row) :
  NoDup (map key rows) -> NoDup (map key (filter keep rows)).
Proof.
  intros Hkeys. induction rows as [|r rows IH]; [constructor|].
  simpl in *. inversion Hkeys as [|? ? Hr Hrows]; subst.
  destruct (keep r); [|now apply IH].
  simpl. constructor; [|now apply IH].
  intros Hin. apply Hr. apply in_map_iff in Hin. destruct Hin as [y [E Hy]].
  apply filter_In in Hy. rewrite <- E. apply in_map. tauto.
Qed.

(** X16. The story list a fetch returns is a list [moveStory] can work with: if
    the store keeps [id] as the primary key of [stories] and the order
    indices in the range of the column, the list the refresh puts into the
    component has every story once, has its indices in range, and shows rows
    of the store as they are. *)
Theorem fetched_stories_mirror_store (sessionId : string) (st : PokerSession.State)
    (w : World) :
  fault (oracle w (tick w)) = None ->
  NoDup (map Story.id (stories (tables w))) ->
  Forall (fun s => Sql.in_int4 (Story.order_index s) = true) (stories (tables w)) ->
  exists st',
    Realtime.onStoriesChange sessionId st w =
      (mkWorld (tables w) (S (tick w)) (oracle w), Return st')
    /\ held_well_formed (PokerSession.st_stories st')
    /\ mirrors (PokerSession.st_stories st') (tables w)
    /\ Sorted (by_key Story.order_index) (PokerSession.st_stories st')
    /\ (forall s, In s (PokerSession.st_stories st') <->
                  In s (stories (tables w)) /\ Story.session_id s = Some sessionId).
Proof.
  intros F Hpk Hint. eexists. split; [apply (onStoriesChange_done _ _ _ F)|].
  cbn [PokerSession.st_stories]. unfold ordered_stories.
  set (l := filter (fun s => Sql.eq_col (Story.session_id s) sessionId) (stories (tables w))).
  assert (P : Permutation l (Sql.order_by Story.order_index l)) by apply order_by_perm.
  assert (M : forall s, In s (Sql.order_by Story.order_index l) <->
                        In s (stories (tables w)) /\ Story.session_id s = Some sessionId).
  { intros s. split.
    - intros H. apply (Permutation_in _ (Permutation_sym P)) in H.
      apply filter_In in H. now rewrite eq_col_true in H.
    - intros [H1 H2]. apply (Permutation_in _ P). apply filter_In.
      split; [exact H1 | now apply eq_col_true]. }
  split; [split|split; [split|split]].
  - apply (Permutation_NoDup (Permutation_map Story.id P)).
    now apply NoDup_map_filter.
  - rewrite Forall_forall in *. intros s Hs. apply Hint. now apply M.
  - exact Hpk.
  - intros s Hs. now apply M.
  - apply order_by_sorted.
  - exact M.
Qed.

Lemma fetched_stories_mirror_store_witness :
  exists st',
    Realtime.onStoriesChange "s1" PokerSession.initial Sample.world =
      (mkWorld Sample.db 1 Sample.calm, Return st')
    /\ held_well_formed (PokerSession.st_stories st')
    /\ mirrors (PokerSession.st_stories st') Sample.db.
Proof.
  assert (W : NoDup (map Story.id (stories (tables Sample.world)))).
  { apply distinct_NoDup. reflexivity. }
  assert (R : Forall (fun s => Sql.in_int4 (Story.order_index s) = true)
                (stories (tables Sample.world))).
  { repeat constructor. }
  destruct (fetched_stories_mirror_store "s1" PokerSession.initial Sample.world
              eq_refl W R) as (st' & H1 & H2 & H3 & _).
  exists st'. split; [exact H1|]. split; [exact H2 | exact H3].
Defined.

(** ** Finding a story in the held list *)

Lemma findIndex_from_range {A} (f : A -> bool) (l : list A) (i : Z) :
  JS.findIndex_from f l i = -1
  \/ (i <= JS.findIndex_from f l i < i + Z.of_nat (length l)).
Proof.
  revert i. induction l as [|x l IH]; intros i; simpl; [now left|].
  destruct (f x); [right; lia|].
  destruct (IH (i + 1)) as [H|H]; [now left | right; lia].
Qed.

Lemma findIndex_from_absent {A} (f : A -> bool) (l : list A) (i : Z) :
  (forall x, In x l -> f x = false) -> JS.findIndex_from f l i = -1.
Proof.
  revert i. induction l as [|x l IH]; intros i H; simpl; [reflexivity|].
  rewrite (H x) by now left. apply IH. intros y Hy. apply H. now right.
Qed.

Lemma findIndex_from_found {A} (f : A -> bool) (l : list A) (i : Z) :
  0 <= i -> (exists x, In x l /\ f x = true) ->
  exists k x, JS.findIndex_from f l i = i + Z.of_nat k
              /\ nth_error l k = Some x /\ f x = true.
Proof.
  revert i. induction l as [|y l IH]; intros i Hi [x [Hin Hx]]; [contradiction|].
  simpl. destruct (f y) eqn:E.
  - exists 0%nat, y. repeat split; [lia | assumption].
  - destruct Hin as [->|Hin]; [congruence|].
    destruct (IH (i + 1) ltac:(lia) (ex_intro _ x (conj Hin Hx))) as (k & z & H1 & H2 & H3).
    exists (S k), z. repeat split; [lia | assumption | assumption].
Qed.

Lemma findIndex_found {A} (f : A -> bool) (l : list A) :
  (exists x, In x l /\ f x = true) ->
  exists x, 0 <= JS.findIndex f l
            /\ JS.at_ l (JS.findIndex f l) = Some x /\ f x = true.
Proof.
  intros H. destruct (findIndex_from_found f l 0 ltac:(lia) H) as (k & x & H1 & H2 & H3).
  exists x. unfold JS.findIndex. rewrite H1. cbn [Z.add].
  rewrite at_nat. repeat split; [lia | assumption | assumption].
Qed.

(** X17. The first load shows the story the session points at.  When the store
    carries out the three queries and the session row names a current story:
    if a story with that id is among the stories fetched, the index the
    component holds is the position of that story in the fetched list; if
    there is none (the story was deleted), the index is left as it was. *)
Theorem loadSessionData_shows_current_story (sessionId current : string)
    (st : PokerSession.State) (w : World) (s : Session.t) :
  fault (oracle w (tick w)) = None ->
  fault (oracle w (S (tick w))) = None ->
  fault (oracle w (S (S (tick w)))) = None ->
  filter (fun x => (Session.id x =? sessionId)%string) (sessions (tables w)) = [s] ->
  Session.current_story_id s = Some current ->
  current <> ""%string ->
  exists st',
    PokerSession.loadSessionData sessionId st w =
      (mkWorld (tables w) (S (S (S (tick w)))) (oracle w), Return st')
    /\ PokerSession.st_session st' = Some s
    /\ PokerSession.st_stories st' = ordered_stories sessionId (tables w)
    /\ PokerSession.loading st' = false
    /\ ((exists x, In x (ordered_stories sessionId (tables w)) /\ Story.id x = current) ->
        exists x, JS.at_ (PokerSession.st_stories st') (PokerSession.currentStoryIndex st')
                  = Some x
                  /\ Story.id x = current)
    /\ ((forall x, In x (ordered_stories sessionId (tables w)) -> Story.id x <> current) ->
        PokerSession.currentStoryIndex st' = PokerSession.currentStoryIndex st).
Proof.
  intros F0 F1 F2 Hs Hc Hne.
  unfold PokerSession.loadSessionData, bind.
  rewrite (getSessionData_done sessionId w F0 F1 F2). rewrite Hs.
  cbn [Supabase.session Supabase.sd_participants Supabase.sd_stories].
  fold (ordered_stories sessionId (tables w)).
  rewrite Hc. cbn [JS.truthy].
  apply String.eqb_neq in Hne. rewrite Hne. cbn [negb andb].
  set (l := ordered_stories sessionId (tables w)).
  set (f := fun x : Story.t => (Story.id x =? current)%string).
  destruct (0 <? Z.of_nat (length l)) eqn:Hlen.
  - destruct (JS.findIndex f l >=? 0) eqn:Hk.
    + eexists. split; [reflexivity|].
      cbn [PokerSession.st_session PokerSession.st_stories PokerSession.loading
           PokerSession.currentStoryIndex].
      repeat split.
      * intros [x [Hin Hx]].
        destruct (findIndex_found f l) as (y & _ & Hy & Hfy).
        { exists x. split; [exact Hin|]. subst f. cbv beta. now apply String.eqb_eq. }
        exists y. split; [exact Hy|]. subst f. now apply String.eqb_eq in Hfy.
      * intros Habs. exfalso.
        assert (E : JS.findIndex f l = -1).
        { apply findIndex_from_absent. intros x Hx. subst f. cbv beta.
          apply String.eqb_neq. now apply Habs. }
        rewrite E in Hk. discriminate Hk.
    + eexists. split; [reflexivity|].
      cbn [PokerSession.st_session PokerSession.st_stories PokerSession.loading
           PokerSession.currentStoryIndex].
      repeat split.
      intros [x [Hin Hx]]. exfalso.
      destruct (findIndex_found f l) as (y & Hy & _).
      { exists x. split; [exact Hin|]. subst f. cbv beta. now apply String.eqb_eq. }
      rewrite Z.geb_leb in Hk. apply Z.leb_gt in Hk. lia.
  - eexists. split; [reflexivity|].
    cbn [PokerSession.st_session PokerSession.st_stories PokerSession.loading
         PokerSession.currentStoryIndex].
    repeat split.
    intros [x [Hin Hx]]. exfalso. destruct l; [contradiction|].
    cbn in Hlen. discriminate Hlen.
Qed.

Lemma loadSessionData_shows_current_story_witness :
  exists st',
    PokerSession.loadSessionData "s1" PokerSession.initial
      (mkWorld (mkDB [Session.mk "s1" "ABC123" "Sprint 1" "alice" (Some "c") false 10 10]
                  (participants Sample.db) (stories Sample.db)) 0 Sample.calm)
    = (mkWorld (mkDB [Session.mk "s1" "ABC123" "Sprint 1" "alice" (Some "c") false 10 10]
                  (participants Sample.db) (stories Sample.db)) 3 Sample.calm,
       Return st')
    /\ exists x, JS.at_ (PokerSession.st_stories st') (PokerSession.currentStoryIndex st')
                 = Some x /\ Story.id x = "c"%string.
Proof.
  assert (N : "c"%string <> ""%string) by discriminate.
  destruct (loadSessionData_shows_current_story "s1" "c" PokerSession.initial
              (mkWorld (mkDB [Session.mk "s1" "ABC123" "Sprint 1" "alice" (Some "c") false 10 10]
                          (participants Sample.db) (stories Sample.db)) 0 Sample.calm)
              (Session.mk "s1" "ABC123" "Sprint 1" "alice" (Some "c") false 10 10)
              eq_refl eq_refl eq_refl eq_refl eq_refl N)
    as (st' & H1 & _ & _ & _ & H2 & _).
  exists st'. split; [exact H1|]. apply H2.
  exists Sample.storyC. split; [|reflexivity]. right. right. now left.
Defined.

(** ** Moving between stories *)

Lemma updateCurrentStory_done (sessionId storyId : string) (w : World) :
  fault (oracle w (tick w)) = None ->
  Supabase.updateCurrentStory sessionId storyId w =
    (mkWorld
       (mkDB (Sql.update_rows (fun s => (Session.id s =? sessionId)%string)
                (pointed_row storyId) (sessions (tables w)))
             (participants (tables w)) (stories (tables w)))
       (S (tick w)) (oracle w),
     Return tt).
Proof.
  intros F. unfold Supabase.updateCurrentStory, bind.
  rewrite request_done by exact F. reflexivity.
Qed.

Lemma show_story_done (sessionId storyId : string) (st : PokerSession.State)
    (index : Z) (w : World) :
  fault (oracle w (tick w)) = None ->
  fault (oracle w (S (tick w))) = None ->
  fault (oracle w (S (S (tick w)))) = None ->
  Navigation.show_story sessionId st index (Some storyId) w =
    (mkWorld
       (mkDB (Sql.update_rows (fun s => (Session.id s =? sessionId)%string) hidden_row
                (Sql.update_rows (fun s => (Session.id s =? sessionId)%string)
                   (pointed_row storyId) (sessions (tables w))))
             (Sql.update_rows (fun p => Sql.eq_col (Participant.session_id p) sessionId)
                cleared_row (participants (tables w)))
             (stories (tables w)))
       (S (S (S (tick w)))) (oracle w),
     (Navigation.setSelectedVote (Navigation.setCurrentStoryIndex st index) None,
      Return tt)).
Proof.
  intros F0 F1 F2. unfold Navigation.show_story.
  rewrite (updateCurrentStory_done _ _ _ F0).
  unfold PokerSession.handleResetVotes, try_catch.
  rewrite resetVotes_done by assumption. reflexivity.
Qed.

Lemma show_story_state (sessionId : string) (st : PokerSession.State) (index : Z)
    (id : option string) (w : World) :
  PokerSession.currentStoryIndex (fst (snd (Navigation.show_story sessionId st index id w)))
  = index
  /\ PokerSession.st_stories (fst (snd (Navigation.show_story sessionId st index id w)))
     = PokerSession.st_stories st.
Proof.
  unfold Navigation.show_story. destruct id as [id|]; [|split; reflexivity].
  destruct (Supabase.updateCurrentStory sessionId id w) as [w1 [u|e]]; [|split; reflexivity].
  destruct (PokerSession.handleResetVotes sessionId w1) as [w2 o]. split; reflexivity.
Qed.

(** X18. Whatever the store answers, the three ways of moving between stories
    keep the index a position of the held list (zero for an empty list) and
    leave the held list alone; [Next] at the last story and [Previous] at
    the first make no request and change nothing; selecting an id the list
    does not hold does the same. *)
Theorem navigation_keeps_index_in_range (sessionId id : string)
    (st : PokerSession.State) (w : World) :
  Navigation.index_in_range st ->
  Navigation.index_in_range (fst (snd (Navigation.handleNextStory sessionId st w)))
  /\ Navigation.index_in_range (fst (snd (Navigation.handlePrevStory sessionId st w)))
  /\ Navigation.index_in_range (fst (snd (Navigation.onSelectStory sessionId st id w)))
  /\ (PokerSession.currentStoryIndex st = Z.of_nat (length (PokerSession.st_stories st)) - 1 ->
      Navigation.handleNextStory sessionId st w = (w, (st, Return tt)))
  /\ (PokerSession.currentStoryIndex st = 0 ->
      Navigation.handlePrevStory sessionId st w = (w, (st, Return tt)))
  /\ ((forall x, In x (PokerSession.st_stories st) -> Story.id x <> id) ->
      Navigation.onSelectStory sessionId st id w = (w, (st, Return tt))).
Proof.
  intros [H0 H1]. unfold Navigation.index_in_range.
  split; [|split; [|split; [|split; [|split]]]].
  - unfold Navigation.handleNextStory.
    destruct (Z.ltb_spec (PokerSession.currentStoryIndex st)
                (Z.of_nat (length (PokerSession.st_stories st)) - 1)).
    + destruct (show_story_state sessionId st (PokerSession.currentStoryIndex st + 1)
                  (option_map Story.id
                     (JS.at_ (PokerSession.st_stories st)
                        (PokerSession.currentStoryIndex st + 1))) w) as [-> ->].
      lia.
    + cbn [fst snd]. tauto.
  - unfold Navigation.handlePrevStory.
    destruct (Z.gtb_spec (PokerSession.currentStoryIndex st) 0).
    + destruct (show_story_state sessionId st (PokerSession.currentStoryIndex st - 1)
                  (option_map Story.id
                     (JS.at_ (PokerSession.st_stories st)
                        (PokerSession.currentStoryIndex st - 1))) w) as [-> ->].
      lia.
    + cbn [fst snd]. tauto.
  - unfold Navigation.onSelectStory.
    set (k := JS.findIndex _ _).
    destruct (Z.eqb_spec k (-1)) as [E|E]; cbn [negb].
    + cbn [fst snd]. tauto.
    + destruct (show_story_state sessionId st k (Some id) w) as [-> ->].
      subst k. unfold JS.findIndex in *.
      destruct (findIndex_from_range (fun s => (Story.id s =? id)%string)
                  (PokerSession.st_stories st) 0); [contradiction | lia].
  - intros E. unfold Navigation.handleNextStory.
    destruct (Z.ltb_spec (PokerSession.currentStoryIndex st)
                (Z.of_nat (length (PokerSession.st_stories st)) - 1)); [lia | reflexivity].
  - intros E. unfold Navigation.handlePrevStory. now rewrite E.
  - intros Habs. unfold Navigation.onSelectStory.
    unfold JS.findIndex. rewrite findIndex_from_absent; [reflexivity|].
    intros x Hx. apply String.eqb_neq. now apply Habs.
Qed.

Lemma navigation_keeps_index_in_range_witness :
  Navigation.index_in_range (PokerSession.mkState None [] (stories Sample.db) 2 None false)
  /\ Navigation.handleNextStory "s1"
       (PokerSession.mkState None [] (stories Sample.db) 2 None false) Sample.world
     = (Sample.world,
        (PokerSession.mkState None [] (stories Sample.db) 2 None false, Return tt)).
Proof.
  assert (R : Navigation.index_in_range
                (PokerSession.mkState None [] (stories Sample.db) 2 None false)).
  { split; [|left]; reflexivity || (cbn; lia). }
  split; [exact R|].
  apply (navigation_keeps_index_in_range "s1" "a"
           (PokerSession.mkState None [] (stories Sample.db) 2 None false) Sample.world R).
  reflexivity.
Defined.

(** X19. [Next], carried out: with a story after the one shown and a store that
    carries out the three requests, the component shows the next story, the
    session row points at it and is hidden, the votes of the session are
    cleared and so is the vote selected in the deck; the stories and the
    other sessions' participants are untouched. *)
Theorem handleNextStory_shows_next (sessionId : string) (st : PokerSession.State)
    (k : nat) (next : Story.t) (w : World) :
  PokerSession.currentStoryIndex st = Z.of_nat k ->
  nth_error (PokerSession.st_stories st) (S k) = Some next ->
  fault (oracle w (tick w)) = None ->
  fault (oracle w (S (tick w))) = None ->
  fault (oracle w (S (S (tick w)))) = None ->
  let r := Navigation.handleNextStory sessionId st w in
  snd (snd r) = Return tt
  /\ PokerSession.currentStoryIndex (fst (snd r)) = Z.of_nat (S k)
  /\ JS.at_ (PokerSession.st_stories (fst (snd r)))
       (PokerSession.currentStoryIndex (fst (snd r))) = Some next
  /\ PokerSession.selectedVote (fst (snd r)) = None
  /\ (forall s, In s (sessions (tables (fst r))) -> Session.id s = sessionId ->
        Session.current_story_id s = Some (Story.id next)
        /\ Session.votes_revealed s = false)
  /\ (forall p, In p (participants (tables (fst r))) ->
        Participant.session_id p = Some sessionId ->
        Participant.has_voted p = false /\ Participant.vote p = None)
  /\ stories (tables (fst r)) = stories (tables w).
Proof.
  intros Hk Hn F0 F1 F2 r. subst r. unfold Navigation.handleNextStory.
  assert (Hlen : (S k < length (PokerSession.st_stories st))%nat).
  { apply nth_error_Some. congruence. }
  rewrite Hk.
  destruct (Z.ltb_spec (Z.of_nat k) (Z.of_nat (length (PokerSession.st_stories st)) - 1));
    [|lia].
  replace (Z.of_nat k + 1) with (Z.of_nat (S k)) by lia.
  rewrite at_nat, Hn. cbn [option_map].
  rewrite (show_story_done sessionId (Story.id next) st (Z.of_nat (S k)) w F0 F1 F2).
  cbn [fst snd tables sessions participants stories PokerSession.currentStoryIndex
       PokerSession.st_stories PokerSession.selectedVote Navigation.setSelectedVote
       Navigation.setCurrentStoryIndex].
  split; [reflexivity|]. split; [reflexivity|].
  split; [rewrite at_nat; exact Hn|]. split; [reflexivity|].
  split; [|split; [|reflexivity]].
  - intros s Hs Hid. apply in_update_rows in Hs. destruct Hs as [x [Hx ->]].
    apply in_update_rows in Hx. destruct Hx as [y [_ ->]].
    destruct (Session.id y =? sessionId)%string eqn:E.
    + cbn [pointed_row Sql.patch_session Session.id]. rewrite E. split; reflexivity.
    + rewrite E in *. apply String.eqb_neq in E. now elim E.
  - intros p Hp Hsid. apply in_update_rows in Hp. destruct Hp as [x [_ ->]].
    destruct (Sql.eq_col (Participant.session_id x) sessionId) eqn:E.
    + split; reflexivity.
    + apply eq_col_true in Hsid. congruence.
Qed.

Lemma handleNextStory_shows_next_witness :
  snd (snd (Navigation.handleNextStory "s1"
              (PokerSession.mkState (Some Sample.sprint) [] (stories Sample.db) 0
                 (Some "8"%string) false) Sample.world)) = Return tt
  /\ map Session.current_story_id
       (sessions (tables (fst (Navigation.handleNextStory "s1"
              (PokerSession.mkState (Some Sample.sprint) [] (stories Sample.db) 0
                 (Some "8"%string) false) Sample.world))))
     = [Some "b"; None]%string.
Proof.
  split; [|reflexivity].
  apply (handleNextStory_shows_next "s1"
           (PokerSession.mkState (Some Sample.sprint) [] (stories Sample.db) 0
              (Some "8"%string) false) 0 Sample.storyB Sample.world); reflexivity.
Defined.

(** X20. [Next], refused: when the store fails the update of the session row,
    the handler throws that error and no reset is requested, the tables are
    as they were, and yet the component already shows the next story. *)
Theorem handleNextStory_store_failure (sessionId : string) (st : PokerSession.State)
    (k : nat) (next : Story.t) (w : World) (e : PgError) :
  PokerSession.currentStoryIndex st = Z.of_nat k ->
  nth_error (PokerSession.st_stories st) (S k) = Some next ->
  fault (oracle w (tick w)) = Some e ->
  Navigation.handleNextStory sessionId st w =
    (mkWorld (tables w) (S (tick w)) (oracle w),
     (Navigation.setCurrentStoryIndex st (Z.of_nat (S k)), Throw (Thrown e))).
Proof.
  intros Hk Hn F. unfold Navigation.handleNextStory.
  assert (Hlen : (S k < length (PokerSession.st_stories st))%nat).
  { apply nth_error_Some. congruence. }
  rewrite Hk.
  destruct (Z.ltb_spec (Z.of_nat k) (Z.of_nat (length (PokerSession.st_stories st)) - 1));
    [|lia].
  replace (Z.of_nat k + 1) with (Z.of_nat (S k)) by lia.
  rewrite at_nat, Hn. cbn [option_map].
  unfold Navigation.show_story, Supabase.updateCurrentStory, bind.
  rewrite (request_fault _ _ _ F). reflexivity.
Qed.

Lemma handleNextStory_store_failure_witness :
  fault (oracle (Sample.world_failing 0) 0) = Some (mkPgError "08006" "connection failure")
  /\ PokerSession.currentStoryIndex
       (fst (snd (Navigation.handleNextStory "s1"
                    (PokerSession.mkState (Some Sample.sprint) [] (stories Sample.db) 0
                       None false) (Sample.world_failing 0)))) = 1
  /\ tables (fst (Navigation.handleNextStory "s1"
                    (PokerSession.mkState (Some Sample.sprint) [] (stories Sample.db) 0
                       None false) (Sample.world_failing 0))) = Sample.db.
Proof.
  split; [reflexivity|].
  rewrite (handleNextStory_store_failure "s1"
             (PokerSession.mkState (Some Sample.sprint) [] (stories Sample.db) 0 None false)
             0 Sample.storyB (Sample.world_failing 0)
             (mkPgError "08006" "connection failure") eq_refl eq_refl eq_refl).
  split; reflexivity.
Defined.

(** ** More on reordering *)

(** X23. [moveStory] for an id the held list does not have (an empty list
    included) makes no request and changes nothing, in either direction:
    the read of the missing story throws inside the [try]. *)
Theorem moveStory_unknown_id (held : list Story.t) (id : string)
    (direction : StoryManager.Direction) (w : World) :
  (forall x, In x held -> Story.id x <> id) ->
  StoryManager.moveStory held id direction w = (w, Return tt).
Proof.
  intros Habs. unfold StoryManager.moveStory, JS.findIndex.
  rewrite findIndex_from_absent.
  2:{ intros x Hx. apply String.eqb_neq. now apply Habs. }
  destruct (_ || _); [reflexivity|].
  unfold JS.at_ at 1. cbn [Z.ltb Z.compare]. reflexivity.
Qed.

Lemma moveStory_unknown_id_witness :
  StoryManager.moveStory (stories Sample.db) "zz" StoryManager.down Sample.world
  = (Sample.world, Return tt).
Proof.
  apply (moveStory_unknown_id (stories Sample.db) "zz" StoryManager.down Sample.world).
  intros x [<-|[<-|[<-|[]]]]; discriminate.
Defined.

Lemma story_of_key (l : list Story.t) (c s : Story.t) :
  NoDup (map Story.id l) -> In c l -> In s l -> Story.id s = Story.id c -> s = c.
Proof.
  induction l as [|x l IH]; intros Hnd Hc Hs E; [contradiction|].
  simpl in *. inversion Hnd as [|? ? Hx Hnd']; subst.
  destruct Hc as [->|Hc]; destruct Hs as [->|Hs]; try reflexivity.
  - elim Hx. rewrite <- E. now apply in_map.
  - elim Hx. rewrite E. now apply in_map.
  - now apply IH.
Qed.

(** X24. Moving a story up and then, from the refreshed list, down again gives
    back the stories table as it was.  The first list mirrors the store and
    holds the story at position [k] below its neighbour; the second list
    holds the two rows as the first move left them, the story now above. *)
Theorem moveStory_up_then_down (held held' : list Story.t) (id : string) (k k' : nat)
    (c t : Story.t) (w : World) :
  at_position held id (S k) ->
  nth_error held (S k) = Some c ->
  nth_error held k = Some t ->
  held_well_formed held ->
  mirrors held (tables w) ->
  at_position held' id k' ->
  nth_error held' k' = Some (with_order_index (Story.order_index t) c) ->
  nth_error held' (S k') = Some (with_order_index (Story.order_index c) t) ->
  held_well_formed held' ->
  (forall n, (n < 4)%nat -> fault (oracle w (n + tick w)) = None) ->
  tables (fst (StoryManager.moveStory held' id StoryManager.down
                 (fst (StoryManager.moveStory held id StoryManager.up w))))
  = tables w.
Proof.
  intros Hpos Hc Ht Hwf [Hpk Hincl] Hpos' Hc' Ht' Hwf' F.
  assert (Hk : neighbour StoryManager.up (S k) = k) by (simpl; lia).
  assert (U : StoryManager.up = StoryManager.up -> (0 < S k)%nat) by (intros _; lia).
  assert (D : StoryManager.down = StoryManager.up -> (0 < k')%nat) by discriminate.
  destruct (moveStory_done held id StoryManager.up (S k) c t w Hpos Hc
              ltac:(rewrite Hk; exact Ht) U Hwf
              (F 0%nat ltac:(lia)) (F 1%nat ltac:(lia))) as [N ->].
  cbn [fst].
  match goal with |- context [StoryManager.moveStory _ _ _ ?W] => set (w1 := W) end.
  assert (Hk' : neighbour StoryManager.down k' = S k') by (simpl; lia).
  destruct (moveStory_done held' id StoryManager.down k'
              (with_order_index (Story.order_index t) c)
              (with_order_index (Story.order_index c) t) w1 Hpos' Hc'
              ltac:(rewrite Hk'; exact Ht') D Hwf'
              (F 2%nat ltac:(lia)) (F 3%nat ltac:(lia))) as [_ ->].
  subst w1. cbn [fst tables sessions participants stories].
  assert (Ic : In c (stories (tables w))).
  { apply Hincl. eapply nth_error_In; eassumption. }
  assert (It : In t (stories (tables w))).
  { apply Hincl. eapply nth_error_In; eassumption. }
  rewrite map_map.
  rewrite (map_ext_in _ (fun x => x)).
  - rewrite map_id. now destruct (tables w).
  - intros x Hx. unfold exchanged at 2.
    destruct (Story.id x =? Story.id c)%string eqn:Ec.
    + apply String.eqb_eq in Ec. rewrite (story_of_key _ c x Hpk Ic Hx Ec).
      unfold exchanged. cbn [with_order_index Sql.patch_story Story.id Story.order_index
                              Sql.or_else Sql.st_id Sql.st_order_index].
      rewrite String.eqb_refl. now destruct c.
    + destruct (Story.id x =? Story.id t)%string eqn:Et.
      * apply String.eqb_eq in Et. rewrite (story_of_key _ t x Hpk It Hx Et).
        unfold exchanged. cbn [with_order_index Sql.patch_story Story.id Story.order_index
                                Sql.or_else Sql.st_id Sql.st_order_index].
        apply not_eq_sym in N. apply String.eqb_neq in N.
        rewrite N, String.eqb_refl. now destruct t.
      * unfold exchanged.
        cbn [with_order_index Sql.patch_story Story.id Sql.or_else Sql.st_id].
        now rewrite Ec, Et.
Qed.

Lemma moveStory_up_then_down_witness :
  tables (fst (StoryManager.moveStory
                 [Story.mk "b" (Some "s1") "B" None pending 0 21;
                  Story.mk "a" (Some "s1") "A" None pending 1 20;
                  Sample.storyC] "b" StoryManager.down
                 (fst (StoryManager.moveStory (stories Sample.db) "b" StoryManager.up
                         Sample.world))))
  = tables Sample.world.
Proof.
  assert (P : at_position (stories Sample.db) "b" 1).
  { exists [Sample.storyA], Sample.storyB, [Sample.storyC].
    repeat split. intros x [<-|[]]. discriminate. }
  assert (W : held_well_formed (stories Sample.db)).
  { split; [apply distinct_NoDup; reflexivity | repeat constructor]. }
  assert (M : mirrors (stories Sample.db) (tables Sample.world)).
  { split; [apply distinct_NoDup; reflexivity | intros x Hx; exact Hx]. }
  assert (P' : at_position [Story.mk "b" (Some "s1") "B" None pending 0 21;
                            Story.mk "a" (Some "s1") "A" None pending 1 20;
                            Sample.storyC] "b" 0).
  { exists [], (Story.mk "b" (Some "s1") "B" None pending 0 21),
      [Story.mk "a" (Some "s1") "A" None pending 1 20; Sample.storyC].
    repeat split. intros x []. }
  assert (W' : held_well_formed [Story.mk "b" (Some "s1") "B" None pending 0 21;
                                 Story.mk "a" (Some "s1") "A" None pending 1 20;
                                 Sample.storyC]).
  { split; [apply distinct_NoDup; reflexivity | repeat constructor]. }
  assert (F : forall n, (n < 4)%nat -> fault (oracle Sample.world (n + tick Sample.world)) = None).
  { intros n _. reflexivity. }
  exact (moveStory_up_then_down (stories Sample.db) _ "b" 0 0 Sample.storyB Sample.storyA
           Sample.world P eq_refl eq_refl W M P' eq_refl eq_refl W' F).
Defined.

(** ** The dialogs of the story manager *)

Lemma trimStart_blank (s : string) :
  all_chars Text.is_space s = true -> Text.trimStart s = ""%string.
Proof.
  induction s as [|c s IH]; simpl; [reflexivity|].
  intros H. apply andb_true_iff in H. destruct H as [-> H]. now apply IH.
Qed.

Lemma trimStart_head (s : string) :
  match Text.trimStart s with
  | EmptyString => all_chars Text.is_space s = true
  | String c _ => Text.is_space c = false
  end.
Proof.
  induction s as [|c s IH]; simpl; [reflexivity|].
  destruct (Text.is_space c) eqn:E; [|exact E].
  destruct (Text.trimStart s); simpl; [exact IH | exact IH].
Qed.

Lemma trimEnd_empty (s : string) :
  Text.trimEnd s = ""%string -> all_chars Text.is_space s = true.
Proof.
  induction s as [|c s IH]; simpl; [reflexivity|].
  destruct (Text.trimEnd s) eqn:E; [|discriminate].
  destruct (Text.is_space c); [|discriminate].
  intros _. now apply IH.
Qed.

Lemma trim_blank (s : string) :
  Text.trim s = ""%string <-> all_chars Text.is_space s = true.
Proof.
  unfold Text.trim. split.
  - intros H. apply trimEnd_empty in H.
    pose proof (trimStart_head s) as T.
    destruct (Text.trimStart s) as [|c t]; [exact T|].
    simpl in H. rewrite T in H. discriminate H.
  - intros H. now rewrite (trimStart_blank s H).
Qed.

Lemma not_blank (s : string) :
  all_chars Text.is_space s = false -> (Text.trim s =? "")%string = false.
Proof.
  intros H. destruct (Text.trim s =? "")%string eqn:E; [|reflexivity].
  apply String.eqb_eq, trim_blank in E. congruence.
Qed.

(** X25. The add dialog: a title of ASCII white space only (the empty title
    included) makes no request.  Any other title in ASCII is sent to
    [addStory] exactly as typed, untrimmed, with the description typed (the
    empty string when nothing was typed, never [null]); whatever happens
    then, the handler returns. *)
Theorem handleAddStory_blank_title (sessionId : string) (newStory : StoryDialogs.Draft)
    (w : World) :
  (all_chars Text.is_space (StoryDialogs.d_title newStory) = true ->
   StoryDialogs.handleAddStory sessionId newStory w = (w, Return tt))
  /\ (ascii_text (StoryDialogs.d_title newStory) = true ->
      all_chars Text.is_space (StoryDialogs.d_title newStory) = false ->
      fst (StoryDialogs.handleAddStory sessionId newStory w)
      = fst (Supabase.addStory sessionId (StoryDialogs.d_title newStory)
               (Some (StoryDialogs.d_description newStory)) w)
      /\ snd (StoryDialogs.handleAddStory sessionId newStory w) = Return tt).
Proof.
  unfold StoryDialogs.handleAddStory. split.
  - intros H. apply trim_blank in H. now rewrite H.
  - intros _ H.
    destruct (Text.trim (StoryDialogs.d_title newStory) =? "")%string eqn:E.
    + apply String.eqb_eq, trim_blank in E. congruence.
    + unfold try_catch, bind.
      destruct (Supabase.addStory _ _ _ w) as [w1 [r|e]]; split; reflexivity.
Qed.

Lemma handleAddStory_blank_title_witness :
  all_chars Text.is_space "  "%string = true
  /\ ascii_text " D " = true
  /\ all_chars Text.is_space " D " = false
  /\ StoryDialogs.handleAddStory "s1" (StoryDialogs.mkDraft "  " "" pending) Sample.world
     = (Sample.world, Return tt)
  /\ map Story.title
       (stories (tables (fst (StoryDialogs.handleAddStory "s1"
                                (StoryDialogs.mkDraft " D " "" pending) Sample.world))))
     = ["A"; "B"; "C"; " D "]%string.
Proof.
  split; [reflexivity|]. split; [reflexivity|]. split; [reflexivity|]. split.
  - apply (handleAddStory_blank_title "s1" (StoryDialogs.mkDraft "  " "" pending)
             Sample.world). reflexivity.
  - rewrite (proj1 (proj2 (handleAddStory_blank_title "s1"
                             (StoryDialogs.mkDraft " D " "" pending) Sample.world)
                      eq_refl eq_refl)).
    reflexivity.
Defined.

(** *** Answers to an ordered query *)

Lemma order_by_is_answer {A} (key : A -> Z) (rows : list A) :
  ordered_answer key rows (Sql.order_by key rows).
Proof.
  split; [apply order_by_perm | apply order_by_sorted].
Qed.

Lemma Sorted_map_key {A B} (key : A -> Z) (key' : B -> Z) (f : A -> B) (l : list A) :
  (forall x, key' (f x) = key x) ->
  Sorted (by_key key) l -> Sorted (by_key key') (map f l).
Proof.
  intros Hk Hs. induction Hs as [|x l Hs IH Hd]; simpl; constructor.
  - exact IH.
  - destruct Hd as [|y l Hxy]; simpl; constructor.
    unfold by_key in *. now rewrite !Hk.
Qed.

Lemma key_determines_row {A} (key : A -> Z) (l : list A) (x y : A) :
  NoDup (map key l) -> In x l -> In y l -> key x = key y -> x = y.
Proof.
  induction l as [|z l IH]; simpl; [contradiction|].
  intros Hn Hx Hy E. apply NoDup_cons_iff in Hn. destruct Hn as [Hz Hn].
  destruct Hx as [<- | Hx], Hy as [<- | Hy].
  - reflexivity.
  - elim Hz. rewrite E. now apply in_map.
  - elim Hz. rewrite <- E. now apply in_map.
  - now apply IH.
Qed.

(** Two answers with the same rows are the same list when no two rows
    share a key. *)
Lemma answer_unique {A} (key : A -> Z) (l l' : list A) :
  Permutation l l' ->
  Sorted (by_key key) l -> Sorted (by_key key) l' ->
  (forall x y, In x l -> In y l -> key x = key y -> x = y) ->
  l = l'.
Proof.
  revert l'. induction l as [|x l IH]; intros l' P S S' Inj.
  - now apply Permutation_nil in P.
  - destruct l' as [|y l'].
    + apply Permutation_sym, Permutation_nil in P. discriminate P.
    + assert (Lx := Sorted_extends (by_key_transitive key) S).
      assert (Ly := Sorted_extends (by_key_transitive key) S').
      rewrite Forall_forall in Lx, Ly.
      assert (Hy : In y (x :: l)).
      { apply (Permutation_in y (Permutation_sym P)). now left. }
      assert (Hx : In x (y :: l')).
      { apply (Permutation_in x P). now left. }
      assert (Exy : key x = key y).
      { unfold by_key in Lx, Ly.
        assert (key x <= key y).
        { destruct Hy as [<- | Hy]; [lia | now apply Lx]. }
        assert (key y <= key x).
        { destruct Hx as [<- | Hx]; [lia | now apply Ly]. }
        lia. }
      assert (E : x = y).
      { apply Inj; [now left | exact Hy | exact Exy]. }
      subst y. f_equal.
      apply IH.
      * now apply Permutation_cons_inv in P.
      * now inversion S.
      * now inversion S'.
      * intros a b Ha Hb. apply Inj; now right.
Qed.

(** Rows that keep their session and a column [col] answer a query on the
    session with the same values of [col]. *)
Lemma filter_session_kept {B} (col : Story.t -> B) (sessionId : string)
    (l l' : list Story.t) :
  Forall2 (fun s s' => Story.session_id s' = Story.session_id s /\ col s' = col s) l l' ->
  map col (filter (fun s => Sql.eq_col (Story.session_id s) sessionId) l')
  = map col (filter (fun s => Sql.eq_col (Story.session_id s) sessionId) l).
Proof.
  intros H. induction H as [|s s' l l' [Es Ec] _ IH]; simpl; [reflexivity|].
  rewrite Es. destruct (Sql.eq_col (Story.session_id s) sessionId); simpl;
    now rewrite IH, ?Ec.
Qed.

(** X26. The edit dialog changes the title, the description and the status of
    the story and nothing else.  Whatever the store answers, the handler
    returns, every row keeps its id, session, order index and creation time,
    rows with another id are the same rows, and the other tables are the
    same.  When the title is ASCII text and not blank and the store carries
    the update out, every row with the story's id has the title, the
    description and the status the dialog holds, a [null] description
    included.  The stories of a session are answered with the same ids and
    the same order indices before and after the edit; in whatever order the
    store answers stories of equal order index, the sequence of order
    indices is the same, and when no two stories of the session share an
    order index the ids come in the same order. *)
Theorem handleEditStory_frame (editingStory : option StoryDialogs.Edited) (sessionId : string)
    (w : World) :
  let w' := fst (StoryDialogs.handleEditStory editingStory w) in
  let of_session := fun d : DB =>
    filter (fun s => Sql.eq_col (Story.session_id s) sessionId) (stories d) in
  snd (StoryDialogs.handleEditStory editingStory w) = Return tt
  /\ sessions (tables w') = sessions (tables w)
  /\ participants (tables w') = participants (tables w)
  /\ Forall2 (fun s s' =>
        Story.id s' = Story.id s
        /\ Story.session_id s' = Story.session_id s
        /\ Story.order_index s' = Story.order_index s
        /\ Story.created_at s' = Story.created_at s
        /\ (forall e, editingStory = Some e -> Story.id s <> StoryDialogs.e_id e -> s' = s))
       (stories (tables w)) (stories (tables w'))
  /\ (forall e, editingStory = Some e ->
        ascii_text (StoryDialogs.e_title e) = true ->
        all_chars Text.is_space (StoryDialogs.e_title e) = false ->
        fault (oracle w (tick w)) = None ->
        forall s', In s' (stories (tables w')) -> Story.id s' = StoryDialogs.e_id e ->
          Story.title s' = StoryDialogs.e_title e
          /\ Story.description s' = StoryDialogs.e_description e
          /\ Story.status s' = StoryDialogs.e_status e)
  /\ (forall before after,
        ordered_answer Story.order_index (of_session (tables w)) before ->
        ordered_answer Story.order_index (of_session (tables w')) after ->
        Permutation (map Story.id before) (map Story.id after)
        /\ map Story.order_index after = map Story.order_index before
        /\ (NoDup (map Story.order_index (of_session (tables w))) ->
            map Story.id after = map Story.id before)).
Proof.
  intros w' of_session.
  assert (Frame :
    snd (StoryDialogs.handleEditStory editingStory w) = Return tt
    /\ sessions (tables w') = sessions (tables w)
    /\ participants (tables w') = participants (tables w)
    /\ Forall2 (fun s s' =>
          Story.id s' = Story.id s
          /\ Story.session_id s' = Story.session_id s
          /\ Story.order_index s' = Story.order_index s
          /\ Story.created_at s' = Story.created_at s
          /\ (forall e, editingStory = Some e -> Story.id s <> StoryDialogs.e_id e -> s' = s))
         (stories (tables w)) (stories (tables w'))).
  { subst w'.
    assert (Same : forall l : list Story.t,
              Forall2 (fun s s' =>
                Story.id s' = Story.id s
                /\ Story.session_id s' = Story.session_id s
                /\ Story.order_index s' = Story.order_index s
                /\ Story.created_at s' = Story.created_at s
                /\ (forall e, editingStory = Some e -> Story.id s <> StoryDialogs.e_id e -> s' = s))
                l l).
    { intros l. apply Forall2_same. intros; repeat split. }
    unfold StoryDialogs.handleEditStory.
    destruct editingStory as [e|]; [|cbn; repeat split; apply Same].
    destruct (Text.trim (StoryDialogs.e_title e) =? "")%string;
      [cbn; repeat split; apply Same|].
    unfold try_catch, Supabase.updateStory, bind.
    destruct (fault (oracle w (tick w))) as [err|] eqn:F.
    - rewrite (request_fault _ _ _ F). cbn. repeat split; apply Same.
    - rewrite request_done by exact F.
      unfold Sql.update_stories.
      destruct (existsb _ (stories (tables w))) eqn:E; cbn [negb].
      + cbn [Sql.st_id Sql.st_session_id Sql.fk_ok negb Sql.st_order_index Sql.or_else].
        cbn [Sql.in_int4 Z.leb Z.compare andb negb fst snd error Supabase.rethrow ret
             tables sessions participants stories].
        split; [reflexivity|]. split; [reflexivity|]. split; [reflexivity|].
        apply update_rows_Forall2. intros s _.
        destruct (Story.id s =? StoryDialogs.e_id e)%string eqn:Es.
        * repeat split. intros e' [= <-] N. apply String.eqb_eq in Es. now elim N.
        * repeat split.
      + cbn. repeat split; apply Same. }
  destruct Frame as (R & Hs & Hp & Hst).
  split; [exact R|]. split; [exact Hs|]. split; [exact Hp|]. split; [exact Hst|]. split.
  - intros e -> _ Hnb F s'. subst w'.
    unfold StoryDialogs.handleEditStory. rewrite (not_blank _ Hnb).
    unfold try_catch, Supabase.updateStory, bind.
    rewrite request_done by exact F.
    unfold Sql.update_stories.
    destruct (existsb _ (stories (tables w))) eqn:E; cbn [negb].
    + cbn [Sql.st_id Sql.st_session_id Sql.fk_ok negb Sql.st_order_index Sql.or_else].
      cbn [Sql.in_int4 Z.leb Z.compare andb negb fst snd error Supabase.rethrow ret
           tables sessions participants stories].
      intros Hin Hid. apply in_update_rows in Hin. destruct Hin as [x [_ ->]].
      destruct (Story.id x =? StoryDialogs.e_id e)%string eqn:Ex.
      * repeat split.
      * apply String.eqb_neq in Ex. now elim Ex.
    + cbn [fst snd error Supabase.rethrow ret tables stories].
      intros Hin Hid. exfalso.
      assert (T : existsb (fun s => (Story.id s =? StoryDialogs.e_id e)%string)
                    (stories (tables w)) = true).
      { apply existsb_exists. exists s'. split; [exact Hin | now apply String.eqb_eq]. }
      congruence.
  - intros before after [Pb Sb] [Pa Sa].
    set (k := fun s : Story.t => (Story.order_index s, Story.id s)).
    assert (Ek : map k (of_session (tables w')) = map k (of_session (tables w))).
    { subst of_session. cbv beta. apply filter_session_kept.
      eapply Forall2_impl; [|exact Hst].
      intros a b (Ei & Es & Eo & _). subst k. cbv beta. now rewrite Ei, Eo. }
    assert (Pk : Permutation (map k before) (map k after)).
    { eapply perm_trans; [apply Permutation_sym, Permutation_map, Pb|].
      rewrite <- Ek. now apply Permutation_map. }
    assert (Sk : forall l, Sorted (by_key Story.order_index) l ->
                           Sorted (by_key (@fst Z string)) (map k l)).
    { intros l. now apply Sorted_map_key. }
    split; [|split].
    + apply (Permutation_map snd) in Pk. now rewrite !map_map in Pk.
    + assert (Po : Permutation (map Story.order_index before) (map Story.order_index after)).
      { apply (Permutation_map fst) in Pk. now rewrite !map_map in Pk. }
      symmetry.
      apply (answer_unique (fun z : Z => z)); [exact Po | | | ].
      * now apply Sorted_map_key with (key := Story.order_index).
      * now apply Sorted_map_key with (key := Story.order_index).
      * intros x y _ _ E. exact E.
    + intros N.
      assert (Nb : NoDup (map (@fst Z string) (map k before))).
      { rewrite map_map. cbn [fst].
        eapply Permutation_NoDup; [apply Permutation_map, Pb | exact N]. }
      assert (Eq : map k before = map k after).
      { apply (answer_unique (@fst Z string)); [exact Pk | now apply Sk | now apply Sk |].
        intros x y Hx Hy. now apply key_determines_row with (l := map k before). }
      apply (f_equal (map snd)) in Eq. rewrite !map_map in Eq. symmetry. exact Eq.
Qed.

Lemma handleEditStory_frame_witness :
  let e := StoryDialogs.mkEdited "b" "B2" None estimated in
  let w' := fst (StoryDialogs.handleEditStory (Some e) Sample.world) in
  ascii_text "B2" = true
  /\ all_chars Text.is_space "B2" = false
  /\ fault (oracle Sample.world (tick Sample.world)) = None
  /\ In (Story.mk "b" (Some "s1") "B2" None estimated 1 21) (stories (tables w'))
  /\ (forall s', In s' (stories (tables w')) -> Story.id s' = "b"%string ->
        Story.title s' = "B2"%string /\ Story.description s' = None
        /\ Story.status s' = estimated)
  /\ map Story.id (ordered_stories "s1" (tables w')) = ["a"; "b"; "c"]%string.
Proof.
  intros e w'.
  pose proof (handleEditStory_frame (Some e) "s1" Sample.world) as H.
  cbv zeta in H. destruct H as (_ & _ & _ & _ & Hset & Hord).
  split; [reflexivity|]. split; [reflexivity|]. split; [reflexivity|].
  split; [vm_compute; tauto|]. split.
  - exact (Hset e eq_refl eq_refl eq_refl eq_refl).
  - assert (N : NoDup (map Story.order_index
                         (filter (fun s => Sql.eq_col (Story.session_id s) "s1")
                            (stories (tables Sample.world))))).
    { vm_compute. repeat constructor; simpl; intuition discriminate. }
    destruct (Hord (ordered_stories "s1" (tables Sample.world))
                   (ordered_stories "s1" (tables w'))
                   (order_by_is_answer _ _) (order_by_is_answer _ _))
      as (_ & _ & Hsame).
    rewrite (Hsame N). reflexivity.
Defined.







(** ** Stores a client can reach *)

Lemma NoDup_snoc {A} (l : list A) (x : A) : NoDup l -> ~ In x l -> NoDup (l ++ [x]).
Proof.
  intros Hl Hx. apply NoDup_app; [exact Hl | repeat constructor; intros [] |].
  intros a Ha [<-|[]]. contradiction.
Qed.

Lemma existsb_key_false {A} (key : A -> string) (k : string) (l : list A) :
  existsb (fun x => (key x =? k)%string) l = false -> ~ In k (map key l).
Proof.
  intros H Hin. apply in_map_iff in Hin. destruct Hin as [x [E Hx]].
  assert (T : existsb (fun x => (key x =? k)%string) l = true).
  { apply existsb_exists. exists x. split; [exact Hx | now apply String.eqb_eq]. }
  congruence.
Qed.

Lemma same_key_same_row {A B} (f : A -> B) (l : list A) (a b : A) :
  NoDup (map f l) -> In a l -> In b l -> f a = f b -> a = b.
Proof.
  induction l as [|x l IH]; intros Hnd Ha Hb E; [contradiction|].
  simpl in *. inversion Hnd as [|? ? Hx Hnd']; subst.
  destruct Ha as [->|Ha]; destruct Hb as [->|Hb]; try reflexivity.
  - elim Hx. rewrite E. now apply in_map.
  - elim Hx. rewrite <- E. now apply in_map.
  - now apply IH.
Qed.

Lemma map_update_rows_key {A B} (key : A -> B) (p : A -> bool) (f : A -> A) (l : list A) :
  (forall x, key (f x) = key x) -> map key (Sql.update_rows p f l) = map key l.
Proof.
  intros H. unfold Sql.update_rows. rewrite map_map. apply map_ext.
  intros x. now destruct (p x).
Qed.

Lemma has_session_In (d : DB) (sid : string) :
  Sql.has_session d sid = true <-> exists s, In s (sessions d) /\ Session.id s = sid.
Proof.
  unfold Sql.has_session. rewrite existsb_exists. split.
  - intros [s [H E]]. exists s. split; [exact H | now apply String.eqb_eq].
  - intros [s [H E]]. exists s. split; [exact H | now apply String.eqb_eq].
Qed.

(** A write keeps the store sound when the sessions that were there keep
    their ids and organizers, every participant row either is an old row
    with its id, session and organizer flag or is a row that breaks nothing,
    and the keys stay unique. *)
Lemma store_ok_after (d d' : DB) :
  store_ok d ->
  NoDup (map Session.id (sessions d')) ->
  NoDup (map Session.room_code (sessions d')) ->
  (forall s, In s (sessions d) ->
     exists s', In s' (sessions d') /\ Session.id s' = Session.id s
                /\ Session.organizer_id s' = Session.organizer_id s) ->
  NoDup (map Participant.id (participants d')) ->
  (forall p', In p' (participants d') ->
     (exists p, In p (participants d)
                /\ Participant.is_organizer p' = Participant.is_organizer p
                /\ Participant.session_id p' = Participant.session_id p
                /\ Participant.id p' = Participant.id p)
     \/ ((Participant.is_organizer p' = false \/ Participant.session_id p' = None)
         /\ forall sid, Participant.session_id p' = Some sid ->
              Sql.has_session d sid = true)) ->
  NoDup (map Story.id (stories d')) ->
  (forall s sid, In s (stories d') -> Story.session_id s = Some sid ->
     Sql.has_session d sid = true) ->
  store_ok d'.
Proof.
  intros [[K1 [K2 [K3 K4]]] [[R1 R2] O]] Hid Hrc Hs Hp Hps Hst Hsts.
  assert (HS : forall sid, Sql.has_session d sid = true -> Sql.has_session d' sid = true).
  { intros sid H. apply has_session_In in H. destruct H as [s [H1 H2]].
    destruct (Hs s H1) as (s' & H3 & H4 & _).
    apply has_session_In. exists s'. split; [exact H3 | congruence]. }
  split; [|split].
  - repeat split; assumption.
  - split.
    + intros p' sid Hin Hsid. apply HS.
      destruct (Hps p' Hin) as [(p & Hp' & _ & E & _)|[_ E]].
      * apply (R1 p); [exact Hp' | congruence].
      * now apply E.
    + intros s sid Hin Hsid. apply HS. now apply (Hsts s).
  - intros p' sid Hin Horg Hsid.
    destruct (Hps p' Hin) as [(p & Hp' & Eorg & Esid & Eid)|[[E|E] _]];
      [|congruence|congruence].
    destruct (O p sid Hp') as (s & Hs1 & Hs2 & Hs3); [congruence | congruence|].
    destruct (Hs s Hs1) as (s' & H1 & H2 & H3).
    exists s'. repeat split; [exact H1 | congruence | congruence].
Qed.

Ltac same_sessions :=
  intros ? ?; eexists; split; [eassumption | split; reflexivity].

Ltac same_participants :=
  intros ? ?; left; eexists; split; [eassumption | repeat split].

Lemma insert_participant_ok session_id name avatar is_organizer has_voted :
  is_organizer = false \/ session_id = None ->
  stmt_preserves store_ok (Sql.insert_participant session_id name avatar is_organizer has_voted).
Proof.
  intros Hnew env d H. unfold Sql.insert_participant.
  destruct (existsb _ _) eqn:E; [exact H|].
  destruct (Sql.fk_ok d session_id) eqn:FK; [|exact H].
  cbn [negb fst]. pose proof H as [[K1 [K2 [K3 K4]]] [[R1 R2] O]].
  apply (store_ok_after d); cbn [sessions participants stories]; try assumption.
  - same_sessions.
  - rewrite map_app. apply NoDup_snoc; [exact K3|].
    cbn [map Participant.id]. now apply existsb_key_false.
  - intros p' Hin. apply in_app_or in Hin. destruct Hin as [Hin|[<-|[]]].
    + left. exists p'. repeat split. exact Hin.
    + right. cbn [Participant.is_organizer Participant.session_id]. split.
      * destruct Hnew; [now left | now right].
      * intros sid ->. exact FK.
Qed.

Lemma insert_session_ok room_code name organizer_id votes_revealed :
  stmt_preserves store_ok (Sql.insert_session room_code name organizer_id votes_revealed).
Proof.
  intros env d H. unfold Sql.insert_session.
  destruct (existsb _ _ || existsb _ _) eqn:E; [exact H|].
  apply orb_false_iff in E. destruct E as [E1 E2].
  cbn [fst]. pose proof H as [[K1 [K2 [K3 K4]]] [[R1 R2] O]].
  apply (store_ok_after d); cbn [sessions participants stories]; try assumption.
  - rewrite map_app. apply NoDup_snoc; [exact K1|].
    cbn [map Session.id]. now apply existsb_key_false.
  - rewrite map_app. apply NoDup_snoc; [exact K2|].
    cbn [map Session.room_code]. now apply existsb_key_false.
  - intros s Hs. exists s. split; [apply in_or_app; now left | split; reflexivity].
  - same_participants.
Qed.

Lemma insert_story_ok session_id title description order_index :
  stmt_preserves store_ok (Sql.insert_story session_id title description order_index).
Proof.
  intros env d H. unfold Sql.insert_story.
  destruct (existsb _ _) eqn:E; [exact H|].
  destruct (Sql.has_session d session_id) eqn:FK; [|exact H].
  destruct (Sql.in_int4 order_index); [|exact H].
  cbn [negb fst]. pose proof H as [[K1 [K2 [K3 K4]]] [[R1 R2] O]].
  apply (store_ok_after d); cbn [sessions participants stories]; try assumption.
  - same_sessions.
  - same_participants.
  - rewrite map_app. apply NoDup_snoc; [exact K4|].
    cbn [map Story.id]. now apply existsb_key_false.
  - intros s sid Hin Hsid. apply in_app_or in Hin. destruct Hin as [Hin|[<-|[]]].
    + now apply (R2 s).
    + cbn [Story.session_id] in Hsid. congruence.
Qed.

Lemma update_sessions_ok u p : stmt_preserves store_ok (Sql.update_sessions u p).
Proof.
  intros env d H. cbn [Sql.update_sessions fst].
  pose proof H as [[K1 [K2 [K3 K4]]] [[R1 R2] O]].
  apply (store_ok_after d); cbn [sessions participants stories]; try assumption.
  - rewrite map_update_rows_key; [exact K1 | reflexivity].
  - rewrite map_update_rows_key; [exact K2 | reflexivity].
  - intros s Hs. exists (if p s then Sql.patch_session u s else s). split.
    + unfold Sql.update_rows. apply in_map_iff. exists s. now split.
    + destruct (p s); split; reflexivity.
  - same_participants.
Qed.

Lemma update_participants_ok u p :
  Sql.pp_session_id u = None ->
  stmt_preserves store_ok (Sql.update_participants u p).
Proof.
  intros Hu env d H. rewrite update_participants_plain by exact Hu. cbn [fst].
  pose proof H as [[K1 [K2 [K3 K4]]] [[R1 R2] O]].
  apply (store_ok_after d); cbn [sessions participants stories]; try assumption.
  - same_sessions.
  - rewrite map_update_rows_key; [exact K3 | reflexivity].
  - intros p' Hin. apply in_update_rows in Hin. destruct Hin as [x [Hx ->]].
    left. exists x. split; [exact Hx|].
    destruct (p x); [|repeat split].
    unfold Sql.patch_participant. rewrite Hu. repeat split.
Qed.

Lemma update_stories_ok u p : stmt_preserves store_ok (Sql.update_stories u p).
Proof.
  intros env d H. unfold Sql.update_stories.
  destruct (negb (existsb p (stories d))); [exact H|].
  destruct (match Sql.st_id u with Some _ => _ | None => _ end) eqn:D; [exact H|].
  destruct (Sql.fk_ok d (Sql.st_session_id u)) eqn:FK; [|exact H].
  destruct (Sql.in_int4 _); [|exact H].
  cbn [negb fst]. pose proof H as [[K1 [K2 [K3 K4]]] [[R1 R2] O]].
  apply (store_ok_after d); cbn [sessions participants stories]; try assumption.
  - same_sessions.
  - same_participants.
  - destruct (Sql.st_id u) as [i|] eqn:Ei.
    + apply distinct_NoDup. now apply negb_false_iff in D.
    + rewrite map_update_rows_key; [exact K4|].
      intros x. unfold Sql.patch_story. now rewrite Ei.
  - intros s sid Hin Hsid. apply in_update_rows in Hin. destruct Hin as [x [Hx ->]].
    destruct (p x); [|now apply (R2 x)].
    unfold Sql.patch_story in Hsid. cbn [Story.session_id] in Hsid.
    destruct (Sql.st_session_id u) as [r|] eqn:Er.
    + injection Hsid as <-. exact FK.
    + now apply (R2 x).
Qed.

Lemma delete_stories_ok p : stmt_preserves store_ok (Sql.delete_stories p).
Proof.
  intros env d H. cbn [Sql.delete_stories fst].
  pose proof H as [[K1 [K2 [K3 K4]]] [[R1 R2] O]].
  apply (store_ok_after d); cbn [sessions participants stories]; try assumption.
  - same_sessions.
  - same_participants.
  - now apply NoDup_map_filter.
  - intros s sid Hin Hsid. apply filter_In in Hin. now apply (R2 s).
Qed.

Lemma delete_participants_ok p : stmt_preserves store_ok (Sql.delete_participants p).
Proof.
  intros env d H. cbn [Sql.delete_participants fst].
  pose proof H as [[K1 [K2 [K3 K4]]] [[R1 R2] O]].
  apply (store_ok_after d); cbn [sessions participants stories]; try assumption.
  - same_sessions.
  - now apply NoDup_map_filter.
  - intros p' Hin. apply filter_In in Hin. left. exists p'. repeat split. tauto.
Qed.

#[local] Hint Resolve insert_session_ok insert_story_ok update_sessions_ok
  update_stories_ok delete_stories_ok delete_participants_ok : preserve.

Lemma insert_session_answer (room_code name organizer_id : string) (votes_revealed : bool)
    (w w' : World) (r : Response Session.t) (s : Session.t) :
  request (Sql.insert_session room_code name organizer_id votes_revealed) w = (w', Return r) ->
  data r = Some s ->
  In s (sessions (tables w')) /\ Session.organizer_id s = organizer_id.
Proof.
  unfold request. destruct (fault _).
  - intros [= <- <-]. discriminate.
  - unfold Sql.insert_session. destruct (_ || _).
    + intros [= <- <-]. discriminate.
    + intros [= <- <-] [= <-]. cbn [tables sessions]. split; [|reflexivity].
      apply in_or_app. right. now left.
Qed.

(** The patch of [createSession]: the rows with the organizer's id are put
    into the session that names that id as its organizer. *)
Lemma patch_organizer_ok (session : Session.t) (participantId : string) (env : Env) (d : DB) :
  store_ok d -> In session (sessions d) ->
  Session.organizer_id session = participantId ->
  store_ok (fst (Sql.update_participants
                   (Sql.mkParticipantPatch (Some (Session.id session)) None None None)
                   (fun p => (Participant.id p =? participantId)%string) env d)).
Proof.
  intros H Hin Horg. unfold Sql.update_participants.
  destruct (_ && _); [exact H|]. cbn [fst].
  destruct H as [[K1 [K2 [K3 K4]]] [[R1 R2] O]].
  split; [|split].
  - repeat split; cbn [sessions participants stories]; try assumption.
    rewrite map_update_rows_key; [exact K3 | reflexivity].
  - split; cbn [participants stories].
    + intros p' sid Hp Hsid. apply in_update_rows in Hp. destruct Hp as [x [Hx ->]].
      destruct (Participant.id x =? participantId)%string.
      * cbn in Hsid. injection Hsid as <-.
        apply has_session_In. now exists session.
      * exact (R1 x sid Hx Hsid).
    + intros s sid Hs Hsid. exact (R2 s sid Hs Hsid).
  - intros p' sid Hp Hio Hsid. cbn [participants sessions] in *.
    apply in_update_rows in Hp. destruct Hp as [x [Hx ->]].
    destruct (Participant.id x =? participantId)%string eqn:E.
    + cbn in Hsid. injection Hsid as <-. exists session.
      apply String.eqb_eq in E. repeat split; [exact Hin|]. cbn. congruence.
    + exact (O x sid Hx Hio Hsid).
Qed.

Lemma createSession_ok draw name organizerName avatar :
  preserves store_ok (Supabase.createSession draw name organizerName avatar).
Proof.
  intros w H. unfold Supabase.createSession, bind.
  pose proof (preserves_request store_ok _
                (insert_participant_ok None organizerName avatar true false
                   (or_intror eq_refl)) w H) as H1.
  destruct (request_returns (Sql.insert_participant None organizerName avatar true false) w)
    as [r1 E1].
  destruct (request (Sql.insert_participant None organizerName avatar true false) w)
    as [w1 o1]. cbn [fst snd] in *. subst o1.
  unfold Supabase.unwrap at 1.
  destruct (error r1); [exact H1|]. destruct (data r1) as [organizer|]; [|exact H1].
  unfold ret at 1.
  pose proof (preserves_request store_ok _
                (insert_session_ok (Supabase.roomCode draw) name
                   (Participant.id organizer) false) w1 H1) as H2.
  destruct (request_returns (Sql.insert_session (Supabase.roomCode draw) name
                               (Participant.id organizer) false) w1) as [r2 E2].
  destruct (request (Sql.insert_session (Supabase.roomCode draw) name
                       (Participant.id organizer) false) w1) as [w2 o2] eqn:R2.
  cbn [fst snd] in *. subst o2.
  unfold Supabase.unwrap at 1.
  destruct (error r2); [exact H2|]. destruct (data r2) as [session|] eqn:D2; [|exact H2].
  unfold ret at 1.
  destruct (insert_session_answer _ _ _ _ _ _ _ _ R2 D2) as [Hin Horg].
  assert (H3 : store_ok (tables (fst (request
                (Sql.update_participants
                   (Sql.mkParticipantPatch (Some (Session.id session)) None None None)
                   (fun p => (Participant.id p =? Participant.id organizer)%string)) w2)))).
  { unfold request. destruct (fault _); [exact H2|].
    pose proof (patch_organizer_ok session (Participant.id organizer)
                  (oracle w2 (tick w2)) (tables w2) H2 Hin Horg) as P.
    destruct (Sql.update_participants _ _ _ _). exact P. }
  destruct (request_returns
              (Sql.update_participants
                 (Sql.mkParticipantPatch (Some (Session.id session)) None None None)
                 (fun p => (Participant.id p =? Participant.id organizer)%string)) w2)
    as [r3 E3].
  destruct (request _ w2) as [w3 o3]. cbn [fst snd] in *. subst o3.
  destruct (error r3); exact H3.
Qed.

Lemma perform_ok (m : Mutation) : preserves store_ok (fun w => (perform m w, Return tt)).
Proof.
  assert (P : forall (A : Type) (c : Async A), preserves store_ok c ->
                forall w, store_ok (tables w) -> store_ok (tables (fst (c w)))).
  { intros A c Hc. exact Hc. }
  intros w H. cbn [fst]. destruct m; cbn [perform]; apply P; try exact H.
  - apply createSession_ok.
  - unfold Supabase.joinSession, Supabase.joinSession_lookup, Supabase.joinSession_insert.
    apply preserves_bind.
    + apply preserves_bind; [auto with preserve|]. intros r.
      apply preserves_bind; [auto with preserve|]. intros session.
      apply preserves_bind; [auto with preserve|]. intros c.
      destruct (data c); auto with preserve.
    + intros session. apply preserves_bind.
      * apply preserves_request. apply insert_participant_ok. now left.
      * intros r. destruct (error r); auto with preserve.
  - unfold Supabase.updateParticipantVote.
    apply preserves_bind; [|auto with preserve].
    apply preserves_request. now apply update_participants_ok.
  - unfold Supabase.revealVotes. auto 6 with preserve.
  - unfold Supabase.resetVotes.
    apply preserves_bind; [auto with preserve|]. intros r1.
    apply preserves_bind; [|auto 6 with preserve].
    apply preserves_request. now apply update_participants_ok.
  - unfold Supabase.addStory.
    apply preserves_bind; [auto 6 with preserve|]. intros r0.
    apply preserves_bind; [auto with preserve|]. intros r.
    auto 6 with preserve.
  - unfold Supabase.updateStory. auto 6 with preserve.
  - unfold Supabase.deleteStory. auto 6 with preserve.
  - unfold Supabase.updateCurrentStory. auto 6 with preserve.
  - unfold Supabase.removeParticipant. auto 6 with preserve.
  - unfold Supabase.updateParticipantLastSeen.
    apply preserves_bind; [|auto with preserve].
    apply preserves_request. intros env. now apply update_participants_ok.
  - unfold StoryManager.moveStory. destruct (_ || _); [auto with preserve|].
    apply preserves_try_catch; [|auto with preserve].
    destruct (JS.at_ held _); [|auto with preserve].
    destruct (JS.at_ held _); [|auto with preserve].
    apply preserves_bind; [|auto with preserve].
    apply preserves_Promise_all2; unfold Supabase.updateStory; auto 6 with preserve.
Qed.

Lemma run_ok (ms : list Mutation) (w : World) :
  store_ok (tables w) -> store_ok (tables (run ms w)).
Proof.
  revert w. induction ms as [|m ms IH]; intros w H; [exact H|].
  cbn [run]. apply IH. exact (perform_ok m w H).
Qed.

Lemma empty_store_ok (behaviour : nat -> Env) : store_ok (tables (empty_store behaviour)).
Proof.
  split; [|split].
  - repeat split; constructor.
  - split; intros ? ? [].
  - intros ? ? [].
Qed.

(** X27. Whatever the clients do, in whatever order, and whatever the store
    answers to each request, the store stays within its schema: ids are
    unique in each table, room codes are unique, and every participant and
    story that names a session names one that exists. *)
Theorem reachable_store_respects_schema (behaviour : nat -> Env) (ms : list Mutation) :
  keys_unique (tables (run ms (empty_store behaviour)))
  /\ references_hold (tables (run ms (empty_store behaviour))).
Proof.
  destruct (run_ok ms (empty_store behaviour) (empty_store_ok behaviour)) as [K [R _]].
  now split.
Qed.

(** X28. Whatever the clients do and whatever the store answers, a session never
    has two organizers: two organizer rows of the same session are the same
    row, and it is the participant the session names as its organizer. *)
Theorem reachable_store_has_one_organizer (behaviour : nat -> Env) (ms : list Mutation)
    (p q : Participant.t) (sessionId : string) :
  let d := tables (run ms (empty_store behaviour)) in
  In p (participants d) -> In q (participants d) ->
  Participant.is_organizer p = true -> Participant.is_organizer q = true ->
  Participant.session_id p = Some sessionId ->
  Participant.session_id q = Some sessionId ->
  p = q
  /\ exists s, In s (sessions d) /\ Session.id s = sessionId
               /\ Session.organizer_id s = Participant.id p.
Proof.
  intros d Hp Hq Op Oq Sp Sq.
  destruct (run_ok ms (empty_store behaviour) (empty_store_ok behaviour))
    as [[K1 [_ [K3 _]]] [_ O]]. fold d in K1, K3, O.
  destruct (O p sessionId Hp Op Sp) as (s & Hs & Hid & Ho).
  destruct (O q sessionId Hq Oq Sq) as (s' & Hs' & Hid' & Ho').
  split; [|exists s; repeat split; assumption].
  assert (E : s = s').
  { apply (same_key_same_row Session.id (sessions d)); try assumption. congruence. }
  subst s'. apply (same_key_same_row Participant.id (participants d)); try assumption.
  congruence.
Qed.

Lemma reachable_store_has_one_organizer_witness :
  exists s,
    In s (sessions (tables (run [CreateSession Sample.draw "Sprint 1" "Alice" None;
                                 JoinSession "k3f9zq" "Bob" None]
                              (empty_store Sample.calm))))
    /\ Session.id s = "u1"%string
    /\ Session.organizer_id s = "u0"%string.
Proof.
  apply (reachable_store_has_one_organizer Sample.calm
           [CreateSession Sample.draw "Sprint 1" "Alice" None;
            JoinSession "k3f9zq" "Bob" None]
           (Participant.mk "u0" (Some "u1") "Alice" None true false None 100 100)
           (Participant.mk "u0" (Some "u1") "Alice" None true false None 100 100)
           "u1"); try reflexivity; now left.
Defined.

(** ** The setup form *)

(** X29. Joining through the form.  A room code or a name of ASCII white space
    only makes no request.  With a room code and a name typed in ASCII and
    not blank, the join runs with the values as typed and no avatar; when the
    name is taken in the session the page stays without a session, the store
    is as it was, and the user is told "Failed to join session: A participant
    with this name already exists in the session". *)
Theorem submitJoin_name_taken (typeErrorMessage roomCode userName : string)
    (hs : HomePage.State) (w : World) (s : Session.t) (p : Participant.t) :
  (all_chars Text.is_space roomCode = true \/ all_chars Text.is_space userName = true ->
   HomePage.submitJoin typeErrorMessage hs roomCode userName w = (w, hs))
  /\ (ascii_text roomCode = true ->
      ascii_text userName = true ->
      all_chars Text.is_space roomCode = false ->
      all_chars Text.is_space userName = false ->
      fst (HomePage.submitJoin typeErrorMessage hs roomCode userName w)
      = fst (Supabase.joinSession roomCode userName None w)
      /\ (fault (oracle w (tick w)) = None ->
          fault (oracle w (S (tick w))) = None ->
          filter (fun x => (Session.room_code x =? JS.toUpperCase roomCode)%string)
            (sessions (tables w)) = [s] ->
          filter (fun x => Sql.eq_col (Participant.session_id x) (Session.id s)
                           && (Participant.name x =? userName)%string)
            (participants (tables w)) = [p] ->
          HomePage.submitJoin typeErrorMessage hs roomCode userName w =
            (mkWorld (tables w) (S (S (tick w))) (oracle w),
             HomePage.mkState (HomePage.sessionState hs)
               (HomePage.alerts hs
                ++ ["Failed to join session: A participant with this name already exists in the session"%string])))).
Proof.
  unfold HomePage.submitJoin, SetupForm.handleJoinSession. split.
  - intros [H|H]; apply trim_blank in H; rewrite H; cbn [String.eqb negb andb];
      [reflexivity | now rewrite andb_false_r].
  - intros _ _ Hr Hu. rewrite (not_blank _ Hr), (not_blank _ Hu). cbn [negb andb].
    unfold HomePage.handleJoinSession. split.
    + destruct (Supabase.joinSession roomCode userName None w) as [w' [[a b]|e]];
        reflexivity.
    + intros F0 F1 Hs Hp.
      rewrite (joinSession_rejects_taken_name roomCode userName None w s p F0 F1 Hs Hp).
      reflexivity.
Qed.

Lemma submitJoin_name_taken_witness :
  ascii_text "abc123" = true
  /\ ascii_text "Bob" = true
  /\ all_chars Text.is_space "abc123" = false
  /\ all_chars Text.is_space "Bob" = false
  /\ HomePage.submitJoin "" (HomePage.mkState None []) "abc123" "Bob" Sample.world =
       (mkWorld Sample.db 2 Sample.calm,
        HomePage.mkState None
          ["Failed to join session: A participant with this name already exists in the session"%string])
  /\ HomePage.submitJoin "" (HomePage.mkState None []) "abc123" "   " Sample.world
     = (Sample.world, HomePage.mkState None []).
Proof.
  split; [reflexivity|]. split; [reflexivity|].
  split; [reflexivity|]. split; [reflexivity|]. split.
  - apply (proj2 (proj2 (submitJoin_name_taken "" "abc123" "Bob" (HomePage.mkState None [])
                           Sample.world Sample.sprint Sample.bob)
                    eq_refl eq_refl eq_refl eq_refl));
      reflexivity.
  - apply (proj1 (submitJoin_name_taken "" "abc123" "   " (HomePage.mkState None [])
                    Sample.world Sample.sprint Sample.bob)).
    now right.
Defined.

(** X30. Creating through the form.  A session name or a user name of ASCII
    white space only makes no request.  With both typed in ASCII and not
    blank, when the store carries out the three requests, the
    page holds the new session and its organizer, whose names are the ones
    typed (untrimmed), who has no avatar, and whose row carries the id of the
    session.  When the store refuses the session row, the page stays without
    a session and the user is told "Failed to create session: Failed to
    create session: ..." with the message of the store. *)
Theorem submitCreate_outcomes (typeErrorMessage : string) (draw : list nat)
    (sessionName userName : string) (hs : HomePage.State) (w : World) :
  let e0 := oracle w (tick w) in
  let e1 := oracle w (S (tick w)) in
  (all_chars Text.is_space sessionName = true \/ all_chars Text.is_space userName = true ->
   HomePage.submitCreate typeErrorMessage draw hs sessionName userName w = (w, hs))
  /\ (ascii_text sessionName = true ->
      ascii_text userName = true ->
      all_chars Text.is_space sessionName = false ->
      all_chars Text.is_space userName = false ->
      fault e0 = None ->
      existsb (fun p => (Participant.id p =? uuid e0)%string) (participants (tables w)) = false ->
      (fault e1 = None ->
       fault (oracle w (S (S (tick w)))) = None ->
       existsb (fun s => (Session.id s =? uuid e1)%string) (sessions (tables w)) = false ->
       existsb (fun s => (Session.room_code s =? Supabase.roomCode draw)%string)
         (sessions (tables w)) = false ->
       exists session organizer,
         snd (HomePage.submitCreate typeErrorMessage draw hs sessionName userName w)
         = HomePage.mkState (Some (session, Some organizer)) (HomePage.alerts hs)
         /\ Session.name session = sessionName
         /\ Session.organizer_id session = Participant.id organizer
         /\ Session.votes_revealed session = false
         /\ Session.current_story_id session = None
         /\ Participant.name organizer = userName
         /\ Participant.avatar organizer = None
         /\ Participant.is_organizer organizer = true
         /\ Participant.session_id organizer = Some (Session.id session))
      /\ (forall err, fault e1 = Some err ->
          snd (HomePage.submitCreate typeErrorMessage draw hs sessionName userName w)
          = HomePage.mkState (HomePage.sessionState hs)
              (HomePage.alerts hs
               ++ [("Failed to create session: Failed to create session: "
                    ++ message err)%string]))).
Proof.
  intros e0 e1. unfold HomePage.submitCreate, SetupForm.handleCreateSession. split.
  - intros [H|H]; apply trim_blank in H; rewrite H; cbn [String.eqb negb andb];
      [reflexivity | now rewrite andb_false_r].
  - intros _ _ Hn Hu F0 Hfresh. rewrite (not_blank _ Hn), (not_blank _ Hu). cbn [negb andb].
    unfold HomePage.handleCreateSession. split.
    + intros F1 F2 Hid Hfree.
      rewrite (createSession_done draw sessionName userName None w F0 F1 F2 Hfresh Hid Hfree).
      do 2 eexists. cbn [snd]. repeat split.
    + intros err F1.
      unfold Supabase.createSession, bind.
      rewrite (insert_organizer_done _ _ _ F0 Hfresh).
      cbn [Supabase.unwrap error data ok ret].
      rewrite request_fault with (e := err) by exact F1. reflexivity.
Qed.

Lemma submitCreate_outcomes_witness :
  ascii_text "Sprint 1" = true
  /\ ascii_text " Alice" = true
  /\ all_chars Text.is_space "Sprint 1" = false
  /\ all_chars Text.is_space " Alice" = false
  /\ snd (HomePage.submitCreate "" Sample.draw (HomePage.mkState None []) "Sprint 1" " Alice"
            (Sample.world_failing 1))
     = HomePage.mkState None
         ["Failed to create session: Failed to create session: connection failure"%string].
Proof.
  split; [reflexivity|]. split; [reflexivity|].
  split; [reflexivity|]. split; [reflexivity|].
  apply (proj2 (proj2 (submitCreate_outcomes "" Sample.draw "Sprint 1" " Alice"
                         (HomePage.mkState None []) (Sample.world_failing 1))
                  eq_refl eq_refl eq_refl eq_refl eq_refl eq_refl)
           (mkPgError "08006" "connection failure")).
  reflexivity.
Defined.

(** ** Next, then Previous; and who has voted after a reset *)

(** X21. [Next] followed by [Previous] shows the story the component started
    from, and the session row points at that story, hidden, whatever it
    pointed at before. *)
Theorem handleNextStory_then_handlePrevStory (sessionId : string)
    (st : PokerSession.State) (k : nat) (cur next : Story.t) (w : World) :
  PokerSession.currentStoryIndex st = Z.of_nat k ->
  nth_error (PokerSession.st_stories st) k = Some cur ->
  nth_error (PokerSession.st_stories st) (S k) = Some next ->
  (forall n, (n < 6)%nat -> fault (oracle w (n + tick w)) = None) ->
  let r1 := Navigation.handleNextStory sessionId st w in
  let r2 := Navigation.handlePrevStory sessionId (fst (snd r1)) (fst r1) in
  snd (snd r2) = Return tt
  /\ PokerSession.currentStoryIndex (fst (snd r2)) = Z.of_nat k
  /\ JS.at_ (PokerSession.st_stories (fst (snd r2)))
       (PokerSession.currentStoryIndex (fst (snd r2))) = Some cur
  /\ (forall s, In s (sessions (tables (fst r2))) -> Session.id s = sessionId ->
        Session.current_story_id s = Some (Story.id cur)
        /\ Session.votes_revealed s = false).
Proof.
  intros Hk Hc Hn F r1 r2. subst r2 r1.
  assert (Hlen : (S k < length (PokerSession.st_stories st))%nat).
  { apply nth_error_Some. congruence. }
  assert (E1 : Navigation.handleNextStory sessionId st w
               = Navigation.show_story sessionId st (Z.of_nat (S k))
                   (Some (Story.id next)) w).
  { unfold Navigation.handleNextStory. rewrite Hk.
    destruct (Z.ltb_spec (Z.of_nat k) (Z.of_nat (length (PokerSession.st_stories st)) - 1));
      [|lia].
    replace (Z.of_nat k + 1) with (Z.of_nat (S k)) by lia.
    now rewrite at_nat, Hn. }
  rewrite E1.
  rewrite (show_story_done sessionId (Story.id next) st (Z.of_nat (S k)) w
             (F 0%nat ltac:(lia)) (F 1%nat ltac:(lia)) (F 2%nat ltac:(lia))).
  cbn [fst snd].
  unfold Navigation.handlePrevStory.
  cbn [PokerSession.currentStoryIndex PokerSession.st_stories Navigation.setSelectedVote
       Navigation.setCurrentStoryIndex].
  destruct (Z.gtb_spec (Z.of_nat (S k)) 0); [|lia].
  replace (Z.of_nat (S k) - 1) with (Z.of_nat k) by lia.
  rewrite at_nat, Hc. cbn [option_map].
  rewrite show_story_done;
    [| exact (F 3%nat ltac:(lia)) | exact (F 4%nat ltac:(lia)) | exact (F 5%nat ltac:(lia))].
  cbn [fst snd tables sessions PokerSession.currentStoryIndex PokerSession.st_stories
       Navigation.setSelectedVote Navigation.setCurrentStoryIndex].
  split; [reflexivity|]. split; [reflexivity|]. split; [rewrite at_nat; exact Hc|].
  intros s Hs Hid. apply in_update_rows in Hs. destruct Hs as [x [Hx ->]].
  apply in_update_rows in Hx. destruct Hx as [y [_ ->]].
  destruct (Session.id y =? sessionId)%string eqn:E.
  - cbn [pointed_row Sql.patch_session Session.id]. rewrite E. split; reflexivity.
  - rewrite E in *. apply String.eqb_neq in E. now elim E.
Qed.

Lemma handleNextStory_then_handlePrevStory_witness :
  map Session.current_story_id
    (sessions (tables (fst (Navigation.handlePrevStory "s1"
       (fst (snd (Navigation.handleNextStory "s1"
                    (PokerSession.mkState (Some Sample.sprint) [] (stories Sample.db) 1
                       None false) Sample.world)))
       (fst (Navigation.handleNextStory "s1"
               (PokerSession.mkState (Some Sample.sprint) [] (stories Sample.db) 1
                  None false) Sample.world))))))
  = [Some "b"; None]%string
  /\ forall s,
       In s (sessions (tables (fst (Navigation.handlePrevStory "s1"
          (fst (snd (Navigation.handleNextStory "s1"
                       (PokerSession.mkState (Some Sample.sprint) [] (stories Sample.db) 1
                          None false) Sample.world)))
          (fst (Navigation.handleNextStory "s1"
                  (PokerSession.mkState (Some Sample.sprint) [] (stories Sample.db) 1
                     None false) Sample.world)))))) ->
       Session.id s = "s1"%string ->
       Session.current_story_id s = Some (Story.id Sample.storyB)
       /\ Session.votes_revealed s = false.
Proof.
  split; [reflexivity|].
  assert (F : forall n, (n < 6)%nat -> fault (oracle Sample.world (n + tick Sample.world)) = None).
  { intros n _. reflexivity. }
  apply (handleNextStory_then_handlePrevStory "s1"
           (PokerSession.mkState (Some Sample.sprint) [] (stories Sample.db) 1 None false)
           1 Sample.storyB Sample.storyC Sample.world eq_refl eq_refl eq_refl F).
Defined.

(** X22. After a reset and the refresh that follows it, the component reports
    "Everyone has voted" exactly when the session has nobody but organizers:
    with no voter at all the report is vacuously true, and with any voter it
    is false, since every vote was cleared. *)
Theorem allVoted_after_reset (sessionId : string) (st : PokerSession.State) (w : World) :
  fault (oracle w (tick w)) = None ->
  fault (oracle w (S (tick w))) = None ->
  fault (oracle w (S (S (tick w)))) = None ->
  exists st',
    snd (Realtime.onParticipantsChange sessionId st (fst (Supabase.resetVotes sessionId w)))
    = Return st'
    /\ (PokerSession.allVoted st' = true <->
        forall p, In p (participants (tables w)) ->
          Participant.session_id p = Some sessionId ->
          Participant.is_organizer p = true).
Proof.
  intros F0 F1 F2. rewrite (resetVotes_done sessionId w F0 F1). cbn [fst].
  rewrite onParticipantsChange_done by exact F2.
  eexists. split; [reflexivity|].
  unfold PokerSession.allVoted. cbn [PokerSession.st_participants].
  unfold ordered_participants. cbn [tables participants].
  set (sessp := fun p => Sql.eq_col (Participant.session_id p) sessionId).
  set (l := participants (tables w)).
  set (L := Sql.order_by Participant.joined_at
              (filter sessp (Sql.update_rows sessp cleared_row l))).
  assert (InL : forall x, In x L <->
                  exists p, In p l /\ sessp p = true /\ x = cleared_row p).
  { intros x. subst L. split.
    - intros H. apply (Permutation_in _ (Permutation_sym (order_by_perm _ _))) in H.
      apply filter_In in H. destruct H as [H Hx].
      apply in_update_rows in H. destruct H as [p [Hp ->]].
      exists p. destruct (sessp p) eqn:E; [now repeat split|].
      rewrite E in Hx. discriminate Hx.
    - intros (p & Hp & Hs & ->).
      apply (Permutation_in _ (order_by_perm _ _)). apply filter_In. split.
      + unfold Sql.update_rows. apply in_map_iff. exists p. now rewrite Hs.
      + exact Hs. }
  rewrite forallb_forall. split.
  - intros H p Hp Hsid.
    destruct (Participant.is_organizer p) eqn:Eo; [reflexivity|].
    assert (Hs : sessp p = true) by (now apply eq_col_true).
    specialize (H (cleared_row p)). cbn in H. apply H.
    apply filter_In. split.
    + apply InL. now exists p.
    + cbn. now rewrite Eo.
  - intros H x Hx. apply filter_In in Hx. destruct Hx as [Hx Ho].
    apply InL in Hx. destruct Hx as (p & Hp & Hs & ->).
    apply eq_col_true in Hs.
    change (Participant.is_organizer (cleared_row p)) with (Participant.is_organizer p) in Ho.
    rewrite (H p Hp Hs) in Ho. discriminate Ho.
Qed.

Lemma allVoted_after_reset_witness :
  exists st',
    snd (Realtime.onParticipantsChange "s2" PokerSession.initial
           (fst (Supabase.resetVotes "s2" Sample.world))) = Return st'
    /\ PokerSession.allVoted st' = true.
Proof.
  destruct (allVoted_after_reset "s2" PokerSession.initial Sample.world
              eq_refl eq_refl eq_refl) as (st' & H1 & H2).
  exists st'. split; [exact H1|]. apply H2.
  intros p [<-|[<-|[<-|[]]]]; intros E; (discriminate E || reflexivity).
Defined.
